(** * CRM service: models, filters and mutations of [crm/] as a shallow embedding

    The development follows the layout of the repository:
    - [Py], [Re]  the Python built-ins the service relies on: [int], [str],
                  truthiness, [str.join], [decimal.Decimal], and
                  [re.match] on the fragment of patterns the code uses;
    - [Customer], [Product], [Order], [DB]
                  [crm/models.py]: the three record types, and the tables
                  of an explicit database state;
    - [Storage]   the object-manager calls used by the service
                  ([objects.create], [objects.get], [objects.filter], the
                  many-to-many [set]);
    - [CustomerFilter], [ProductFilter]
                  [crm/filters.py]: the two custom filter methods and
                  the declared upper stock bound;
    - [CreateCustomer], [BulkCreateCustomers], [CreateProduct],
      [CreateOrder], [Query]
                  [crm/schema.py]: validators, mutations and resolvers;
    - [seed_db]   [seed_db.py]: the seeding script, with the lines it
                  prints.

    Conventions.  Strings are ASCII text.  Timestamps and dates are
    instants on one integer axis; a mutation reads the clock once, as
    [now].  A GraphQL [Float] criterion is carried as the decimal the
    [DecimalField] lookup converts it to, so a float is falsy exactly
    when that decimal is zero.  The width limits of the storage columns
    ([max_length], [max_digits]) belong to the storage engine and are not
    part of the model; uniqueness, checks and primary keys are.  Primary
    keys are handed out in increasing order and never reused, also after
    a delete.

    Reach of the storage model.  Three behaviours of the storage engine
    lie outside it, and the statements that would depend on them say so
    in a hypothesis:
    - keys are unbounded integers, where the engine holds signed 64-bit
      keys and its binding raises [OverflowError] on an [id__in] lookup
      of a larger number ([key_range]);
    - decimals are finite and a stored price is read back as it was
      given, where the price column rounds to two places and holds ten
      digits, and the GraphQL layer also lets [NaN] and the infinities
      through ([stored_as_given]);
    - [startswith] compares characters as they are, where the [LIKE] of
      SQLite ignores the case of ASCII letters ([no_letter]);
      [icontains] lowers both sides. *)

From Stdlib Require Import ZArith QArith Qpower Bool List Ascii String Lia Permutation.
From Stdlib Require Import Numbers.DecimalString Numbers.DecimalZ Numbers.DecimalPos.
From Stdlib Require Import Sorting.Sorted.
Import ListNotations.

Local Open Scope string_scope.
Local Open Scope Z_scope.

(* ===================================================================== *)
(** ** Python built-ins *)
(* ===================================================================== *)

Module Py.

(** Character classes, on ASCII codes.  [isspace] is the whitespace class
    shared by [str.strip], [int] and the pattern escape [\s]; [isdigit]
    is [\d]. *)
Definition isspace (c : ascii) : bool :=
  let n := nat_of_ascii c in
  ((9 <=? n) && (n <=? 13) || (28 <=? n) && (n <=? 32))%nat.

Definition isdigit (c : ascii) : bool :=
  let n := nat_of_ascii c in ((48 <=? n) && (n <=? 57))%nat.

Definition lower_char (c : ascii) : ascii :=
  let n := nat_of_ascii c in
  if ((65 <=? n) && (n <=? 90))%nat then ascii_of_nat (n + 32) else c.

Fixpoint lower (s : string) : string :=
  match s with
  | EmptyString => EmptyString
  | String c s' => String (lower_char c) (lower s')
  end.

(** Truthiness of the values the code tests with [if x:] / [x or y]. *)
Definition truthy_str (s : string) : bool :=
  match s with EmptyString => false | String _ _ => true end.

Definition truthy_ostr (o : option string) : bool :=
  match o with Some s => truthy_str s | None => false end.

Definition truthy_int (n : Z) : bool := negb (Z.eqb n 0).

Definition truthy_list {A} (l : list A) : bool :=
  match l with [] => false | _ :: _ => true end.

(** [l.append(x)]. *)
Definition append {A} (l : list A) (x : A) : list A := (l ++ [x])%list.

(** [x or ""] on an optional string. *)
Definition or_empty (o : option string) : string :=
  match o with Some s => if truthy_str s then s else "" | None => "" end.

(** [needle in hay]. *)
Fixpoint contains (needle hay : string) : bool :=
  String.prefix needle hay ||
  match hay with
  | EmptyString => false
  | String _ hay' => contains needle hay'
  end.

(** [sep.join(items)]. *)
Definition join (sep : string) (items : list string) : string :=
  String.concat sep items.

(** *** [str(n)] and [int(s)] on integers *)

Definition str (n : Z) : string := NilEmpty.string_of_int (Z.to_int n).

Fixpoint lstrip (s : string) : string :=
  match s with
  | EmptyString => EmptyString
  | String c s' => if isspace c then lstrip s' else s
  end.

Fixpoint rstrip (s : string) : string :=
  match s with
  | EmptyString => EmptyString
  | String c s' =>
      match rstrip s' with
      | EmptyString => if isspace c then EmptyString else String c EmptyString
      | r => String c r
      end
  end.

Definition strip (s : string) : string := rstrip (lstrip s).

(** The digits of a base-10 literal: single underscores are allowed
    between digits only; [prev] tells whether the previous character was
    a digit.  [None] is [ValueError]. *)
Fixpoint literal_digits (prev : bool) (s : string) : option string :=
  match s with
  | EmptyString => if prev then Some EmptyString else None
  | String c s' =>
      if isdigit c then option_map (String c) (literal_digits true s')
      else if Ascii.eqb c "_" then
        if prev then literal_digits false s' else None
      else None
  end.

(** [int(s)]: surrounding whitespace, an optional sign, then the digits.
    [None] is [ValueError]. *)
Definition int (s : string) : option Z :=
  let t := strip s in
  let '(neg, body) :=
    match t with
    | String c r =>
        if Ascii.eqb c "-" then (true, r)
        else if Ascii.eqb c "+" then (false, r)
        else (false, t)
    | EmptyString => (false, t)
    end in
  match literal_digits false body with
  | None => None
  | Some ds =>
      match NilEmpty.uint_of_string ds with
      | None => None
      | Some d => Some (if neg then - Z.of_uint d else Z.of_uint d)
      end
  end.

(** A string is in canonical form when it is what [str] prints for the
    integer it denotes. *)
Definition canonical (s : string) : bool :=
  match int s with
  | Some n => String.eqb s (str n)
  | None => false
  end.

(** *** [decimal.Decimal]

    A finite decimal is a coefficient and an exponent: [coeff * 10^exp].
    Addition is the exact one: the result takes the smaller exponent.
    (The context precision of 28 digits is far above what sums of
    ten-digit column values reach.) *)
Record Decimal := mkDecimal { coeff : Z; exp : Z }.

Definition dec_zero : Decimal := mkDecimal 0 0.

Definition dec_align (d : Decimal) (e : Z) : Z := coeff d * 10 ^ (exp d - e).

Definition dec_add (a b : Decimal) : Decimal :=
  let e := Z.min (exp a) (exp b) in
  mkDecimal (dec_align a e + dec_align b e) e.

(** [sum(xs)]: starts from the integer [0]. *)
Definition sum (xs : list Decimal) : Decimal := fold_left dec_add xs dec_zero.

Definition dec_compare (a b : Decimal) : comparison :=
  let e := Z.min (exp a) (exp b) in
  Z.compare (dec_align a e) (dec_align b e).

Definition dec_leb (a b : Decimal) : bool :=
  match dec_compare a b with Gt => false | _ => true end.

Definition dec_ltb (a b : Decimal) : bool :=
  match dec_compare a b with Lt => true | _ => false end.

Definition truthy_dec (d : Decimal) : bool := negb (Z.eqb (coeff d) 0).

(** The rational a decimal denotes. *)
Definition dec_to_Q (d : Decimal) : Q := inject_Z (coeff d) * Qpower (10 # 1) (exp d).

Fixpoint zeros (n : nat) : string :=
  match n with O => EmptyString | S n' => String "0" (zeros n') end.

Definition signed (n : Z) : string :=
  if n <? 0 then str n else "+" ++ str n.

(** [str(d)] for a decimal, following [Decimal.__str__]: plain notation
    when the exponent is at most 0 and there are fewer than six leading
    zeros after the point, scientific notation otherwise. *)
Definition dec_str (d : Decimal) : string :=
  let sign := if coeff d <? 0 then "-" else "" in
  let digits := str (Z.abs (coeff d)) in
  let len := Z.of_nat (String.length digits) in
  let leftdigits := exp d + len in
  let dotplace := if (exp d <=? 0) && (-6 <? leftdigits) then leftdigits else 1 in
  let intpart :=
    if dotplace <=? 0 then "0"
    else if len <=? dotplace then digits ++ zeros (Z.to_nat (dotplace - len))
    else String.substring 0 (Z.to_nat dotplace) digits in
  let fracpart :=
    if dotplace <=? 0 then "." ++ zeros (Z.to_nat (- dotplace)) ++ digits
    else if len <=? dotplace then ""
    else "." ++ String.substring (Z.to_nat dotplace) (Z.to_nat (len - dotplace)) digits in
  let e := if Z.eqb leftdigits dotplace then ""
           else "E" ++ signed (leftdigits - dotplace) in
  sign ++ intpart ++ fracpart ++ e.

End Py.

(* ===================================================================== *)
(** ** The [re] module, on the pattern fragment the service uses *)
(* ===================================================================== *)

Module Re.

(** Items of a bracketed class: a literal character, [\d] or [\s]. *)
Inductive class_item :=
| CChar (c : ascii)
| CDigit
| CSpace.

(** One-character matchers. *)
Inductive atom :=
| Lit (c : ascii)
| Class (items : list class_item).

(** Pattern nodes: the anchors, an atom, and an atom under [?] or [+]. *)
Inductive node :=
| Bol
| Eol
| One (a : atom)
| Opt (a : atom)
| Plus (a : atom).

Definition pattern := list node.

Definition item_matches (i : class_item) (c : ascii) : bool :=
  match i with
  | CChar x => Ascii.eqb x c
  | CDigit => Py.isdigit c
  | CSpace => Py.isspace c
  end.

Definition atom_matches (a : atom) (c : ascii) : bool :=
  match a with
  | Lit x => Ascii.eqb x c
  | Class items => existsb (fun i => item_matches i c) items
  end.

(** [$] (without [re.MULTILINE]) holds at the end of the string and just
    before a newline that ends the string. *)
Definition at_eol (rest : string) : bool :=
  match rest with
  | EmptyString => true
  | String c EmptyString => Ascii.eqb c "010"
  | _ => false
  end.

(** One or more characters of the atom, then the continuation [k] on
    what is left; tries every split. *)
Fixpoint plus_then (a : atom) (k : string -> bool) (s : string) : bool :=
  match s with
  | EmptyString => false
  | String c s' => atom_matches a c && (k s' || plus_then a k s')
  end.

(** Does the pattern match from the current position?  [start] tells
    whether the position is the beginning of the string. *)
Fixpoint match_here (p : pattern) (start : bool) (s : string) : bool :=
  match p with
  | [] => true
  | Bol :: p' => start && match_here p' start s
  | Eol :: p' => at_eol s && match_here p' start s
  | One a :: p' =>
      match s with
      | EmptyString => false
      | String c s' => atom_matches a c && match_here p' false s'
      end
  | Opt a :: p' =>
      match s with
      | EmptyString => false
      | String c s' => atom_matches a c && match_here p' false s'
      end || match_here p' start s
  | Plus a :: p' => plus_then a (match_here p' false) s
  end.

(** [bool(re.match(pattern, s))]: a match anchored at the beginning. *)
Definition match_ (p : pattern) (s : string) : bool := match_here p true s.

End Re.

(* ===================================================================== *)
(** ** crm/models.py *)
(* ===================================================================== *)

(** [django.core.exceptions.ValidationError], raised with a dictionary
    from field names to messages. *)
Inductive ValidationError := mkValidationError (errors : list (string * string)).

Module Customer.
Record t := mk {
  id : Z;
  name : string;
  email : string;                 (* unique=True *)
  phone : option string;          (* blank=True, null=True *)
  created_at : Z
}.
End Customer.

Module Product.
Record t := mk {
  id : Z;
  name : string;
  price : Py.Decimal;
  stock : Z;                      (* PositiveIntegerField(default=0) *)
  created_at : Z
}.

(** [Product.clean]: [inl] is the exception raised. *)
Definition clean (self : t) : ValidationError + unit :=
  if Py.dec_leb (price self) Py.dec_zero
  then inl (mkValidationError [("price", "Price must be positive")])
  else inr tt.
End Product.

Module Order.
Record t := mk {
  id : Z;
  customer : Z;                   (* ForeignKey(Customer) *)
  total_amount : Py.Decimal;      (* default=Decimal('0.00') *)
  order_date : Z;
  created_at : Z
}.
End Order.

(** The database: one table per model, the link table of the
    many-to-many field [Order.products] as (order id, product id) pairs,
    and the next primary key of each table.  A queryset is the list of
    its rows in table order; ordering clauses are not modelled, and the
    theorems below speak about membership. *)
Record DB := mkDB {
  customers : list Customer.t;
  products : list Product.t;
  orders : list Order.t;
  order_products : list (Z * Z);
  next_customer_id : Z;
  next_product_id : Z;
  next_order_id : Z
}.

Definition empty_db : DB := mkDB [] [] [] [] 1 1 1.

(** Primary keys are unique and below the next key handed out; customer
    emails are unique. *)
Record wf_db (db : DB) : Prop := mk_wf_db {
  wf_customer_ids : NoDup (map Customer.id (customers db));
  wf_product_ids : NoDup (map Product.id (products db));
  wf_order_ids : NoDup (map Order.id (orders db));
  wf_emails : NoDup (map Customer.email (customers db));
  wf_next_customer : forall c, In c (customers db) -> Customer.id c < next_customer_id db;
  wf_next_product : forall p, In p (products db) -> Product.id p < next_product_id db;
  wf_next_order : forall o, In o (orders db) -> Order.id o < next_order_id db
}.

(* ===================================================================== *)
(** ** Exceptions and the storage calls *)
(* ===================================================================== *)

Inductive exn :=
| ValueError (msg : string)
| IntegrityError (msg : string)
| DoesNotExist (msg : string).

(** [str(e)]. *)
Definition exn_str (e : exn) : string :=
  match e with
  | ValueError m | IntegrityError m | DoesNotExist m => m
  end.

Definition result (A : Type) : Type := (exn + A)%type.

Definition bind {A B} (m : result A) (k : A -> result B) : result B :=
  match m with
  | inl e => inl e
  | inr a => k a
  end.

Notation "x <- m ;; k" := (bind m (fun x => k))
  (at level 61, m at next level, right associativity).
Notation "' p <- m ;; k" := (bind m (fun x => let p := x in k))
  (at level 61, p pattern, m at next level, right associativity).

Module Storage.

(** The coercion an integer primary-key lookup applies to its argument:
    [int(value)], with [ValueError] when that fails. *)
Definition prep_id (value : string) : result Z :=
  match Py.int value with
  | Some n => inr n
  | None => inl (ValueError ("Field 'id' expected a number but got '" ++ value ++ "'."))
  end.

Fixpoint prep_ids (values : list string) : result (list Z) :=
  match values with
  | [] => inr []
  | v :: rest =>
      n <- prep_id v ;;
      ns <- prep_ids rest ;;
      inr (n :: ns)
  end.

Definition mem_id (n : Z) (ids : list Z) : bool := existsb (Z.eqb n) ids.

(** [Customer.objects.filter(email=email)]. *)
Definition customers_with_email (db : DB) (email : string) : list Customer.t :=
  filter (fun c => String.eqb (Customer.email c) email) (customers db).

(** [Customer.objects.get(id=value)]. *)
Definition customer_get (db : DB) (value : string) : result Customer.t :=
  n <- prep_id value ;;
  match find (fun c => Customer.id c =? n) (customers db) with
  | Some c => inr c
  | None => inl (DoesNotExist "Customer matching query does not exist.")
  end.

(** [Customer.objects.create(name=..., email=..., phone=...)]; the
    unique constraint on [email] raises [IntegrityError]. *)
Definition customer_create (db : DB) (now : Z) (name email phone : string)
  : result (DB * Customer.t) :=
  if existsb (fun c => String.eqb (Customer.email c) email) (customers db)
  then inl (IntegrityError "UNIQUE constraint failed: crm_customer.email")
  else
    let c := Customer.mk (next_customer_id db) name email (Some phone) now in
    inr (mkDB (Py.append (customers db) c) (products db) (orders db) (order_products db)
              (next_customer_id db + 1) (next_product_id db) (next_order_id db), c).

(** [Product.objects.filter(id__in=values)]. *)
Definition products_with_id_in (db : DB) (values : list string) : result (list Product.t) :=
  ns <- prep_ids values ;;
  inr (filter (fun p => mem_id (Product.id p) ns) (products db)).

(** [Product.objects.create(name=..., price=..., stock=...)]; the check
    constraint of the positive integer column raises [IntegrityError]. *)
Definition product_create (db : DB) (now : Z) (name : string) (price : Py.Decimal) (stock : Z)
  : result (DB * Product.t) :=
  if stock <? 0
  then inl (IntegrityError "CHECK constraint failed: stock")
  else
    let p := Product.mk (next_product_id db) name price stock now in
    inr (mkDB (customers db) (Py.append (products db) p) (orders db) (order_products db)
              (next_customer_id db) (next_product_id db + 1) (next_order_id db), p).

(** [Order.objects.create(customer=..., order_date=...)]; the foreign key
    must point at a stored customer. *)
Definition order_create (db : DB) (now : Z) (customer : Customer.t) (order_date : Z)
  : result (DB * Order.t) :=
  if existsb (fun c => Customer.id c =? Customer.id customer) (customers db)
  then
    let o := Order.mk (next_order_id db) (Customer.id customer)
                      (Py.mkDecimal 0 (-2)) order_date now in
    inr (mkDB (customers db) (products db) (Py.append (orders db) o) (order_products db)
              (next_customer_id db) (next_product_id db) (next_order_id db + 1), o)
  else inl (IntegrityError "FOREIGN KEY constraint failed").

(** [order.products.set(products)]: the links of the order become
    exactly the given products. *)
Definition order_products_set (db : DB) (order : Order.t) (ps : list Product.t) : DB :=
  mkDB (customers db) (products db) (orders db)
       (filter (fun l => negb (fst l =? Order.id order)) (order_products db)
        ++ map (fun p => (Order.id order, Product.id p)) ps)%list
       (next_customer_id db) (next_product_id db) (next_order_id db).

(** [order.products.all()]. *)
Definition order_products_all (db : DB) (order : Order.t) : list Product.t :=
  filter (fun p =>
            existsb (fun l => (fst l =? Order.id order) && (snd l =? Product.id p))
                    (order_products db))
         (products db).

(** [order.save()] on a stored order: the row with its key is rewritten. *)
Definition order_save (db : DB) (order : Order.t) : DB :=
  mkDB (customers db) (products db)
       (map (fun o => if Order.id o =? Order.id order then order else o) (orders db))
       (order_products db)
       (next_customer_id db) (next_product_id db) (next_order_id db).

(** [Order.objects.get(id=n)] on an integer key. *)
Definition order_get (db : DB) (n : Z) : option Order.t :=
  find (fun o => Order.id o =? n) (orders db).

(** [Product.objects.get(id=value)]. *)
Definition product_get (db : DB) (value : string) : result Product.t :=
  n <- prep_id value ;;
  match find (fun p => Product.id p =? n) (products db) with
  | Some p => inr p
  | None => inl (DoesNotExist "Product matching query does not exist.")
  end.

(** [Order.objects.get(id=value)]. *)
Definition order_get_by_id (db : DB) (value : string) : result Order.t :=
  n <- prep_id value ;;
  match order_get db n with
  | Some o => inr o
  | None => inl (DoesNotExist "Order matching query does not exist.")
  end.

(** [Order.objects.all().delete()]: the orders go, and with them their
    links to products. *)
Definition orders_delete_all (db : DB) : DB :=
  mkDB (customers db) (products db) []
       (filter (fun l => negb (existsb (fun o => Order.id o =? fst l) (orders db)))
               (order_products db))
       (next_customer_id db) (next_product_id db) (next_order_id db).

(** [Product.objects.all().delete()]: the products go, and with them the
    links that point at them. *)
Definition products_delete_all (db : DB) : DB :=
  mkDB (customers db) [] (orders db)
       (filter (fun l => negb (existsb (fun p => Product.id p =? snd l) (products db)))
               (order_products db))
       (next_customer_id db) (next_product_id db) (next_order_id db).

(** [Customer.objects.all().delete()]: the customers go; their orders
    follow ([on_delete=CASCADE]), and the links of those orders. *)
Definition customers_delete_all (db : DB) : DB :=
  let gone (o : Order.t) :=
    existsb (fun c => Customer.id c =? Order.customer o) (customers db) in
  mkDB [] (products db)
       (filter (fun o => negb (gone o)) (orders db))
       (filter (fun l => negb (existsb (fun o => (Order.id o =? fst l) && gone o)
                                       (orders db)))
               (order_products db))
       (next_customer_id db) (next_product_id db) (next_order_id db).

End Storage.

(** [Order.calculate_total_amount]: sets [self.total_amount] and returns
    the total. *)
Definition calculate_total_amount (db : DB) (self : Order.t) : Order.t * Py.Decimal :=
  let total := Py.sum (map Product.price (Storage.order_products_all db self)) in
  (Order.mk (Order.id self) (Order.customer self) total
            (Order.order_date self) (Order.created_at self), total).

(* ===================================================================== *)
(** ** crm/filters.py *)
(* ===================================================================== *)

(** Lookups shared by the filter methods and the resolvers. *)
Definition icontains (value hay : string) : bool :=
  Py.contains (Py.lower value) (Py.lower hay).

Definition startswith (value : string) (column : option string) : bool :=
  match column with
  | Some s => String.prefix value s
  | None => false
  end.

Module CustomerFilter.

Definition filter_phone_pattern (queryset : list Customer.t) (name value : string)
  : list Customer.t :=
  if Py.truthy_str value
  then filter (fun c => startswith value (Customer.phone c)) queryset
  else queryset.

End CustomerFilter.

Module ProductFilter.

Definition filter_low_stock (queryset : list Product.t) (name : string) (value : bool)
  : list Product.t :=
  if value
  then filter (fun p => Product.stock p <? 10) queryset
  else queryset.

(** [stock__lte = NumberFilter(field_name='stock', lookup_expr='lte')]:
    a declared filter applies its lookup to every value but the empty
    ones ([None], the empty string and the empty containers); the number
    0 is not one of them. *)
Definition stock__lte (queryset : list Product.t) (value : option Z) : list Product.t :=
  match value with
  | Some v => filter (fun p => Product.stock p <=? v) queryset
  | None => queryset
  end.

End ProductFilter.

(* ===================================================================== *)
(** ** crm/schema.py: input, error and payload types *)
(* ===================================================================== *)

Module CustomerInput.
Record t := mk { name : string; email : string; phone : option string }.
End CustomerInput.

Module ProductInput.
Record t := mk { name : string; price : Py.Decimal; stock : option Z }.
End ProductInput.

(** [graphene.ID] values reach the resolver as strings. *)
Module OrderInput.
Record t := mk { customer_id : string; product_ids : list string; order_date : option Z }.
End OrderInput.

Module ErrorType.
Record t := mk { field : string; message : string }.
End ErrorType.

Module CustomerValidationError.
Record t := mk { index : nat; errors : list ErrorType.t }.
End CustomerValidationError.

(* ===================================================================== *)
(** ** crm/schema.py: utility functions *)
(* ===================================================================== *)

(** The pattern [^\+?[\d\-\(\)\s]+$]. *)
Definition phone_pattern : Re.pattern :=
  [ Re.Bol;
    Re.Opt (Re.Lit "+");
    Re.Plus (Re.Class [Re.CDigit; Re.CChar "-"; Re.CChar "("; Re.CChar ")"; Re.CSpace]);
    Re.Eol ].

Definition validate_phone (phone : option string) : bool :=
  if negb (Py.truthy_ostr phone) then true
  else Re.match_ phone_pattern (Py.or_empty phone).

Definition validate_email_unique (db : DB) (email : string) (exclude_id : option Z) : bool :=
  let queryset := Storage.customers_with_email db email in
  let queryset :=
    match exclude_id with
    | Some i =>
        if Py.truthy_int i
        then filter (fun c => negb (Customer.id c =? i)) queryset
        else queryset
    | None => queryset
    end in
  negb (Py.truthy_list queryset).

Definition email_exists_error : ErrorType.t :=
  ErrorType.mk "email" "Email already exists".

Definition phone_format_error : ErrorType.t :=
  ErrorType.mk "phone" "Phone number must be in format: +1234567890 or 123-456-7890".

(** The two checks both customer mutations run on a row, in order. *)
Definition customer_errors (db : DB) (data : CustomerInput.t) : list ErrorType.t :=
  let errors := [] in
  let errors :=
    if negb (validate_email_unique db (CustomerInput.email data) None)
    then Py.append errors email_exists_error else errors in
  let errors :=
    if Py.truthy_ostr (CustomerInput.phone data) && negb (validate_phone (CustomerInput.phone data))
    then Py.append errors phone_format_error else errors in
  errors.

(* ===================================================================== *)
(** ** crm/schema.py: mutations *)
(* ===================================================================== *)

Module CreateCustomer.

Record t := mk {
  customer : option Customer.t;
  message : option string;
  errors : option (list ErrorType.t)
}.

Definition mutate (db : DB) (now : Z) (input : CustomerInput.t) : DB * t :=
  let errors := customer_errors db input in
  if Py.truthy_list errors
  then (db, mk None (Some "Validation failed") (Some errors))
  else
    match Storage.customer_create db now (CustomerInput.name input)
            (CustomerInput.email input) (Py.or_empty (CustomerInput.phone input)) with
    | inr (db', customer) =>
        (db', mk (Some customer)
                 (Some ("Customer '" ++ Customer.name customer ++ "' created successfully"))
                 None)
    | inl e =>
        (db, mk None (Some "Failed to create customer")
                (Some [ErrorType.mk "general" (exn_str e)]))
    end.

End CreateCustomer.

Module BulkCreateCustomers.

Record t := mk {
  customers : list Customer.t;
  errors : list CustomerValidationError.t
}.

(** The body of the loop over [enumerate(input)], from row [index] on;
    [customers] and [errors] are the two lists the loop appends to. *)
Fixpoint loop (now : Z) (index : nat) (rows : list CustomerInput.t)
         (db : DB) (customers : list Customer.t) (errors : list CustomerValidationError.t)
  : DB * t :=
  match rows with
  | [] => (db, mk customers errors)
  | customer_data :: rest =>
      let customer_errors := customer_errors db customer_data in
      if Py.truthy_list customer_errors
      then loop now (S index) rest db customers
                (Py.append errors (CustomerValidationError.mk index customer_errors))
      else
        match Storage.customer_create db now (CustomerInput.name customer_data)
                (CustomerInput.email customer_data)
                (Py.or_empty (CustomerInput.phone customer_data)) with
        | inr (db', customer) =>
            loop now (S index) rest db' (Py.append customers customer) errors
        | inl (IntegrityError _) =>
            loop now (S index) rest db customers
                 (Py.append errors (CustomerValidationError.mk index [email_exists_error]))
        | inl e =>
            loop now (S index) rest db customers
                 (Py.append errors (CustomerValidationError.mk index
                               [ErrorType.mk "general" (exn_str e)]))
        end
  end.

Definition mutate (db : DB) (now : Z) (input : list CustomerInput.t) : DB * t :=
  loop now 0 input db [] [].

End BulkCreateCustomers.

Module CreateProduct.

Record t := mk {
  product : option Product.t;
  message : option string;
  errors : option (list ErrorType.t)
}.

Definition price_error : ErrorType.t := ErrorType.mk "price" "Price must be positive".
Definition stock_error : ErrorType.t := ErrorType.mk "stock" "Stock cannot be negative".

(** [stock or 0]. *)
Definition stock_or_0 (stock : option Z) : Z :=
  match stock with
  | Some n => if Py.truthy_int n then n else 0
  | None => 0
  end.

Definition mutate (db : DB) (now : Z) (input : ProductInput.t) : DB * t :=
  let errors := [] in
  let errors :=
    if Py.dec_leb (ProductInput.price input) Py.dec_zero
    then Py.append errors price_error else errors in
  let errors :=
    match ProductInput.stock input with
    | Some n => if n <? 0 then Py.append errors stock_error else errors
    | None => errors
    end in
  if Py.truthy_list errors
  then (db, mk None (Some "Validation failed") (Some errors))
  else
    match Storage.product_create db now (ProductInput.name input)
            (ProductInput.price input) (stock_or_0 (ProductInput.stock input)) with
    | inr (db', product) =>
        (db', mk (Some product)
                 (Some ("Product '" ++ Product.name product ++ "' created successfully"))
                 None)
    | inl e =>
        (db, mk None (Some "Failed to create product")
                (Some [ErrorType.mk "general" (exn_str e)]))
    end.

End CreateProduct.

Module CreateOrder.

Record t := mk {
  order : option Order.t;
  message : option string;
  errors : option (list ErrorType.t)
}.

(** [set(product_ids) - set(str(p.id) for p in products)].  The order in
    which a set is iterated is not specified; the model lists the
    members by their last occurrence in [product_ids]. *)
Definition invalid_ids (product_ids : list string) (products : list Product.t) : list string :=
  filter (fun s => negb (existsb (fun p => String.eqb s (Py.str (Product.id p))) products))
         (nodup string_dec product_ids).

Definition customer_id_error : ErrorType.t :=
  ErrorType.mk "customer_id" "Invalid customer ID".

Definition no_product_error : ErrorType.t :=
  ErrorType.mk "product_ids" "At least one product must be selected".

Definition invalid_ids_error (ids : list string) : ErrorType.t :=
  ErrorType.mk "product_ids" ("Invalid product IDs: " ++ Py.join ", " ids).

(** The body of the [try] / [transaction.atomic()] block. *)
Definition create (db : DB) (now : Z) (customer : Customer.t) (order_date : option Z)
           (products : list Product.t) : result (DB * Order.t) :=
  '(db1, order) <- Storage.order_create db now customer
                     (match order_date with Some d => d | None => now end) ;;
  let db2 := Storage.order_products_set db1 order products in
  let '(order, _) := calculate_total_amount db2 order in
  let db3 := Storage.order_save db2 order in
  inr (db3, order).

(** [inl e]: the exception [e] leaves [mutate]; nothing was written. *)
Definition mutate (db : DB) (now : Z) (input : OrderInput.t) : result (DB * t) :=
  let errors := [] in
  match Storage.customer_get db (OrderInput.customer_id input) with
  | inl (DoesNotExist _) =>
      let errors := Py.append errors customer_id_error in
      inr (db, mk None (Some "Validation failed") (Some errors))
  | inl e => inl e
  | inr customer =>
      let errors :=
        if negb (Py.truthy_list (OrderInput.product_ids input))
        then Py.append errors no_product_error else errors in
      let product_ids := OrderInput.product_ids input in
      products <- Storage.products_with_id_in db product_ids ;;
      let errors :=
        if negb (List.length products =? List.length product_ids)%nat
        then Py.append errors (invalid_ids_error (invalid_ids product_ids products))
        else errors in
      if Py.truthy_list errors
      then inr (db, mk None (Some "Validation failed") (Some errors))
      else
        match create db now customer (OrderInput.order_date input) products with
        | inr (db', order) =>
            inr (db', mk (Some order)
                         (Some ("Order created successfully with total amount $"
                                ++ Py.dec_str (Order.total_amount order)))
                         None)
        | inl e =>
            inr (db, mk None (Some "Failed to create order")
                        (Some [ErrorType.mk "general" (exn_str e)]))
        end
  end.

End CreateOrder.

(* ===================================================================== *)
(** ** crm/schema.py: filter inputs and resolvers *)
(* ===================================================================== *)

Module CustomerFilterInput.
Record t := mk {
  name_icontains : option string;
  email_icontains : option string;
  created_at_gte : option Z;
  created_at_lte : option Z;
  phone_pattern : option string
}.
End CustomerFilterInput.

Module ProductFilterInput.
Record t := mk {
  name_icontains : option string;
  price_gte : option Py.Decimal;
  price_lte : option Py.Decimal;
  stock_gte : option Z;
  stock_lte : option Z;
  low_stock : option bool
}.
End ProductFilterInput.

Module OrderFilterInput.
Record t := mk {
  total_amount_gte : option Py.Decimal;
  total_amount_lte : option Py.Decimal;
  order_date_gte : option Z;
  order_date_lte : option Z;
  customer_name : option string;
  product_name : option string;
  product_id : option Z
}.
End OrderFilterInput.

(** Date objects have no falsy value. *)
Definition truthy_date (d : Z) : bool := true.

Definition truthy_bool (b : bool) : bool := b.

(** One step of a resolver,
    [if filter.get(k): queryset = queryset.filter(lookup=filter[k])]:
    [value] is [filter.get(k)], [truthy] the truth test of its type and
    [lookup] the row test of the lookup. *)
Definition filter_if {A R : Type} (truthy : A -> bool) (value : option A)
           (lookup : A -> R -> bool) (queryset : list R) : list R :=
  match value with
  | Some v => if truthy v then filter (lookup v) queryset else queryset
  | None => queryset
  end.

(** The row tests of the lookups the resolvers use. *)
Definition customer_name_icontains (v : string) (c : Customer.t) : bool :=
  icontains v (Customer.name c).
Definition customer_email_icontains (v : string) (c : Customer.t) : bool :=
  icontains v (Customer.email c).
Definition customer_created_at_gte (v : Z) (c : Customer.t) : bool :=
  v <=? Customer.created_at c.
Definition customer_created_at_lte (v : Z) (c : Customer.t) : bool :=
  Customer.created_at c <=? v.
Definition customer_phone_startswith (v : string) (c : Customer.t) : bool :=
  startswith v (Customer.phone c).

Definition product_name_icontains (v : string) (p : Product.t) : bool :=
  icontains v (Product.name p).
Definition product_price_gte (v : Py.Decimal) (p : Product.t) : bool :=
  Py.dec_leb v (Product.price p).
Definition product_price_lte (v : Py.Decimal) (p : Product.t) : bool :=
  Py.dec_leb (Product.price p) v.
Definition product_stock_gte (v : Z) (p : Product.t) : bool := v <=? Product.stock p.
Definition product_stock_lte (v : Z) (p : Product.t) : bool := Product.stock p <=? v.
Definition product_stock_lt_10 (v : bool) (p : Product.t) : bool := Product.stock p <? 10.

Definition order_total_amount_gte (v : Py.Decimal) (o : Order.t) : bool :=
  Py.dec_leb v (Order.total_amount o).
Definition order_total_amount_lte (v : Py.Decimal) (o : Order.t) : bool :=
  Py.dec_leb (Order.total_amount o) v.
Definition order_date_gte (v : Z) (o : Order.t) : bool := v <=? Order.order_date o.
Definition order_date_lte (v : Z) (o : Order.t) : bool := Order.order_date o <=? v.
(** [customer__name__icontains]: through the join with the customers. *)
Definition order_customer_name_icontains (db : DB) (v : string) (o : Order.t) : bool :=
  match find (fun c => Customer.id c =? Order.customer o) (customers db) with
  | Some c => icontains v (Customer.name c)
  | None => false
  end.

(** [django.core.exceptions.FieldError]: a query names a relation the
    model does not have, in [select_related] or in a lookup. *)
Inductive FieldError :=
| Invalid_select_related (name : string)
| Cannot_resolve_keyword (name : string).

(** The resolvers, called without [order_by]. *)
Module Query.

Definition resolve_customers (db : DB) (filter : option CustomerFilterInput.t)
  : list Customer.t :=
  let queryset := customers db in
  match filter with
  | Some f =>
      let queryset := filter_if Py.truthy_str (CustomerFilterInput.name_icontains f)
                        customer_name_icontains queryset in
      let queryset := filter_if Py.truthy_str (CustomerFilterInput.email_icontains f)
                        customer_email_icontains queryset in
      let queryset := filter_if truthy_date (CustomerFilterInput.created_at_gte f)
                        customer_created_at_gte queryset in
      let queryset := filter_if truthy_date (CustomerFilterInput.created_at_lte f)
                        customer_created_at_lte queryset in
      let queryset := filter_if Py.truthy_str (CustomerFilterInput.phone_pattern f)
                        customer_phone_startswith queryset in
      queryset
  | None => queryset
  end.

Definition resolve_products (db : DB) (filter : option ProductFilterInput.t)
  : list Product.t :=
  let queryset := products db in
  match filter with
  | Some f =>
      let queryset := filter_if Py.truthy_str (ProductFilterInput.name_icontains f)
                        product_name_icontains queryset in
      let queryset := filter_if Py.truthy_dec (ProductFilterInput.price_gte f)
                        product_price_gte queryset in
      let queryset := filter_if Py.truthy_dec (ProductFilterInput.price_lte f)
                        product_price_lte queryset in
      let queryset := filter_if Py.truthy_int (ProductFilterInput.stock_gte f)
                        product_stock_gte queryset in
      let queryset := filter_if Py.truthy_int (ProductFilterInput.stock_lte f)
                        product_stock_lte queryset in
      let queryset := filter_if truthy_bool (ProductFilterInput.low_stock f)
                        product_stock_lt_10 queryset in
      queryset
  | None => queryset
  end.

Definition resolve_filtered_customers (db : DB) (filter : option CustomerFilterInput.t)
  : list Customer.t :=
  let queryset := customers db in
  match filter with
  | Some f =>
      let queryset := filter_if Py.truthy_str (CustomerFilterInput.name_icontains f)
                        customer_name_icontains queryset in
      let queryset := filter_if Py.truthy_str (CustomerFilterInput.email_icontains f)
                        customer_email_icontains queryset in
      let queryset := filter_if truthy_date (CustomerFilterInput.created_at_gte f)
                        customer_created_at_gte queryset in
      let queryset := filter_if truthy_date (CustomerFilterInput.created_at_lte f)
                        customer_created_at_lte queryset in
      let queryset := filter_if Py.truthy_str (CustomerFilterInput.phone_pattern f)
                        customer_phone_startswith queryset in
      queryset
  | None => queryset
  end.

Definition resolve_filtered_products (db : DB) (filter : option ProductFilterInput.t)
  : list Product.t :=
  let queryset := products db in
  match filter with
  | Some f =>
      let queryset := filter_if Py.truthy_str (ProductFilterInput.name_icontains f)
                        product_name_icontains queryset in
      let queryset := filter_if Py.truthy_dec (ProductFilterInput.price_gte f)
                        product_price_gte queryset in
      let queryset := filter_if Py.truthy_dec (ProductFilterInput.price_lte f)
                        product_price_lte queryset in
      let queryset := filter_if Py.truthy_int (ProductFilterInput.stock_gte f)
                        product_stock_gte queryset in
      let queryset := filter_if Py.truthy_int (ProductFilterInput.stock_lte f)
                        product_stock_lte queryset in
      let queryset := filter_if truthy_bool (ProductFilterInput.low_stock f)
                        product_stock_lt_10 queryset in
      queryset
  | None => queryset
  end.

(** The product-name and product-id criteria are commented out in the
    source of this resolver: it never reads them. *)
Definition resolve_filtered_orders (db : DB) (filter : option OrderFilterInput.t)
  : list Order.t :=
  let queryset := orders db in
  match filter with
  | Some f =>
      let queryset := filter_if Py.truthy_dec (OrderFilterInput.total_amount_gte f)
                        order_total_amount_gte queryset in
      let queryset := filter_if Py.truthy_dec (OrderFilterInput.total_amount_lte f)
                        order_total_amount_lte queryset in
      let queryset := filter_if truthy_date (OrderFilterInput.order_date_gte f)
                        order_date_gte queryset in
      let queryset := filter_if truthy_date (OrderFilterInput.order_date_lte f)
                        order_date_lte queryset in
      let queryset := filter_if Py.truthy_str (OrderFilterInput.customer_name f)
                        (order_customer_name_icontains db) queryset in
      queryset
  | None => queryset
  end.

(** [resolve_orders], the resolver of the [orders] field.  It selects
    through a relation named [product], which the [Order] model does not
    declare (its field is [products]): the two steps that filter through
    it raise at once, and the query of any other call raises when its
    rows are listed. *)
Definition resolve_orders (db : DB) (filter : option OrderFilterInput.t)
  : FieldError + list Order.t :=
  let queryset := orders db in
  match filter with
  | Some f =>
      let queryset := filter_if Py.truthy_dec (OrderFilterInput.total_amount_gte f)
                        order_total_amount_gte queryset in
      let queryset := filter_if Py.truthy_dec (OrderFilterInput.total_amount_lte f)
                        order_total_amount_lte queryset in
      let queryset := filter_if truthy_date (OrderFilterInput.order_date_gte f)
                        order_date_gte queryset in
      let queryset := filter_if truthy_date (OrderFilterInput.order_date_lte f)
                        order_date_lte queryset in
      let queryset := filter_if Py.truthy_str (OrderFilterInput.customer_name f)
                        (order_customer_name_icontains db) queryset in
      if Py.truthy_ostr (OrderFilterInput.product_name f)
      then inl (Cannot_resolve_keyword "product")
      else
        match OrderFilterInput.product_id f with
        | Some n =>
            if Py.truthy_int n then inl (Cannot_resolve_keyword "product")
            else inl (Invalid_select_related "product")
        | None => inl (Invalid_select_related "product")
        end
  | None => inl (Invalid_select_related "product")
  end.

(** The lookups by id: a missing row is [None], any other exception
    leaves the resolver. *)
Definition resolve_customer (db : DB) (id : string) : result (option Customer.t) :=
  match Storage.customer_get db id with
  | inr c => inr (Some c)
  | inl (DoesNotExist _) => inr None
  | inl e => inl e
  end.

Definition resolve_product (db : DB) (id : string) : result (option Product.t) :=
  match Storage.product_get db id with
  | inr p => inr (Some p)
  | inl (DoesNotExist _) => inr None
  | inl e => inl e
  end.

Definition resolve_order (db : DB) (id : string) : result (option Order.t) :=
  match Storage.order_get_by_id db id with
  | inr o => inr (Some o)
  | inl (DoesNotExist _) => inr None
  | inl e => inl e
  end.

End Query.

(* ===================================================================== *)
(** ** Sample data, after seed_db.py *)
(* ===================================================================== *)

Definition alice : Customer.t := Customer.mk 1 "Alice Johnson" "alice@example.com" (Some "+1234567890") 0.
Definition laptop : Product.t := Product.mk 1 "Laptop" (Py.mkDecimal 99999 (-2)) 10 0.
Definition mouse : Product.t := Product.mk 2 "Mouse" (Py.mkDecimal 2550 (-2)) 50 0.
Definition desk_chair : Product.t := Product.mk 3 "Desk Chair" (Py.mkDecimal 19999 (-2)) 8 0.

Definition seeded : DB := mkDB [alice] [laptop; mouse; desk_chair] [] [] 2 4 1.

(* ===================================================================== *)
(** ** seed_db.py *)
(* ===================================================================== *)

Module seed_db.

(** What can leave [seed_database]: an exception of the storage calls,
    or [IndexError] from indexing the lists of created rows. *)
Inductive raised :=
| Storage_exn (e : exn)
| IndexError.

Definition lift {A : Type} (m : result A) : raised + A :=
  match m with
  | inl e => inl (Storage_exn e)
  | inr a => inr a
  end.

(** name, email, phone *)
Definition customers_data : list (string * string * string) :=
  [ ("Alice Johnson", "alice@example.com", "+1234567890");
    ("Bob Smith", "bob@example.com", "123-456-7890");
    ("Carol Davis", "carol@example.com", "");
    ("David Wilson", "david@example.com", "+1987654321");
    ("Eva Brown", "eva@example.com", "555-123-4567") ].

(** name, price, stock *)
Definition products_data : list (string * Py.Decimal * Z) :=
  [ ("Laptop", Py.mkDecimal 99999 (-2), 10);
    ("Mouse", Py.mkDecimal 2550 (-2), 50);
    ("Keyboard", Py.mkDecimal 7500 (-2), 30);
    ("Monitor", Py.mkDecimal 29999 (-2), 15);
    ("Headphones", Py.mkDecimal 14999 (-2), 25);
    ("Webcam", Py.mkDecimal 8999 (-2), 20);
    ("Desk Chair", Py.mkDecimal 19999 (-2), 8);
    ("USB Drive", Py.mkDecimal 1999 (-2), 100) ].

(** The loop over [customers_data]; [customers] is the list it appends
    to and [out] the lines printed so far. *)
Fixpoint create_customers (db : DB) (now : Z) (data : list (string * string * string))
         (customers : list Customer.t) (out : list string)
  : result (DB * list Customer.t * list string) :=
  match data with
  | [] => inr (db, customers, out)
  | (name, email, phone) :: rest =>
      match Storage.customer_create db now name email phone with
      | inl e => inl e
      | inr (db, customer) =>
          create_customers db now rest (Py.append customers customer)
            (Py.append out ("Created customer: " ++ Customer.name customer))
      end
  end.

Fixpoint create_products (db : DB) (now : Z) (data : list (string * Py.Decimal * Z))
         (products : list Product.t) (out : list string)
  : result (DB * list Product.t * list string) :=
  match data with
  | [] => inr (db, products, out)
  | (name, price, stock) :: rest =>
      match Storage.product_create db now name price stock with
      | inl e => inl e
      | inr (db, product) =>
          create_products db now rest (Py.append products product)
            (Py.append out ("Created product: " ++ Product.name product))
      end
  end.

(** The list [orders_data], built from [customers[i]] and [products[j]];
    [None] is [IndexError]. *)
Definition orders_data (customers : list Customer.t) (products : list Product.t)
  : option (list (Customer.t * list Product.t)) :=
  match customers, products with
  | c0 :: c1 :: c2 :: c3 :: c4 :: _, p0 :: p1 :: p2 :: p3 :: p4 :: p5 :: _ :: p7 :: _ =>
      Some [ (c0, [p0; p1]);          (* Alice: Laptop, Mouse *)
             (c1, [p2; p4]);          (* Bob: Keyboard, Headphones *)
             (c2, [p3]);              (* Carol: Monitor *)
             (c3, [p0; p3; p1]);      (* David: Laptop, Monitor, Mouse *)
             (c4, [p7; p5]) ]         (* Eva: USB Drive, Webcam *)
  | _, _ => None
  end.

(** The loop over [orders_data]. *)
Fixpoint create_orders (db : DB) (now : Z) (data : list (Customer.t * list Product.t))
         (out : list string) : result (DB * list string) :=
  match data with
  | [] => inr (db, out)
  | (customer, products) :: rest =>
      match Storage.order_create db now customer now with
      | inl e => inl e
      | inr (db, order) =>
          let db := Storage.order_products_set db order products in
          let '(order, _) := calculate_total_amount db order in
          let db := Storage.order_save db order in
          create_orders db now rest
            (Py.append out ("Created order for " ++ Customer.name customer
                            ++ " with total: $" ++ Py.dec_str (Order.total_amount order)))
      end
  end.

(** [Model.objects.count()], as printed in a line. *)
Definition count {A : Type} (rows : list A) : string := Py.str (Z.of_nat (List.length rows)).
Definition customer_count (db : DB) : string := count (customers db).
Definition product_count (db : DB) : string := count (products db).
Definition order_count (db : DB) : string := count (orders db).

(** [seed_database()]; the result holds the final state and the lines
    printed. *)
Definition seed_database (db : DB) (now : Z) : raised + (DB * list string) :=
  let out := ["Starting database seeding..."] in
  let db := Storage.orders_delete_all db in
  let db := Storage.products_delete_all db in
  let db := Storage.customers_delete_all db in
  let out := Py.append out "Cleared existing data." in
  match lift (create_customers db now customers_data [] out) with
  | inl e => inl e
  | inr (db, customers, out) =>
      match lift (create_products db now products_data [] out) with
      | inl e => inl e
      | inr (db, products, out) =>
          match orders_data customers products with
          | None => inl IndexError
          | Some data =>
              match lift (create_orders db now data out) with
              | inl e => inl e
              | inr (db, out) =>
                  let out := Py.append out (String "010" "Database seeding completed!") in
                  let out := Py.append out ("Created " ++ customer_count db ++ " customers") in
                  let out := Py.append out ("Created " ++ product_count db ++ " products") in
                  let out := Py.append out ("Created " ++ order_count db ++ " orders") in
                  inr (db, out)
              end
          end
      end
  end.

End seed_db.

(* ===================================================================== *)
(** ** The notions the specification speaks in *)
(* ===================================================================== *)

Fixpoint all_chars (f : ascii -> bool) (s : string) : bool :=
  match s with
  | EmptyString => true
  | String c s' => f c && all_chars f s'
  end.

(** A digit, a hyphen, a parenthesis or whitespace. *)
Definition phone_char (c : ascii) : bool :=
  Py.isdigit c || Ascii.eqb c "-" || Ascii.eqb c "(" || Ascii.eqb c ")" || Py.isspace c.

(** An optional leading [+] followed by one or more phone characters. *)
Definition phone_shape (s : string) : Prop :=
  exists body,
    (s = body \/ s = String "+" body) /\ body <> "" /\ all_chars phone_char body = true.

Definition email_taken (db : DB) (email : string) : Prop :=
  exists c, In c (customers db) /\ Customer.email c = email.

(** A phone is acceptable when it is absent, empty or well shaped. *)
Definition phone_ok (phone : option string) : Prop :=
  match phone with
  | None => True
  | Some s => s = "" \/ phone_shape s
  end.

(** A row of customer data is valid in a state. *)
Definition row_ok (db : DB) (row : CustomerInput.t) : Prop :=
  ~ email_taken db (CustomerInput.email row) /\ phone_ok (CustomerInput.phone row).

(** The customer a valid row gives rise to. *)
Definition customer_of_row (c : Customer.t) (row : CustomerInput.t) : Prop :=
  Customer.name c = CustomerInput.name row /\
  Customer.email c = CustomerInput.email row /\
  Customer.phone c = Some (Py.or_empty (CustomerInput.phone row)).

(** The row [Customer.objects.create] writes for an input, and the state
    that holds it. *)
Definition created_customer (db : DB) (now : Z) (row : CustomerInput.t) : Customer.t :=
  Customer.mk (next_customer_id db) (CustomerInput.name row) (CustomerInput.email row)
              (Some (Py.or_empty (CustomerInput.phone row))) now.

Definition with_customer (db : DB) (c : Customer.t) : DB :=
  mkDB (customers db ++ [c]) (products db) (orders db) (order_products db)
       (next_customer_id db + 1) (next_product_id db) (next_order_id db).

(** The errors of the two product-id checks of CreateOrder, each computed
    on its own: the empty-list check, then the check that every id
    matched a product. *)
Definition empty_list_errors (product_ids : list string) : list ErrorType.t :=
  if negb (Py.truthy_list product_ids) then [CreateOrder.no_product_error] else [].

Definition unmatched_errors (product_ids : list string) (products : list Product.t)
  : list ErrorType.t :=
  if negb (List.length products =? List.length product_ids)%nat
  then [CreateOrder.invalid_ids_error (CreateOrder.invalid_ids product_ids products)]
  else [].

(** The order row CreateOrder stores for a customer and a list of
    products. *)
Definition placed_order (db : DB) (now : Z) (customer : Customer.t)
           (order_date : option Z) (products : list Product.t) : Order.t :=
  Order.mk (next_order_id db) (Customer.id customer)
           (Py.sum (map Product.price products))
           (match order_date with Some d => d | None => now end) now.

(** [ns] is the id list [ids] after the coercion of each id. *)
Definition coerced (ids : list string) (ns : list Z) : Prop :=
  Forall2 (fun s n => Py.int s = Some n) ids ns.

(** The id [s] refers to a stored product. *)
Definition product_exists (db : DB) (s : string) : Prop :=
  exists n p, Py.int s = Some n /\ In p (products db) /\ Product.id p = n.

(** The stored products an id list refers to. *)
Definition attached (db : DB) (ns : list Z) : list Product.t :=
  filter (fun p => Storage.mem_id (Product.id p) ns) (products db).

(** A criterion constrains a row when it is set to a value that counts
    ([counts] is the truth test, or [fun _ => true] when every value that
    is present counts). *)
Definition holds {A R : Type} (counts : A -> bool) (value : option A)
           (lookup : A -> R -> bool) (row : R) : Prop :=
  forall v, value = Some v -> counts v = true -> lookup v row = true.

Definition always {A : Type} (v : A) : bool := true.

(** The same as a row test, to put criteria in a list. *)
Definition criterion {A R : Type} (counts : A -> bool) (value : option A)
           (lookup : A -> R -> bool) : R -> bool :=
  match value with
  | Some v => if counts v then lookup v else fun _ => true
  | None => fun _ => true
  end.

(** Criteria applied one after the other, in the order of the list. *)
Definition apply_criteria {R : Type} (cs : list (R -> bool)) (queryset : list R) : list R :=
  fold_left (fun q c => filter c q) cs queryset.

Definition customer_criteria (f : CustomerFilterInput.t) : list (Customer.t -> bool) :=
  [ criterion Py.truthy_str (CustomerFilterInput.name_icontains f) customer_name_icontains;
    criterion Py.truthy_str (CustomerFilterInput.email_icontains f) customer_email_icontains;
    criterion truthy_date (CustomerFilterInput.created_at_gte f) customer_created_at_gte;
    criterion truthy_date (CustomerFilterInput.created_at_lte f) customer_created_at_lte;
    criterion Py.truthy_str (CustomerFilterInput.phone_pattern f) customer_phone_startswith ].

Definition product_criteria (f : ProductFilterInput.t) : list (Product.t -> bool) :=
  [ criterion Py.truthy_str (ProductFilterInput.name_icontains f) product_name_icontains;
    criterion Py.truthy_dec (ProductFilterInput.price_gte f) product_price_gte;
    criterion Py.truthy_dec (ProductFilterInput.price_lte f) product_price_lte;
    criterion Py.truthy_int (ProductFilterInput.stock_gte f) product_stock_gte;
    criterion Py.truthy_int (ProductFilterInput.stock_lte f) product_stock_lte;
    criterion truthy_bool (ProductFilterInput.low_stock f) product_stock_lt_10 ].

Definition order_criteria (db : DB) (f : OrderFilterInput.t) : list (Order.t -> bool) :=
  [ criterion Py.truthy_dec (OrderFilterInput.total_amount_gte f) order_total_amount_gte;
    criterion Py.truthy_dec (OrderFilterInput.total_amount_lte f) order_total_amount_lte;
    criterion truthy_date (OrderFilterInput.order_date_gte f) order_date_gte;
    criterion truthy_date (OrderFilterInput.order_date_lte f) order_date_lte;
    criterion Py.truthy_str (OrderFilterInput.customer_name f) (order_customer_name_icontains db) ].

(** A product satisfies the criteria of a filter; [str], [dec], [int]
    say which values of each type count. *)
Definition product_satisfies (str : string -> bool) (dec : Py.Decimal -> bool)
           (int : Z -> bool) (f : ProductFilterInput.t) (p : Product.t) : Prop :=
  holds str (ProductFilterInput.name_icontains f) product_name_icontains p /\
  holds dec (ProductFilterInput.price_gte f) product_price_gte p /\
  holds dec (ProductFilterInput.price_lte f) product_price_lte p /\
  holds int (ProductFilterInput.stock_gte f) product_stock_gte p /\
  holds int (ProductFilterInput.stock_lte f) product_stock_lte p /\
  holds truthy_bool (ProductFilterInput.low_stock f) product_stock_lt_10 p.

Definition customer_satisfies (str : string -> bool)
           (f : CustomerFilterInput.t) (c : Customer.t) : Prop :=
  holds str (CustomerFilterInput.name_icontains f) customer_name_icontains c /\
  holds str (CustomerFilterInput.email_icontains f) customer_email_icontains c /\
  holds always (CustomerFilterInput.created_at_gte f) customer_created_at_gte c /\
  holds always (CustomerFilterInput.created_at_lte f) customer_created_at_lte c /\
  holds str (CustomerFilterInput.phone_pattern f) customer_phone_startswith c.

(** The criteria the filtered-orders resolver evaluates: amounts, dates
    and the customer name. *)
Definition order_satisfies (str : string -> bool) (dec : Py.Decimal -> bool)
           (db : DB) (f : OrderFilterInput.t) (o : Order.t) : Prop :=
  holds dec (OrderFilterInput.total_amount_gte f) order_total_amount_gte o /\
  holds dec (OrderFilterInput.total_amount_lte f) order_total_amount_lte o /\
  holds always (OrderFilterInput.order_date_gte f) order_date_gte o /\
  holds always (OrderFilterInput.order_date_lte f) order_date_lte o /\
  holds str (OrderFilterInput.customer_name f) (order_customer_name_icontains db) o.

(** A criterion set to a falsy value, read as absent. *)
Definition keep {A : Type} (truthy : A -> bool) (value : option A) : option A :=
  match value with
  | Some v => if truthy v then Some v else None
  | None => None
  end.

Definition drop_falsy_customer (f : CustomerFilterInput.t) : CustomerFilterInput.t :=
  CustomerFilterInput.mk
    (keep Py.truthy_str (CustomerFilterInput.name_icontains f))
    (keep Py.truthy_str (CustomerFilterInput.email_icontains f))
    (CustomerFilterInput.created_at_gte f)
    (CustomerFilterInput.created_at_lte f)
    (keep Py.truthy_str (CustomerFilterInput.phone_pattern f)).

Definition drop_falsy_product (f : ProductFilterInput.t) : ProductFilterInput.t :=
  ProductFilterInput.mk
    (keep Py.truthy_str (ProductFilterInput.name_icontains f))
    (keep Py.truthy_dec (ProductFilterInput.price_gte f))
    (keep Py.truthy_dec (ProductFilterInput.price_lte f))
    (keep Py.truthy_int (ProductFilterInput.stock_gte f))
    (keep Py.truthy_int (ProductFilterInput.stock_lte f))
    (keep truthy_bool (ProductFilterInput.low_stock f)).

Definition drop_falsy_order (f : OrderFilterInput.t) : OrderFilterInput.t :=
  OrderFilterInput.mk
    (keep Py.truthy_dec (OrderFilterInput.total_amount_gte f))
    (keep Py.truthy_dec (OrderFilterInput.total_amount_lte f))
    (OrderFilterInput.order_date_gte f)
    (OrderFilterInput.order_date_lte f)
    (keep Py.truthy_str (OrderFilterInput.customer_name f))
    (keep Py.truthy_str (OrderFilterInput.product_name f))
    (keep Py.truthy_int (OrderFilterInput.product_id f)).

(** A product filter with only the low-stock flag set. *)
Definition only_low_stock (flag : bool) : ProductFilterInput.t :=
  ProductFilterInput.mk None None None None None (Some flag).

(** A product filter with only the upper stock bound set. *)
Definition only_stock_lte (bound : Z) : ProductFilterInput.t :=
  ProductFilterInput.mk None None None None (Some bound) None.

(** The outcome "a validation error on [product_ids] whose message
    itemizes exactly the ids that match no product, a null order, and no
    order stored". *)
Definition itemizes_missing_ids (db : DB) (now : Z) (input : OrderInput.t) : Prop :=
  exists l,
    CreateOrder.mutate db now input
    = inr (db, CreateOrder.mk None (Some "Validation failed")
                 (Some [CreateOrder.invalid_ids_error l])) /\
    forall s, In s l <-> In s (OrderInput.product_ids input) /\ ~ product_exists db s.

(** The outcome "a validation error on [product_ids] whose itemized list
    is empty, a null order, and no order stored". *)
Definition rejects_with_empty_itemization (db : DB) (now : Z) (input : OrderInput.t) : Prop :=
  CreateOrder.mutate db now input
  = inr (db, CreateOrder.mk None (Some "Validation failed")
               (Some [CreateOrder.invalid_ids_error []])).

(** The sum of a list of rationals. *)
Definition Qsum (qs : list Q) : Q := fold_right Qplus 0%Q qs.

(** [errors] of a payload, with the absent list read as empty. *)
Definition error_list (errors : option (list ErrorType.t)) : list ErrorType.t :=
  match errors with Some l => l | None => [] end.

(* ===================================================================== *)
(** ** Further notions: states, outcomes and invariants *)
(* ===================================================================== *)

(** The state that holds one more product. *)
Definition with_product (db : DB) (p : Product.t) : DB :=
  mkDB (customers db) (products db ++ [p]) (orders db) (order_products db)
       (next_customer_id db) (next_product_id db + 1) (next_order_id db).

(** The row [Product.objects.create] writes for an input. *)
Definition created_product (db : DB) (now : Z) (input : ProductInput.t) : Product.t :=
  Product.mk (next_product_id db) (ProductInput.name input) (ProductInput.price input)
             (match ProductInput.stock input with Some n => n | None => 0 end) now.

(** The state that holds one more order, linked to the given products. *)
Definition with_order (db : DB) (o : Order.t) (ps : list Product.t) : DB :=
  mkDB (customers db) (products db) (orders db ++ [o])
       (filter (fun l => negb (fst l =? Order.id o)) (order_products db)
        ++ map (fun p => (Order.id o, Product.id p)) ps)
       (next_customer_id db) (next_product_id db) (next_order_id db + 1).

(** A stock given as negative. *)
Definition stock_negative (stock : option Z) : Prop :=
  exists n, stock = Some n /\ n < 0.

(** Every link of the many-to-many table joins a stored order to a
    stored product. *)
Definition links_wf (db : DB) : Prop :=
  forall l, In l (order_products db) ->
    (exists o, In o (orders db) /\ Order.id o = fst l) /\
    (exists p, In p (products db) /\ Product.id p = snd l).

(** Every stored total is the sum of the prices of the products linked
    to its order. *)
Definition totals_consistent (db : DB) : Prop :=
  forall o, In o (orders db) ->
    Order.total_amount o = Py.sum (map Product.price (Storage.order_products_all db o)).

(** Every stored product passes [Product.clean] and has a stock that is
    not negative. *)
Definition products_valid (db : DB) : Prop :=
  forall p, In p (products db) -> Product.clean p = inr tt /\ 0 <= Product.stock p.

(** The customers one call of CreateCustomer per row creates, the state
    they leave and the error lists they report, in the order of the
    rows. *)
Fixpoint one_by_one (db : DB) (now : Z) (rows : list CustomerInput.t)
  : DB * list Customer.t * list (list ErrorType.t) :=
  match rows with
  | [] => (db, [], [])
  | row :: rest =>
      let '(db1, out) := CreateCustomer.mutate db now row in
      let '(db2, cs, es) := one_by_one db1 now rest in
      (db2,
       match CreateCustomer.customer out with Some c => c :: cs | None => cs end,
       match CreateCustomer.errors out with Some e => e :: es | None => es end)
  end.

(** A customer filter with only the phone pattern set. *)
Definition only_phone_pattern (value : string) : CustomerFilterInput.t :=
  CustomerFilterInput.mk None None None None (Some value).

(** *** The reach of the storage model *)

(** The keys the storage engine holds and looks up are signed 64-bit
    integers.  The binding of the engine raises [OverflowError] when the
    [id__in] lookup is given a number outside this range; the model has
    unbounded keys, and statements about that lookup speak of ids in the
    range. *)
Definition key_range (n : Z) : Prop := - 2 ^ 63 <= n < 2 ^ 63.

Definition ids_in_key_range (ids : list string) : Prop :=
  forall s n, In s ids -> Py.int s = Some n -> key_range n.

(** A price the column [DecimalField(max_digits=10, decimal_places=2)]
    gives back as it was written: a finite decimal with two places and at
    most ten digits.  Other prices are rounded to two places when the row
    is read back; the model keeps prices as given, and statements about
    the row a creation stores speak of prices of this form. *)
Definition stored_as_given (price : Py.Decimal) : Prop :=
  Py.exp price = -2 /\ Z.abs (Py.coeff price) < 10 ^ 10.

(** A letter of the ASCII alphabet. *)
Definition ascii_letter (c : ascii) : bool :=
  let n := nat_of_ascii c in
  (((65 <=? n) && (n <=? 90)) || ((97 <=? n) && (n <=? 122)))%nat.

(** A text without letters: on it a prefix test that ignores the case of
    ASCII letters, as the [LIKE] of SQLite does, and one that does not
    agree. *)
Definition no_letter (s : string) : Prop :=
  all_chars (fun c => negb (ascii_letter c)) s = true.

(** *** Notions for seed_db.py *)

(** The rows [Customer.objects.create] stores for a list of data, from
    the key [n] on. *)
Fixpoint customer_rows (n now : Z) (data : list (string * string * string))
  : list Customer.t :=
  match data with
  | [] => []
  | (name, email, phone) :: rest =>
      Customer.mk n name email (Some phone) now :: customer_rows (n + 1) now rest
  end.

(** The rows [Product.objects.create] stores for a list of data, from
    the key [n] on. *)
Fixpoint product_rows (n now : Z) (data : list (string * Py.Decimal * Z))
  : list Product.t :=
  match data with
  | [] => []
  | (name, price, stock) :: rest =>
      Product.mk n name price stock now :: product_rows (n + 1) now rest
  end.

(** The state after one order, dated [now], for each entry of [data]. *)
Fixpoint with_orders (db : DB) (now : Z) (data : list (Customer.t * list Product.t))
  : DB :=
  match data with
  | [] => db
  | (c, ps) :: rest =>
      with_orders
        (with_order db
           (placed_order db now c (Some now) (attached db (map Product.id ps))) ps)
        now rest
  end.

(** The total of the stored products with the ids of [ps]. *)
Definition total_of (db : DB) (ps : list Product.t) : Py.Decimal :=
  Py.sum (map Product.price (attached db (map Product.id ps))).

(** The order rows the seeding loop stores for [data], from the key [n]
    on; the totals are those of the products stored in [db]. *)
Fixpoint order_rows (db : DB) (n now : Z) (data : list (Customer.t * list Product.t))
  : list Order.t :=
  match data with
  | [] => []
  | (c, ps) :: rest =>
      Order.mk n (Customer.id c) (total_of db ps) now now
      :: order_rows db (n + 1) now rest
  end.

(** The lines the seeding loop prints for [data]. *)
Definition order_lines (db : DB) (data : list (Customer.t * list Product.t))
  : list string :=
  map (fun '(c, ps) => "Created order for " ++ Customer.name c
                       ++ " with total: $" ++ Py.dec_str (total_of db ps)) data.

(* ===================================================================== *)
(** ** Decimals *)
(* ===================================================================== *)

Lemma pow10_pos (k : Z) : 0 <= k -> 0 < 10 ^ k.
Proof. intros; apply Z.pow_pos_nonneg; lia. Qed.

Lemma dec_leb_zero (d : Py.Decimal) :
  Py.dec_leb d Py.dec_zero = true <-> Py.coeff d <= 0.
Proof.
  unfold Py.dec_leb, Py.dec_compare, Py.dec_align; cbn [Py.coeff Py.exp Py.dec_zero].
  rewrite Z.mul_0_l.
  assert (H : 0 < 10 ^ (Py.exp d - Z.min (Py.exp d) 0)) by (apply pow10_pos; lia).
  destruct (Z.compare_spec (Py.coeff d * 10 ^ (Py.exp d - Z.min (Py.exp d) 0)) 0) as [E|E|E];
    split; intros; try discriminate; try reflexivity; nia.
Qed.

Lemma Qpower10_nonzero : ~ (10 # 1 == 0)%Q.
Proof. discriminate. Qed.

Lemma dec_to_Q_align (d : Py.Decimal) (e : Z) :
  e <= Py.exp d ->
  (inject_Z (Py.dec_align d e) * Qpower (10 # 1) e == Py.dec_to_Q d)%Q.
Proof.
  intros He. unfold Py.dec_align, Py.dec_to_Q.
  rewrite inject_Z_mult.
  rewrite (Zpower_Qpower 10 (Py.exp d - e)) by lia.
  rewrite <- Qmult_assoc.
  rewrite <- Qpower_plus by exact Qpower10_nonzero.
  replace (Py.exp d - e + e) with (Py.exp d) by lia.
  reflexivity.
Qed.

Lemma dec_to_Q_add (a b : Py.Decimal) :
  (Py.dec_to_Q (Py.dec_add a b) == Py.dec_to_Q a + Py.dec_to_Q b)%Q.
Proof.
  rewrite <- (dec_to_Q_align a (Z.min (Py.exp a) (Py.exp b))) by lia.
  rewrite <- (dec_to_Q_align b (Z.min (Py.exp a) (Py.exp b))) by lia.
  unfold Py.dec_add, Py.dec_to_Q at 1; cbn [Py.coeff Py.exp].
  rewrite inject_Z_plus. ring.
Qed.

Lemma dec_to_Q_fold (xs : list Py.Decimal) (acc : Py.Decimal) :
  (Py.dec_to_Q (fold_left Py.dec_add xs acc)
   == Py.dec_to_Q acc + Qsum (map Py.dec_to_Q xs))%Q.
Proof.
  revert acc; induction xs as [|x xs IH]; intros acc; cbn [fold_left map Qsum fold_right].
  - ring.
  - rewrite IH, dec_to_Q_add. fold (Qsum (map Py.dec_to_Q xs)). ring.
Qed.

(** The value of [sum] is the sum of the values: no rounding. *)
Lemma dec_to_Q_sum (xs : list Py.Decimal) :
  (Py.dec_to_Q (Py.sum xs) == Qsum (map Py.dec_to_Q xs))%Q.
Proof.
  unfold Py.sum. rewrite dec_to_Q_fold.
  unfold Py.dec_to_Q, Py.dec_zero; cbn [Py.coeff Py.exp]. ring.
Qed.

Lemma dec_leb_Q (a b : Py.Decimal) :
  Py.dec_leb a b = true <-> (Py.dec_to_Q a <= Py.dec_to_Q b)%Q.
Proof.
  set (e := Z.min (Py.exp a) (Py.exp b)).
  rewrite <- (dec_to_Q_align a e), <- (dec_to_Q_align b e) by (subst e; lia).
  rewrite Qmult_le_r by (apply Qpower_0_lt; reflexivity).
  rewrite <- Zle_Qle.
  unfold Py.dec_leb, Py.dec_compare. fold e.
  destruct (Z.compare_spec (Py.dec_align a e) (Py.dec_align b e));
    split; intros; try discriminate; try reflexivity; lia.
Qed.

(* ===================================================================== *)
(** ** Identifiers: [str] then [int] is the identity *)
(* ===================================================================== *)

Lemma isdigit_not_space (c : ascii) : Py.isdigit c = true -> Py.isspace c = false.
Proof.
  unfold Py.isdigit, Py.isspace. generalize (nat_of_ascii c); intros n H.
  apply andb_true_iff in H as [H1 H2].
  apply Nat.leb_le in H1. apply Nat.leb_le in H2.
  apply orb_false_iff; split; apply andb_false_iff.
  - right. apply Nat.leb_gt. lia.
  - right. apply Nat.leb_gt. lia.
Qed.

Lemma isdigit_not_sign (c : ascii) :
  Py.isdigit c = true -> Ascii.eqb c "-" = false /\ Ascii.eqb c "+" = false.
Proof.
  intros H; split; apply Ascii.eqb_neq; intros ->; discriminate H.
Qed.

Lemma string_of_uint_digits (d : Decimal.uint) :
  all_chars Py.isdigit (NilEmpty.string_of_uint d) = true.
Proof. induction d; cbn; auto. Qed.

Lemma lstrip_digits (s : string) : all_chars Py.isdigit s = true -> Py.lstrip s = s.
Proof.
  destruct s as [|c s]; cbn; [reflexivity|].
  intros H. apply andb_true_iff in H as [H _].
  now rewrite (isdigit_not_space c H).
Qed.

Lemma rstrip_digits (s : string) : all_chars Py.isdigit s = true -> Py.rstrip s = s.
Proof.
  induction s as [|c s IH]; cbn; [reflexivity|].
  intros H. apply andb_true_iff in H as [Hc Hs].
  rewrite (IH Hs). destruct s; [|reflexivity].
  now rewrite (isdigit_not_space c Hc).
Qed.

Lemma rstrip_cons (c : ascii) (s : string) :
  s <> "" -> Py.rstrip s = s -> Py.rstrip (String c s) = String c s.
Proof.
  intros Hne H. change (Py.rstrip (String c s))
    with (match Py.rstrip s with
          | EmptyString => if Py.isspace c then EmptyString else String c EmptyString
          | r => String c r
          end).
  rewrite H. destruct s; congruence.
Qed.

Lemma literal_digits_digits (s : string) :
  all_chars Py.isdigit s = true -> Py.literal_digits true s = Some s.
Proof.
  induction s as [|c s IH]; cbn; [reflexivity|].
  intros H. apply andb_true_iff in H as [Hc Hs].
  now rewrite Hc, (IH Hs).
Qed.

Lemma literal_digits_start (c : ascii) (s : string) :
  all_chars Py.isdigit (String c s) = true ->
  Py.literal_digits false (String c s) = Some (String c s).
Proof.
  cbn. intros H. apply andb_true_iff in H as [Hc Hs].
  now rewrite Hc, (literal_digits_digits s Hs).
Qed.

Lemma pos_to_uint_string (p : positive) :
  exists c s, NilEmpty.string_of_uint (Pos.to_uint p) = String c s.
Proof.
  pose proof (Unsigned.to_uint_nonnil p) as H.
  destruct (Pos.to_uint p); try congruence; cbn; eauto.
Qed.

(** [int(str(n)) == n]. *)
Lemma int_str (n : Z) : Py.int (Py.str n) = Some n.
Proof.
  destruct n as [|p|p].
  - reflexivity.
  - unfold Py.str, Py.int, Py.strip. cbn [Z.to_int NilEmpty.string_of_int].
    pose proof (string_of_uint_digits (Pos.to_uint p)) as Hd.
    rewrite (lstrip_digits _ Hd), (rstrip_digits _ Hd).
    destruct (pos_to_uint_string p) as (c & s & E). rewrite E in *.
    assert (Hc : Py.isdigit c = true) by (cbn in Hd; now apply andb_true_iff in Hd).
    destruct (isdigit_not_sign c Hc) as [-> ->].
    rewrite (literal_digits_start c s Hd), <- E, NilEmpty.usu.
    f_equal. exact (DecimalZ.of_to (Zpos p)).
  - unfold Py.str, Py.int, Py.strip. cbn [Z.to_int NilEmpty.string_of_int].
    pose proof (string_of_uint_digits (Pos.to_uint p)) as Hd.
    cbn [Py.lstrip]. change (Py.isspace "-") with false. cbv iota.
    destruct (pos_to_uint_string p) as (c & s & E). rewrite E in *.
    assert (R : Py.rstrip (String "-" (String c s)) = String "-" (String c s)).
    { apply rstrip_cons; [discriminate | now apply rstrip_digits]. }
    rewrite R. change (Ascii.eqb "-" "-") with true. cbv iota.
    rewrite (literal_digits_start c s Hd), <- E, NilEmpty.usu.
    f_equal. exact (DecimalZ.of_to (Zneg p)).
Qed.

Lemma canonical_str (n : Z) : Py.canonical (Py.str n) = true.
Proof. unfold Py.canonical. rewrite int_str. apply String.eqb_refl. Qed.

Lemma canonical_inv (s : string) :
  Py.canonical s = true -> exists n, Py.int s = Some n /\ s = Py.str n.
Proof.
  unfold Py.canonical. destruct (Py.int s) as [n|]; [|discriminate].
  intros H. apply String.eqb_eq in H. eauto.
Qed.

(** On canonical strings, [int] is injective. *)
Lemma canonical_int_inj (s t : string) (n : Z) :
  Py.canonical s = true -> Py.canonical t = true ->
  Py.int s = Some n -> Py.int t = Some n -> s = t.
Proof.
  intros Hs Ht Es Et.
  destruct (canonical_inv s Hs) as (a & Ea & ->).
  destruct (canonical_inv t Ht) as (b & Eb & ->).
  congruence.
Qed.

(* ===================================================================== *)
(** ** Phone validation *)
(* ===================================================================== *)

Lemma phone_class_matches (c : ascii) :
  Re.atom_matches
    (Re.Class [Re.CDigit; Re.CChar "-"; Re.CChar "("; Re.CChar ")"; Re.CSpace]) c
  = phone_char c.
Proof.
  unfold phone_char; cbn [Re.atom_matches Re.item_matches existsb].
  rewrite (Ascii.eqb_sym "-" c), (Ascii.eqb_sym "(" c), (Ascii.eqb_sym ")" c).
  destruct (Py.isdigit c), (Ascii.eqb c "-"), (Ascii.eqb c "("), (Ascii.eqb c ")"),
    (Py.isspace c); reflexivity.
Qed.

(** What [$] leaves unread is made of phone characters: the newline it
    tolerates is whitespace. *)
Lemma at_eol_phone_chars (s : string) :
  Re.at_eol s = true -> all_chars phone_char s = true.
Proof.
  destruct s as [|c [|d s]]; cbn; try discriminate; try reflexivity.
  intros H. apply Ascii.eqb_eq in H. subst c. reflexivity.
Qed.

Lemma plus_then_eol (a : Re.atom) (s : string) :
  (forall c, Re.atom_matches a c = phone_char c) ->
  Re.plus_then a (Re.match_here [Re.Eol] false) s = true
  <-> s <> "" /\ all_chars phone_char s = true.
Proof.
  intros Ha. induction s as [|c s IH].
  - cbn. split; [discriminate | intros [H _]; congruence].
  - cbn [Re.plus_then all_chars]. rewrite Ha.
    rewrite andb_true_iff, orb_true_iff, IH.
    split.
    + intros [Hc [Hk | [_ Hs]]]; (split; [discriminate|]); rewrite Hc; cbn.
      * apply at_eol_phone_chars. cbn in Hk. now apply andb_true_iff in Hk.
      * exact Hs.
    + intros [_ H]. apply andb_true_iff in H as [Hc Hs]. split; [exact Hc|].
      destruct s as [|d s]; [left; reflexivity | right; split; [discriminate | exact Hs]].
Qed.

Lemma plus_not_phone_char : phone_char "+" = false.
Proof. reflexivity. Qed.

(** [re.match] with the phone pattern decides the shape. *)
Lemma phone_pattern_shape (s : string) :
  Re.match_ phone_pattern s = true <-> phone_shape s.
Proof.
  unfold Re.match_, phone_pattern, phone_shape.
  cbn [Re.match_here andb].
  pose proof (plus_then_eol _ s phone_class_matches) as Hs.
  destruct s as [|c s].
  - cbn. split; [discriminate|].
    intros (body & [E | E] & Hne & _); [congruence | discriminate].
  - rewrite orb_true_iff, andb_true_iff, Hs.
    rewrite (plus_then_eol _ s phone_class_matches).
    change (Re.atom_matches (Re.Lit "+") c) with (Ascii.eqb "+" c).
    split.
    + intros [[Hc [Hne Hall]] | [Hne Hall]].
      * apply Ascii.eqb_eq in Hc. subst c. exists s. auto.
      * exists (String c s). auto.
    + intros (body & [E | E] & Hne & Hall).
      * subst body. right. split; [discriminate | exact Hall].
      * injection E as -> ->. left. split; [reflexivity | auto].
Qed.

(** **** Claim C8, as amended.
    For every non-empty phone string, phone validation passes if and only
    if the string matches [^\+?[\d\-\(\)\s]+$], that is, if and only if it
    is an optional leading [+] followed by one or more digits, hyphens,
    parentheses or whitespace characters; the empty string and an absent
    phone pass validation without being matched against the pattern. *)
Theorem validate_phone_nonempty_iff_pattern :
  forall s : string,
    (s <> "" ->
       validate_phone (Some s) = Re.match_ phone_pattern s /\
       (validate_phone (Some s) = true <-> phone_shape s)) /\
    validate_phone (Some "") = true /\
    validate_phone None = true.
Proof.
  intros s. split; [|split; reflexivity].
  intros Hne.
  assert (E : validate_phone (Some s) = Re.match_ phone_pattern s).
  { destruct s; [congruence | reflexivity]. }
  split; [exact E|]. rewrite E. apply phone_pattern_shape.
Qed.

Lemma validate_phone_nonempty_iff_pattern_witness :
  "+1234567890" <> "" /\
  validate_phone (Some "+1234567890") = Re.match_ phone_pattern "+1234567890" /\
  (validate_phone (Some "+1234567890") = true <-> phone_shape "+1234567890").
Proof.
  split; [discriminate|].
  apply (proj1 (validate_phone_nonempty_iff_pattern "+1234567890")). discriminate.
Defined.

(** **** Claim C8, as stated, fails on the empty string: validation passes
    although the string does not match the pattern. *)
Lemma validate_phone_empty_passes_unmatched :
  ~ (validate_phone (Some "") = true <-> Re.match_ phone_pattern "" = true).
Proof.
  intros [H _]. specialize (H eq_refl). discriminate H.
Qed.

(* ===================================================================== *)
(** ** Filtering *)
(* ===================================================================== *)

Section FilterSteps.

Context {A R : Type}.
Implicit Types (qs : list R) (value : option A).

Lemma filter_true qs : filter (fun _ : R => true) qs = qs.
Proof. induction qs as [|r qs IH]; cbn; congruence. Qed.

Lemma filter_comm (f g : R -> bool) qs :
  filter f (filter g qs) = filter g (filter f qs).
Proof.
  induction qs as [|r qs IH]; cbn; [reflexivity|].
  destruct (f r) eqn:Ef, (g r) eqn:Eg; cbn; rewrite ?Ef, ?Eg, IH; reflexivity.
Qed.

Lemma filter_if_criterion (truthy : A -> bool) value (lookup : A -> R -> bool) qs :
  filter_if truthy value lookup qs = filter (criterion truthy value lookup) qs.
Proof.
  unfold filter_if, criterion.
  destruct value as [v|]; [destruct (truthy v)|]; now rewrite ?filter_true.
Qed.

Lemma criterion_holds (truthy : A -> bool) value (lookup : A -> R -> bool) (r : R) :
  criterion truthy value lookup r = true <-> holds truthy value lookup r.
Proof.
  unfold criterion, holds. destruct value as [v|].
  - destruct (truthy v) eqn:E; split; intros H.
    + now intros ? [= <-] _.
    + now apply H.
    + intros ? [= <-] ?; congruence.
    + reflexivity.
  - split; [intros _ ? [=] | reflexivity].
Qed.

Lemma filter_if_keep (truthy : A -> bool) value (lookup : A -> R -> bool) qs :
  filter_if truthy (keep truthy value) lookup qs = filter_if truthy value lookup qs.
Proof.
  unfold filter_if, keep. destruct value as [v|]; [|reflexivity].
  destruct (truthy v) eqn:E; [now rewrite E | reflexivity].
Qed.

Lemma apply_criteria_perm (cs cs' : list (R -> bool)) :
  Permutation cs cs' -> forall qs, apply_criteria cs qs = apply_criteria cs' qs.
Proof.
  unfold apply_criteria.
  induction 1 as [|c cs cs' _ IH|c d cs|cs1 cs2 cs3 _ IH1 _ IH2]; intros qs; cbn.
  - reflexivity.
  - apply IH.
  - now rewrite filter_comm.
  - now rewrite IH1.
Qed.

Lemma In_apply_criteria (cs : list (R -> bool)) qs (r : R) :
  In r (apply_criteria cs qs) <-> In r qs /\ Forall (fun c => c r = true) cs.
Proof.
  unfold apply_criteria. revert qs.
  induction cs as [|c cs IH]; intros qs; cbn.
  - split; [auto | tauto].
  - rewrite IH, filter_In, Forall_cons_iff. tauto.
Qed.

End FilterSteps.

Lemma resolve_products_criteria (db : DB) (f : ProductFilterInput.t) :
  Query.resolve_products db (Some f) = apply_criteria (product_criteria f) (products db).
Proof.
  unfold Query.resolve_products. now rewrite !filter_if_criterion.
Qed.

Lemma resolve_customers_criteria (db : DB) (f : CustomerFilterInput.t) :
  Query.resolve_customers db (Some f) = apply_criteria (customer_criteria f) (customers db).
Proof.
  unfold Query.resolve_customers. now rewrite !filter_if_criterion.
Qed.

Lemma resolve_filtered_orders_criteria (db : DB) (f : OrderFilterInput.t) :
  Query.resolve_filtered_orders db (Some f) = apply_criteria (order_criteria db f) (orders db).
Proof.
  unfold Query.resolve_filtered_orders. now rewrite !filter_if_criterion.
Qed.

(** The two resolvers of each model have the same body. *)
Lemma resolve_filtered_products_eq (db : DB) (filter : option ProductFilterInput.t) :
  Query.resolve_filtered_products db filter = Query.resolve_products db filter.
Proof. reflexivity. Qed.

Lemma resolve_filtered_customers_eq (db : DB) (filter : option CustomerFilterInput.t) :
  Query.resolve_filtered_customers db filter = Query.resolve_customers db filter.
Proof. reflexivity. Qed.

Ltac split_criteria :=
  repeat rewrite Forall_cons_iff; rewrite Forall_nil_iff;
  repeat rewrite criterion_holds.

(** What the resolvers compute.  Over customers and products, and for
    the amount, date and customer-name criteria of the filtered-orders
    resolver: a criterion that is absent, or set to a falsy value,
    imposes no constraint; the result set is exactly the records
    satisfying all criteria set to a truthy value, and it does not depend
    on the order in which the criteria are applied. *)
Theorem filters_conjoin_truthy_criteria :
  forall db : DB,
    (forall f p,
        In p (Query.resolve_products db (Some f)) <->
        In p (products db) /\
        product_satisfies Py.truthy_str Py.truthy_dec Py.truthy_int f p) /\
    (forall f c,
        In c (Query.resolve_customers db (Some f)) <->
        In c (customers db) /\ customer_satisfies Py.truthy_str f c) /\
    (forall f o,
        In o (Query.resolve_filtered_orders db (Some f)) <->
        In o (orders db) /\ order_satisfies Py.truthy_str Py.truthy_dec db f o) /\
    (Query.resolve_products db None = products db /\
     Query.resolve_customers db None = customers db /\
     Query.resolve_filtered_orders db None = orders db) /\
    (forall f cs,
        Permutation cs (product_criteria f) ->
        apply_criteria cs (products db) = Query.resolve_products db (Some f)) /\
    (forall f cs,
        Permutation cs (customer_criteria f) ->
        apply_criteria cs (customers db) = Query.resolve_customers db (Some f)) /\
    (forall f cs,
        Permutation cs (order_criteria db f) ->
        apply_criteria cs (orders db) = Query.resolve_filtered_orders db (Some f)) /\
    (forall filter,
        Query.resolve_filtered_products db filter = Query.resolve_products db filter) /\
    (forall filter,
        Query.resolve_filtered_customers db filter = Query.resolve_customers db filter).
Proof.
  intros db.
  split; [intros f p|split; [intros f c|split; [intros f o|]]].
  - rewrite resolve_products_criteria, In_apply_criteria.
    unfold product_criteria, product_satisfies. split_criteria. tauto.
  - rewrite resolve_customers_criteria, In_apply_criteria.
    unfold customer_criteria, customer_satisfies. split_criteria.
    unfold holds, truthy_date, always. tauto.
  - rewrite resolve_filtered_orders_criteria, In_apply_criteria.
    unfold order_criteria, order_satisfies. split_criteria.
    unfold holds, truthy_date, always. tauto.
  - split; [repeat split; reflexivity|].
    split; [|split; [|split; [|split; reflexivity]]]; intros f cs H.
    + rewrite resolve_products_criteria. now apply apply_criteria_perm.
    + rewrite resolve_customers_criteria. now apply apply_criteria_perm.
    + rewrite resolve_filtered_orders_criteria. now apply apply_criteria_perm.
Qed.

Lemma filters_conjoin_truthy_criteria_witness :
  let f := ProductFilterInput.mk (Some "s") None None None (Some 20) (Some true) in
  Permutation (rev (product_criteria f)) (product_criteria f) /\
  apply_criteria (rev (product_criteria f)) (products seeded)
  = Query.resolve_products seeded (Some f).
Proof.
  intros f. split.
  - apply Permutation_sym, Permutation_rev.
  - apply (proj1 (proj2 (proj2 (proj2 (proj2 (filters_conjoin_truthy_criteria seeded)))))).
    apply Permutation_sym, Permutation_rev.
Defined.

(** "Present" cannot be read for "truthy": an upper stock bound of 0 is
    present, yet the result holds a product with ten units in stock. *)
Lemma present_zero_bound_is_not_applied :
  ~ (forall p,
        In p (Query.resolve_products seeded (Some (only_stock_lte 0))) <->
        In p (products seeded) /\
        product_satisfies always always always (only_stock_lte 0) p).
Proof.
  intros H. destruct (H laptop) as [H1 _].
  assert (Hin : In laptop (Query.resolve_products seeded (Some (only_stock_lte 0))))
    by (cbn; auto).
  destruct (H1 Hin) as (_ & _ & _ & _ & _ & Hlte & _).
  specialize (Hlte 0 eq_refl eq_refl). discriminate Hlte.
Qed.

(** **** Claim C6.
    The claim fails on the code.  With products of stock 10, 50 and 8
    stored, the criterion [stock_lte = 0] is present and no stored
    product satisfies it, yet [resolve_products] and
    [resolve_filtered_products] return the whole table: their steps are
    guarded by a truth test, which the number 0 fails.  The declared
    filter [ProductFilter.stock__lte] applies the same bound and selects
    nothing.  Over orders, [resolve_orders] returns no result set at all:
    it raises [FieldError] on every call. *)
Theorem present_zero_bound_is_skipped_and_orders_fail :
  ProductFilterInput.stock_lte (only_stock_lte 0) = Some 0 /\
  Forall (fun p => 0 < Product.stock p) (products seeded) /\
  Query.resolve_products seeded (Some (only_stock_lte 0)) = [laptop; mouse; desk_chair] /\
  Query.resolve_filtered_products seeded (Some (only_stock_lte 0))
  = [laptop; mouse; desk_chair] /\
  ProductFilter.stock__lte (products seeded) (Some 0) = [] /\
  (forall (db : DB) (filter : option OrderFilterInput.t),
      exists e, Query.resolve_orders db filter = inl e).
Proof.
  split; [reflexivity|].
  split; [repeat (constructor; [reflexivity|]); constructor|].
  split; [reflexivity|]. split; [reflexivity|]. split; [reflexivity|].
  intros db [f|]; [|eexists; reflexivity]. unfold Query.resolve_orders. cbv zeta.
  destruct (Py.truthy_ostr (OrderFilterInput.product_name f)); [eauto|].
  destruct (OrderFilterInput.product_id f) as [n|]; [|eauto].
  destruct (Py.truthy_int n); eauto.
Qed.

(** **** Claim C7.
    Applying the low-stock filter with [low_stock = true] returns exactly
    the products whose stock is strictly below 10, through the filter
    method and through the resolvers alike; a product with stock equal to
    10 is never returned. *)
Theorem low_stock_is_strictly_below_ten :
  forall (db : DB) (queryset : list Product.t) (name : string) (p : Product.t),
    (In p (ProductFilter.filter_low_stock queryset name true) <->
     In p queryset /\ Product.stock p < 10) /\
    (In p (Query.resolve_products db (Some (only_low_stock true))) <->
     In p (products db) /\ Product.stock p < 10) /\
    (In p (Query.resolve_filtered_products db (Some (only_low_stock true))) <->
     In p (products db) /\ Product.stock p < 10) /\
    (Product.stock p = 10 ->
     ~ In p (ProductFilter.filter_low_stock queryset name true) /\
     ~ In p (Query.resolve_products db (Some (only_low_stock true))) /\
     ~ In p (Query.resolve_filtered_products db (Some (only_low_stock true)))).
Proof.
  intros db queryset name p.
  assert (A : In p (ProductFilter.filter_low_stock queryset name true) <->
              In p queryset /\ Product.stock p < 10).
  { unfold ProductFilter.filter_low_stock. now rewrite filter_In, Z.ltb_lt. }
  assert (B : In p (Query.resolve_products db (Some (only_low_stock true))) <->
              In p (products db) /\ Product.stock p < 10).
  { cbn. unfold product_stock_lt_10. now rewrite filter_In, Z.ltb_lt. }
  split; [exact A|]. split; [exact B|]. split; [exact B|].
  intros H10. repeat split; intros Hin; first [apply A in Hin | apply B in Hin]; lia.
Qed.

Lemma low_stock_is_strictly_below_ten_witness :
  Product.stock laptop = 10 /\
  ~ In laptop (Query.resolve_products seeded (Some (only_low_stock true))) /\
  In desk_chair (Query.resolve_products seeded (Some (only_low_stock true))).
Proof.
  split; [reflexivity|]. split.
  - apply (proj2 (proj2 (proj2 (low_stock_is_strictly_below_ten seeded [] "" laptop)))).
    reflexivity.
  - apply (proj1 (proj2 (low_stock_is_strictly_below_ten seeded [] "" desk_chair))).
    split; [cbn; auto | reflexivity].
Defined.

(** **** Claim C10.
    In the custom filtered-query resolvers a criterion that is present
    with a falsy value imposes no constraint, exactly as if it were
    absent: for products, [price_gte = 0], [price_lte = 0],
    [stock_gte = 0], [stock_lte = 0] and [low_stock = false] leave the
    result unconstrained by that criterion (so [stock_lte = 0] does not
    select only zero-stock products), and the same holds for the customer
    and order resolvers. *)
Theorem falsy_criterion_is_absent :
  forall db : DB,
    (forall n pg pl sg sl ls e,
        Query.resolve_products db
          (Some (ProductFilterInput.mk n (Some (Py.mkDecimal 0 e)) pl sg sl ls))
        = Query.resolve_products db (Some (ProductFilterInput.mk n None pl sg sl ls)) /\
        Query.resolve_products db
          (Some (ProductFilterInput.mk n pg (Some (Py.mkDecimal 0 e)) sg sl ls))
        = Query.resolve_products db (Some (ProductFilterInput.mk n pg None sg sl ls)) /\
        Query.resolve_products db (Some (ProductFilterInput.mk n pg pl (Some 0) sl ls))
        = Query.resolve_products db (Some (ProductFilterInput.mk n pg pl None sl ls)) /\
        Query.resolve_products db (Some (ProductFilterInput.mk n pg pl sg (Some 0) ls))
        = Query.resolve_products db (Some (ProductFilterInput.mk n pg pl sg None ls)) /\
        Query.resolve_products db (Some (ProductFilterInput.mk n pg pl sg sl (Some false)))
        = Query.resolve_products db (Some (ProductFilterInput.mk n pg pl sg sl None))) /\
    Query.resolve_products db (Some (only_stock_lte 0)) = products db /\
    (forall f,
        Query.resolve_products db (Some f)
        = Query.resolve_products db (Some (drop_falsy_product f)) /\
        Query.resolve_filtered_products db (Some f)
        = Query.resolve_filtered_products db (Some (drop_falsy_product f))) /\
    (forall f,
        Query.resolve_customers db (Some f)
        = Query.resolve_customers db (Some (drop_falsy_customer f)) /\
        Query.resolve_filtered_customers db (Some f)
        = Query.resolve_filtered_customers db (Some (drop_falsy_customer f))) /\
    (forall f,
        Query.resolve_filtered_orders db (Some f)
        = Query.resolve_filtered_orders db (Some (drop_falsy_order f))).
Proof.
  intros db. repeat split; try reflexivity.
  - unfold Query.resolve_products, drop_falsy_product; cbn [ProductFilterInput.name_icontains
      ProductFilterInput.price_gte ProductFilterInput.price_lte ProductFilterInput.stock_gte
      ProductFilterInput.stock_lte ProductFilterInput.low_stock].
    now rewrite !filter_if_keep.
  - unfold Query.resolve_filtered_products, drop_falsy_product;
      cbn [ProductFilterInput.name_icontains
      ProductFilterInput.price_gte ProductFilterInput.price_lte ProductFilterInput.stock_gte
      ProductFilterInput.stock_lte ProductFilterInput.low_stock].
    now rewrite !filter_if_keep.
  - unfold Query.resolve_customers, drop_falsy_customer;
      cbn [CustomerFilterInput.name_icontains CustomerFilterInput.email_icontains
      CustomerFilterInput.created_at_gte CustomerFilterInput.created_at_lte
      CustomerFilterInput.phone_pattern].
    now rewrite !filter_if_keep.
  - unfold Query.resolve_filtered_customers, drop_falsy_customer;
      cbn [CustomerFilterInput.name_icontains CustomerFilterInput.email_icontains
      CustomerFilterInput.created_at_gte CustomerFilterInput.created_at_lte
      CustomerFilterInput.phone_pattern].
    now rewrite !filter_if_keep.
  - intros f. unfold Query.resolve_filtered_orders, drop_falsy_order;
      cbn [OrderFilterInput.total_amount_gte OrderFilterInput.total_amount_lte
      OrderFilterInput.order_date_gte OrderFilterInput.order_date_lte
      OrderFilterInput.customer_name].
    now rewrite !filter_if_keep.
Qed.

(* ===================================================================== *)
(** ** Customer rows: validation and creation *)
(* ===================================================================== *)

Lemma truthy_list_nil {A : Type} (l : list A) : Py.truthy_list l = false <-> l = [].
Proof. destruct l; cbn; split; congruence. Qed.

Lemma email_taken_existsb (db : DB) (e : string) :
  existsb (fun c => String.eqb (Customer.email c) e) (customers db) = true
  <-> email_taken db e.
Proof.
  unfold email_taken. rewrite existsb_exists.
  split; intros (c & Hin & H); exists c; (split; [exact Hin|]).
  - now apply String.eqb_eq.
  - now apply String.eqb_eq.
Qed.

Lemma validate_email_unique_spec (db : DB) (e : string) :
  validate_email_unique db e None = true <-> ~ email_taken db e.
Proof.
  unfold validate_email_unique, Storage.customers_with_email.
  rewrite negb_true_iff, truthy_list_nil. split.
  - intros H (c & Hin & Hc).
    assert (Hf : In c (filter (fun c => String.eqb (Customer.email c) e) (customers db))).
    { apply filter_In. split; [exact Hin | now apply String.eqb_eq]. }
    rewrite H in Hf. exact Hf.
  - intros H.
    destruct (filter (fun c => String.eqb (Customer.email c) e) (customers db))
      as [|c l] eqn:E; [reflexivity|].
    exfalso. apply H.
    assert (Hf : In c (filter (fun c => String.eqb (Customer.email c) e) (customers db)))
      by (rewrite E; now left).
    apply filter_In in Hf as [Hin Hc]. exists c. split; [exact Hin | now apply String.eqb_eq].
Qed.

Lemma phone_check_spec (phone : option string) :
  Py.truthy_ostr phone && negb (validate_phone phone) = false <-> phone_ok phone.
Proof.
  destruct phone as [s|]; [|cbn; tauto].
  destruct s as [|c s]; [cbn; tauto|].
  change (Py.truthy_ostr (Some (String c s))) with true.
  rewrite andb_true_l, negb_false_iff.
  change (validate_phone (Some (String c s))) with (Re.match_ phone_pattern (String c s)).
  rewrite phone_pattern_shape. cbn [phone_ok].
  split; [auto | intros [E | E]; [discriminate | exact E]].
Qed.

Lemma customer_errors_nil (db : DB) (row : CustomerInput.t) :
  customer_errors db row = [] <-> row_ok db row.
Proof.
  unfold customer_errors, row_ok.
  rewrite <- validate_email_unique_spec, <- phone_check_spec.
  destruct (validate_email_unique db (CustomerInput.email row) None);
    destruct (Py.truthy_ostr (CustomerInput.phone row)
              && negb (validate_phone (CustomerInput.phone row)));
    cbn; split; intros H; try discriminate; try tauto;
    destruct H; discriminate.
Qed.

Lemma customer_errors_email (db : DB) (row : CustomerInput.t) :
  email_taken db (CustomerInput.email row) ->
  In email_exists_error (customer_errors db row).
Proof.
  intros H. unfold customer_errors.
  destruct (validate_email_unique db (CustomerInput.email row) None) eqn:E.
  - apply validate_email_unique_spec in E. contradiction.
  - cbn. destruct (Py.truthy_ostr _ && _); cbn; auto.
Qed.

Lemma customer_create_ok (db : DB) (now : Z) (name email phone : string) :
  ~ email_taken db email ->
  Storage.customer_create db now name email phone
  = inr (mkDB (customers db ++ [Customer.mk (next_customer_id db) name email (Some phone) now])
              (products db) (orders db) (order_products db)
              (next_customer_id db + 1) (next_product_id db) (next_order_id db),
         Customer.mk (next_customer_id db) name email (Some phone) now).
Proof.
  intros H. unfold Storage.customer_create.
  destruct (existsb _ (customers db)) eqn:E; [|reflexivity].
  apply email_taken_existsb in E. contradiction.
Qed.

(** What [CreateCustomer.mutate] does on a valid row. *)
Lemma create_customer_valid (db : DB) (now : Z) (input : CustomerInput.t) :
  row_ok db input ->
  exists c db',
    CreateCustomer.mutate db now input
    = (db', CreateCustomer.mk (Some c)
              (Some ("Customer '" ++ CustomerInput.name input ++ "' created successfully"))
              None) /\
    customers db' = (customers db ++ [c])%list /\
    customer_of_row c input.
Proof.
  intros Hok. pose proof Hok as [Hfree _].
  unfold CreateCustomer.mutate.
  rewrite (proj2 (customer_errors_nil db input) Hok). cbn [Py.truthy_list].
  rewrite customer_create_ok by exact Hfree.
  eexists _, _. split; [reflexivity|]. split; [reflexivity|].
  repeat split.
Qed.

(** What it does when the email is taken. *)
Lemma create_customer_taken (db : DB) (now : Z) (input : CustomerInput.t) :
  email_taken db (CustomerInput.email input) ->
  exists errs,
    CreateCustomer.mutate db now input
    = (db, CreateCustomer.mk None (Some "Validation failed") (Some errs)) /\
    In email_exists_error errs.
Proof.
  intros H. pose proof (customer_errors_email db input H) as Hin.
  unfold CreateCustomer.mutate.
  destruct (customer_errors db input) as [|e errs]; [destruct Hin|].
  cbn [Py.truthy_list]. eauto.
Qed.

(** **** Claim C2.
    For every email and every state in which no customer has that email,
    running CreateCustomer twice in sequence with that email (and a valid
    phone in the first input) yields one success, a customer created and
    returned with a success message, then one failure whose error list
    holds the field error on [email] saying that the email already
    exists; the second call creates no customer. *)
Theorem same_email_twice_one_success_one_error :
  forall (db : DB) (now1 now2 : Z) (first second : CustomerInput.t),
    ~ email_taken db (CustomerInput.email first) ->
    phone_ok (CustomerInput.phone first) ->
    CustomerInput.email second = CustomerInput.email first ->
    exists c db1 errs,
      CreateCustomer.mutate db now1 first
      = (db1, CreateCustomer.mk (Some c)
                (Some ("Customer '" ++ CustomerInput.name first ++ "' created successfully"))
                None) /\
      customers db1 = (customers db ++ [c])%list /\
      customer_of_row c first /\
      CreateCustomer.mutate db1 now2 second
      = (db1, CreateCustomer.mk None (Some "Validation failed") (Some errs)) /\
      In email_exists_error errs.
Proof.
  intros db now1 now2 first second Hfree Hphone Hsame.
  destruct (create_customer_valid db now1 first (conj Hfree Hphone))
    as (c & db1 & E1 & Hrows & Hc).
  assert (Htaken : email_taken db1 (CustomerInput.email second)).
  { exists c. rewrite Hrows, Hsame. split; [apply in_or_app; right; now left|].
    apply Hc. }
  destruct (create_customer_taken db1 now2 second Htaken) as (errs & E2 & Hin).
  exists c, db1, errs. auto.
Qed.

Lemma same_email_twice_one_success_one_error_witness :
  exists c db1 errs,
    CreateCustomer.mutate seeded 7 (CustomerInput.mk "Bob Smith" "bob@example.com" (Some "123-456-7890"))
    = (db1, CreateCustomer.mk (Some c) (Some "Customer 'Bob Smith' created successfully") None) /\
    customers db1 = (customers seeded ++ [c])%list /\
    customer_of_row c (CustomerInput.mk "Bob Smith" "bob@example.com" (Some "123-456-7890")) /\
    CreateCustomer.mutate db1 8 (CustomerInput.mk "Robert" "bob@example.com" None)
    = (db1, CreateCustomer.mk None (Some "Validation failed") (Some errs)) /\
    In email_exists_error errs.
Proof.
  apply (same_email_twice_one_success_one_error seeded 7 8
           (CustomerInput.mk "Bob Smith" "bob@example.com" (Some "123-456-7890"))
           (CustomerInput.mk "Robert" "bob@example.com" None)).
  - intros (c & [<- | []] & H). discriminate H.
  - right. apply phone_pattern_shape. reflexivity.
  - reflexivity.
Defined.

(* ===================================================================== *)
(** ** Bulk creation: the loop, row by row *)
(* ===================================================================== *)

Lemma created_customer_of_row (db : DB) (now : Z) (row : CustomerInput.t) :
  customer_of_row (created_customer db now row) row.
Proof. repeat split. Qed.

Lemma bulk_step_valid (now : Z) (index : nat) (row : CustomerInput.t)
      (rest : list CustomerInput.t) (db : DB)
      (cs : list Customer.t) (es : list CustomerValidationError.t) :
  row_ok db row ->
  BulkCreateCustomers.loop now index (row :: rest) db cs es
  = BulkCreateCustomers.loop now (S index) rest
      (with_customer db (created_customer db now row))
      (cs ++ [created_customer db now row])%list es.
Proof.
  intros Hok. pose proof Hok as [Hfree _].
  cbn [BulkCreateCustomers.loop].
  rewrite (proj2 (customer_errors_nil db row) Hok). cbn [Py.truthy_list].
  rewrite customer_create_ok by exact Hfree. reflexivity.
Qed.

Lemma bulk_step_invalid (now : Z) (index : nat) (row : CustomerInput.t)
      (rest : list CustomerInput.t) (db : DB)
      (cs : list Customer.t) (es : list CustomerValidationError.t) :
  ~ row_ok db row ->
  customer_errors db row <> [] /\
  BulkCreateCustomers.loop now index (row :: rest) db cs es
  = BulkCreateCustomers.loop now (S index) rest db cs
      (es ++ [CustomerValidationError.mk index (customer_errors db row)])%list.
Proof.
  intros Hbad.
  assert (Hne : customer_errors db row <> []).
  { intros E. apply Hbad. now apply customer_errors_nil. }
  split; [exact Hne|].
  cbn [BulkCreateCustomers.loop].
  destruct (customer_errors db row); [congruence | reflexivity].
Qed.

(** A row is valid or it is not: validation is a computation. *)
Lemma row_ok_dec (db : DB) (row : CustomerInput.t) : row_ok db row \/ ~ row_ok db row.
Proof.
  destruct (customer_errors db row) eqn:E.
  - left. now apply customer_errors_nil.
  - right. intros H. apply customer_errors_nil in H. congruence.
Qed.

(** The loop only appends: to the table, to the customers and to the
    errors; every row adds to exactly one of the two lists, and an error
    carries the index of its row. *)
Lemma bulk_loop_appends (now : Z) (rows : list CustomerInput.t) :
  forall (index : nat) (db : DB) (cs : list Customer.t)
         (es : list CustomerValidationError.t),
  exists cs' es',
    BulkCreateCustomers.customers (snd (BulkCreateCustomers.loop now index rows db cs es))
    = (cs ++ cs')%list /\
    BulkCreateCustomers.errors (snd (BulkCreateCustomers.loop now index rows db cs es))
    = (es ++ es')%list /\
    customers (fst (BulkCreateCustomers.loop now index rows db cs es))
    = (customers db ++ cs')%list /\
    (List.length cs' + List.length es' = List.length rows)%nat /\
    (forall e, In e es' ->
               (index <= CustomerValidationError.index e < index + List.length rows)%nat).
Proof.
  induction rows as [|row rest IH]; intros index db cs es.
  - exists [], []. cbn. rewrite !app_nil_r.
    split; [reflexivity|]. split; [reflexivity|]. split; [reflexivity|].
    split; [reflexivity|]. intros e [].
  - destruct (row_ok_dec db row) as [Hok | Hbad].
    + rewrite (bulk_step_valid now index row rest db cs es Hok).
      destruct (IH (S index) (with_customer db (created_customer db now row))
                   (cs ++ [created_customer db now row])%list es)
        as (cs' & es' & H1 & H2 & H3 & H4 & H5).
      exists (created_customer db now row :: cs'), es'.
      rewrite H1, H2, H3. cbn [with_customer customers]. rewrite <- !app_assoc. cbn.
      split; [reflexivity|]. split; [reflexivity|]. split; [reflexivity|].
      split; [lia|]. intros e He. apply H5 in He. lia.
    + destruct (bulk_step_invalid now index row rest db cs es Hbad) as (_ & ->).
      destruct (IH (S index) db cs
                   (es ++ [CustomerValidationError.mk index (customer_errors db row)])%list)
        as (cs' & es' & H1 & H2 & H3 & H4 & H5).
      exists cs', (CustomerValidationError.mk index (customer_errors db row) :: es').
      rewrite H1, H2, H3, <- !app_assoc. cbn.
      split; [reflexivity|]. split; [reflexivity|]. split; [reflexivity|].
      split; [lia|]. intros e [<- | He]; [cbn; lia | apply H5 in He; lia].
Qed.

(** Running the loop over [l1 ++ l2] is running it over [l1], then over
    [l2] from where the first run stopped. *)
Lemma bulk_loop_app (now : Z) (l1 l2 : list CustomerInput.t) :
  forall (index : nat) (db : DB) (cs : list Customer.t)
         (es : list CustomerValidationError.t),
    BulkCreateCustomers.loop now index (l1 ++ l2) db cs es
    = BulkCreateCustomers.loop now (index + List.length l1) l2
        (fst (BulkCreateCustomers.loop now index l1 db cs es))
        (BulkCreateCustomers.customers (snd (BulkCreateCustomers.loop now index l1 db cs es)))
        (BulkCreateCustomers.errors (snd (BulkCreateCustomers.loop now index l1 db cs es))).
Proof.
  induction l1 as [|row rest IH]; intros index db cs es.
  - cbn. now rewrite Nat.add_0_r.
  - cbn [app List.length].
    replace (index + S (List.length rest))%nat with (S index + List.length rest)%nat by lia.
    destruct (row_ok_dec db row) as [Hok | Hbad].
    + rewrite (bulk_step_valid now index row (rest ++ l2) db cs es Hok).
      rewrite (bulk_step_valid now index row rest db cs es Hok).
      apply IH.
    + destruct (bulk_step_invalid now index row (rest ++ l2) db cs es Hbad) as (_ & ->).
      destruct (bulk_step_invalid now index row rest db cs es Hbad) as (_ & ->).
      apply IH.
Qed.

Lemma nth_error_prefixes {A : Type} (l : list A) (i : nat) (a : A) :
  nth_error l i = Some a ->
  exists l2, l = (firstn i l ++ a :: l2)%list /\
             firstn (S i) l = (firstn i l ++ [a])%list /\
             List.length (firstn i l) = i.
Proof.
  revert i; induction l as [|x l IH]; intros [|i] H; cbn in H; try discriminate.
  - injection H as ->. exists l. cbn. auto.
  - destruct (IH i H) as (l2 & E1 & E2 & E3). exists l2.
    split; [|split].
    + cbn [firstn app]. now rewrite <- E1.
    + change (firstn (S (S i)) (x :: l)) with (x :: firstn (S i) l).
      now rewrite E2.
    + cbn [firstn List.length]. now rewrite E3.
Qed.

(** **** Claim C3.
    For every batch given to BulkCreateCustomers, every row that is valid
    when its turn comes is created, committed and returned in the
    customers list, and every row that fails validation is skipped and
    reported in the errors list as a CustomerValidationError carrying that
    row's index; a failing row never prevents the other rows from being
    committed. *)
Theorem bulk_create_commits_valid_rows_and_reports_the_others :
  forall (db : DB) (now : Z) (input : list CustomerInput.t),
    let db' := fst (BulkCreateCustomers.mutate db now input) in
    let out := snd (BulkCreateCustomers.mutate db now input) in
    customers db' = (customers db ++ BulkCreateCustomers.customers out)%list /\
    (List.length (BulkCreateCustomers.customers out)
     + List.length (BulkCreateCustomers.errors out) = List.length input)%nat /\
    forall (i : nat) (row : CustomerInput.t),
      nth_error input i = Some row ->
      let before := fst (BulkCreateCustomers.mutate db now (firstn i input)) in
      let after := fst (BulkCreateCustomers.mutate db now (firstn (S i) input)) in
      (row_ok before row ->
       exists c,
         customer_of_row c row /\
         customers after = (customers before ++ [c])%list /\
         In c (BulkCreateCustomers.customers out) /\
         In c (customers db') /\
         forall e, In e (BulkCreateCustomers.errors out) ->
                   CustomerValidationError.index e <> i) /\
      (~ row_ok before row ->
       customers after = customers before /\
       exists errs,
         errs <> [] /\
         In (CustomerValidationError.mk i errs) (BulkCreateCustomers.errors out)).
Proof.
  intros db now input db' out. subst db' out. unfold BulkCreateCustomers.mutate.
  destruct (bulk_loop_appends now input 0%nat db [] []) as (cs & es & H1 & H2 & H3 & H4 & _).
  cbn [app] in H1, H2.
  split; [now rewrite H1, H3|]. split; [now rewrite H1, H2|].
  intros i row Hnth. cbv zeta.
  destruct (nth_error_prefixes input i row Hnth) as (l2 & Esplit & Esucc & Elen).
  rewrite Esucc.
  set (l1 := firstn i input) in *.
  (* the run over the rows before [row] *)
  destruct (bulk_loop_appends now l1 0%nat db [] [])
    as (cs1 & es1 & P1 & P2 & P3 & _ & P5).
  cbn [app] in P1, P2.
  assert (Hwhole : BulkCreateCustomers.loop now 0 input db [] []
                   = BulkCreateCustomers.loop now i (row :: l2)
                       (fst (BulkCreateCustomers.loop now 0 l1 db [] [])) cs1 es1).
  { rewrite Esplit at 1. rewrite bulk_loop_app, P1, P2, Elen. reflexivity. }
  assert (Hafter : BulkCreateCustomers.loop now 0 (l1 ++ [row]) db [] []
                   = BulkCreateCustomers.loop now i [row]
                       (fst (BulkCreateCustomers.loop now 0 l1 db [] [])) cs1 es1).
  { rewrite bulk_loop_app, P1, P2, Elen. reflexivity. }
  rewrite Hwhole, Hafter. clear Hwhole Hafter H1 H2 H3 H4.
  set (db1 := fst (BulkCreateCustomers.loop now 0 l1 db [] [])) in *.
  split.
  - intros Hok. exists (created_customer db1 now row).
    rewrite !(bulk_step_valid now i row _ db1 cs1 es1 Hok).
    destruct (bulk_loop_appends now l2 (S i) (with_customer db1 (created_customer db1 now row))
                (cs1 ++ [created_customer db1 now row])%list es1)
      as (cs2 & es2 & Q1 & Q2 & Q3 & _ & Q5).
    rewrite Q1, Q2, Q3.
    split; [apply created_customer_of_row|]. split; [reflexivity|].
    split; [rewrite <- app_assoc; apply in_or_app; right; now left|].
    split; [cbn [with_customer customers]; rewrite <- app_assoc;
            apply in_or_app; right; now left|].
    intros e He. apply in_app_or in He as [He | He].
    + apply P5 in He. lia.
    + apply Q5 in He. lia.
  - intros Hbad.
    destruct (bulk_step_invalid now i row l2 db1 cs1 es1 Hbad) as (Hne & ->).
    destruct (bulk_step_invalid now i row [] db1 cs1 es1 Hbad) as (_ & ->).
    destruct (bulk_loop_appends now l2 (S i) db1 cs1
                (es1 ++ [CustomerValidationError.mk i (customer_errors db1 row)])%list)
      as (cs2 & es2 & Q1 & Q2 & Q3 & _ & Q5).
    rewrite Q2. split; [reflexivity|].
    exists (customer_errors db1 row). split; [exact Hne|].
    apply in_or_app; left. apply in_or_app; right. now left.
Qed.

Lemma bulk_create_commits_valid_rows_and_reports_the_others_witness :
  let input := [ CustomerInput.mk "Bob Smith" "bob@example.com" (Some "123-456-7890");
                 CustomerInput.mk "Alice Again" "alice@example.com" None;
                 CustomerInput.mk "Carol Davis" "carol@example.com" (Some "") ] in
  let out := snd (BulkCreateCustomers.mutate seeded 9 input) in
  (exists c, customer_of_row c (CustomerInput.mk "Bob Smith" "bob@example.com" (Some "123-456-7890")) /\
             In c (BulkCreateCustomers.customers out)) /\
  (exists errs, errs <> [] /\
                In (CustomerValidationError.mk 1 errs) (BulkCreateCustomers.errors out)) /\
  (exists c, customer_of_row c (CustomerInput.mk "Carol Davis" "carol@example.com" (Some "")) /\
             In c (BulkCreateCustomers.customers out)).
Proof.
  intros input out.
  destruct (bulk_create_commits_valid_rows_and_reports_the_others seeded 9 input)
    as (_ & _ & H).
  split; [|split].
  - destruct (H 0%nat _ eq_refl) as [Hok _].
    destruct Hok as (c & Hc & _ & Hin & _).
    + apply customer_errors_nil. reflexivity.
    + exists c. split; [exact Hc | exact Hin].
  - destruct (H 1%nat _ eq_refl) as [_ Hbad].
    destruct Hbad as (_ & errs & Hne & Hin).
    + intros Hok. apply customer_errors_nil in Hok. discriminate Hok.
    + exists errs. split; [exact Hne | exact Hin].
  - destruct (H 2%nat _ eq_refl) as [Hok _].
    destruct Hok as (c & Hc & _ & Hin & _).
    + apply customer_errors_nil. reflexivity.
    + exists c. split; [exact Hc | exact Hin].
Defined.

(* ===================================================================== *)
(** ** Product creation *)
(* ===================================================================== *)

Lemma dec_zero_Q : (Py.dec_to_Q Py.dec_zero == 0)%Q.
Proof. reflexivity. Qed.

Lemma price_check_spec (price : Py.Decimal) :
  Py.dec_leb price Py.dec_zero = true <-> (Py.dec_to_Q price <= 0)%Q.
Proof. now rewrite dec_leb_Q, dec_zero_Q. Qed.

(** **** Claim C4.
    For every CreateProduct input whose price is less than or equal to
    zero, the mutation returns a validation error on field [price]
    (message "Price must be positive") with a null product, and no record
    is created; conversely, for inputs with a positive price and a
    non-negative or absent stock, no price or stock validation error is
    returned: the product is created. *)
Theorem create_product_rejects_non_positive_price :
  forall (db : DB) (now : Z) (input : ProductInput.t),
    ((Py.dec_to_Q (ProductInput.price input) <= 0)%Q ->
     exists errs,
       CreateProduct.mutate db now input
       = (db, CreateProduct.mk None (Some "Validation failed") (Some errs)) /\
       In (ErrorType.mk "price" "Price must be positive") errs) /\
    ((0 < Py.dec_to_Q (ProductInput.price input))%Q ->
     (forall n, ProductInput.stock input = Some n -> 0 <= n) ->
     exists p db',
       CreateProduct.mutate db now input
       = (db', CreateProduct.mk (Some p)
                 (Some ("Product '" ++ ProductInput.name input ++ "' created successfully"))
                 None) /\
       products db' = (products db ++ [p])%list /\
       Product.price p = ProductInput.price input /\
       forall e, In e (error_list (CreateProduct.errors (snd (CreateProduct.mutate db now input)))) ->
                 ErrorType.field e <> "price" /\ ErrorType.field e <> "stock").
Proof.
  intros db now input. split.
  - intros Hle. apply price_check_spec in Hle.
    unfold CreateProduct.mutate. rewrite Hle.
    destruct (ProductInput.stock input) as [n|]; [destruct (n <? 0)|];
      cbn; eexists; (split; [reflexivity | cbn; auto]).
  - intros Hpos Hstock.
    assert (Hprice : Py.dec_leb (ProductInput.price input) Py.dec_zero = false).
    { destruct (Py.dec_leb (ProductInput.price input) Py.dec_zero) eqn:E; [|reflexivity].
      apply price_check_spec in E. exfalso. apply (Qlt_not_le _ _ Hpos E). }
    unfold CreateProduct.mutate. rewrite Hprice.
    assert (Hs : (CreateProduct.stock_or_0 (ProductInput.stock input) <? 0) = false).
    { unfold CreateProduct.stock_or_0, Py.truthy_int.
      destruct (ProductInput.stock input) as [n|]; [|reflexivity].
      specialize (Hstock n eq_refl).
      destruct (n =? 0); cbn; [reflexivity | apply Z.ltb_ge; lia]. }
    assert (Hn : match ProductInput.stock input with
                 | Some n => if n <? 0 then Py.append [] CreateProduct.stock_error else []
                 | None => []
                 end = @nil ErrorType.t).
    { destruct (ProductInput.stock input) as [n|]; [|reflexivity].
      specialize (Hstock n eq_refl).
      destruct (n <? 0) eqn:E; [apply Z.ltb_lt in E; lia | reflexivity]. }
    rewrite Hn. cbn [Py.truthy_list].
    unfold Storage.product_create. rewrite Hs.
    eexists _, _. split; [reflexivity|]. cbn.
    split; [reflexivity|]. split; [reflexivity|]. intros e [].
Qed.

Lemma create_product_rejects_non_positive_price_witness :
  (Py.dec_to_Q (Py.mkDecimal 0 (-2)) <= 0)%Q /\
  (exists errs,
      CreateProduct.mutate seeded 3 (ProductInput.mk "Free" (Py.mkDecimal 0 (-2)) (Some 4))
      = (seeded, CreateProduct.mk None (Some "Validation failed") (Some errs)) /\
      In (ErrorType.mk "price" "Price must be positive") errs) /\
  (exists p db',
      CreateProduct.mutate seeded 3 (ProductInput.mk "Webcam" (Py.mkDecimal 8999 (-2)) None)
      = (db', CreateProduct.mk (Some p) (Some "Product 'Webcam' created successfully") None) /\
      products db' = (products seeded ++ [p])%list).
Proof.
  assert (H0 : (Py.dec_to_Q (Py.mkDecimal 0 (-2)) <= 0)%Q) by (vm_compute; discriminate).
  split; [exact H0|]. split.
  - apply (proj1 (create_product_rejects_non_positive_price seeded 3
                    (ProductInput.mk "Free" (Py.mkDecimal 0 (-2)) (Some 4)))).
    exact H0.
  - destruct (proj2 (create_product_rejects_non_positive_price seeded 3
                       (ProductInput.mk "Webcam" (Py.mkDecimal 8999 (-2)) None)))
      as (p & db' & E & Hp & _).
    + vm_compute. reflexivity.
    + intros n [=].
    + exists p, db'. split; [exact E | exact Hp].
Defined.

(* ===================================================================== *)
(** ** Order creation *)
(* ===================================================================== *)

Lemma mem_id_In (n : Z) (ns : list Z) : Storage.mem_id n ns = true <-> In n ns.
Proof.
  unfold Storage.mem_id. rewrite existsb_exists. split.
  - intros (m & Hin & E). apply Z.eqb_eq in E. now subst.
  - intros H. exists n. split; [exact H | apply Z.eqb_refl].
Qed.

Lemma In_attached (db : DB) (ns : list Z) (p : Product.t) :
  In p (attached db ns) <-> In p (products db) /\ In (Product.id p) ns.
Proof. unfold attached. now rewrite filter_In, mem_id_In. Qed.

Lemma NoDup_map_filter {A B : Type} (f : A -> B) (g : A -> bool) (l : list A) :
  NoDup (map f l) -> NoDup (map f (filter g l)).
Proof.
  induction l as [|a l IH]; cbn; [auto|].
  intros H. inversion H as [|? ? Hnotin Hnd]; subst.
  destruct (g a); [|auto]. cbn. constructor; [|auto].
  intros Hin. apply Hnotin. apply in_map_iff in Hin as (b & E & Hb).
  apply filter_In in Hb as [Hb _]. apply in_map_iff. eauto.
Qed.

Lemma attached_ids_incl (db : DB) (ns : list Z) :
  incl (map Product.id (attached db ns)) ns.
Proof.
  intros n Hin. apply in_map_iff in Hin as (p & <- & Hp).
  now apply In_attached in Hp.
Qed.

(** With unique primary keys, as many products are matched as there are
    ids exactly when the ids are pairwise distinct and each one is the
    key of a stored product. *)
Lemma attached_length (db : DB) (ns : list Z) :
  NoDup (map Product.id (products db)) ->
  (List.length (attached db ns) = List.length ns <->
   NoDup ns /\ forall n, In n ns -> exists p, In p (products db) /\ Product.id p = n).
Proof.
  intros Hpk.
  assert (Hnd : NoDup (map Product.id (attached db ns)))
    by (apply NoDup_map_filter; exact Hpk).
  pose proof (attached_ids_incl db ns) as Hincl.
  rewrite <- (length_map Product.id (attached db ns)).
  split.
  - intros Hlen. split.
    + apply (NoDup_incl_NoDup Hnd); [lia | exact Hincl].
    + intros n Hn.
      assert (Hback : incl ns (map Product.id (attached db ns)))
        by (apply (NoDup_length_incl Hnd); [lia | exact Hincl]).
      apply Hback in Hn. apply in_map_iff in Hn as (p & E & Hp).
      apply In_attached in Hp as [Hp _]. eauto.
  - intros [Hns Hall].
    apply Nat.le_antisymm.
    + apply NoDup_incl_length; assumption.
    + apply NoDup_incl_length; [exact Hns|].
      intros n Hn. destruct (Hall n Hn) as (p & Hp & <-).
      apply in_map. apply In_attached. auto.
Qed.

Lemma attached_length_le (db : DB) (ns : list Z) :
  NoDup (map Product.id (products db)) ->
  (List.length (attached db ns) <= List.length ns)%nat.
Proof.
  intros Hpk. rewrite <- (length_map Product.id (attached db ns)).
  apply NoDup_incl_length; [now apply NoDup_map_filter | apply attached_ids_incl].
Qed.

(** *** The coercion of the id list *)

Lemma prep_id_inr (s : string) (n : Z) :
  Storage.prep_id s = inr n <-> Py.int s = Some n.
Proof.
  unfold Storage.prep_id. destruct (Py.int s); split; intros H; congruence.
Qed.

Lemma prep_ids_inr (ids : list string) (ns : list Z) :
  Storage.prep_ids ids = inr ns <-> coerced ids ns.
Proof.
  unfold coerced. revert ns; induction ids as [|s ids IH]; intros ns; cbn.
  - split; intros H; [injection H as <-; constructor | inversion H; reflexivity].
  - unfold bind. split.
    + destruct (Storage.prep_id s) as [e|n] eqn:E; [discriminate|].
      destruct (Storage.prep_ids ids) as [e|ms] eqn:E'; [discriminate|].
      intros [= <-]. constructor; [now apply prep_id_inr | now apply IH].
    + intros H. inversion H as [|? n ? ms Hs Hrest]; subst.
      apply prep_id_inr in Hs. rewrite Hs. apply IH in Hrest. now rewrite Hrest.
Qed.

Lemma prep_ids_canonical (ids : list string) :
  Forall (fun s => Py.canonical s = true) ids -> exists ns, Storage.prep_ids ids = inr ns.
Proof.
  induction 1 as [|s ids Hs _ (ns & IH)]; cbn.
  - eauto.
  - apply canonical_inv in Hs as (n & E & _).
    apply prep_id_inr in E. rewrite E, IH. cbn. eauto.
Qed.

Lemma coerced_length (ids : list string) (ns : list Z) :
  coerced ids ns -> List.length ns = List.length ids.
Proof. intros H. symmetry. exact (Forall2_length H). Qed.

Lemma coerced_In (ids : list string) (ns : list Z) (s : string) :
  coerced ids ns -> In s ids -> exists n, In n ns /\ Py.int s = Some n.
Proof.
  induction 1 as [|t n ts ms Ht _ IH]; intros Hin; [destruct Hin|].
  destruct Hin as [<- | Hin].
  - exists n. split; [now left | exact Ht].
  - destruct (IH Hin) as (m & Hm & E). exists m. split; [now right | exact E].
Qed.

(** Equal strings denote equal integers: distinct integers come from
    distinct strings. *)
Lemma coerced_NoDup (ids : list string) (ns : list Z) :
  coerced ids ns -> NoDup ns -> NoDup ids.
Proof.
  induction 1 as [|t n ts ms Ht Hrest IH]; intros Hnd; [constructor|].
  inversion Hnd as [|? ? Hnotin Hnd']; subst.
  constructor; [|now apply IH].
  intros Hin. apply Hnotin.
  destruct (coerced_In ts ms t Hrest Hin) as (m & Hm & E).
  congruence.
Qed.

(** *** The customer lookup *)

Lemma customer_get_inr (db : DB) (s : string) (c : Customer.t) :
  Storage.customer_get db s = inr c ->
  In c (customers db) /\ Py.int s = Some (Customer.id c).
Proof.
  unfold Storage.customer_get, Storage.prep_id, bind.
  destruct (Py.int s) as [n|]; [|discriminate].
  destruct (find _ (customers db)) as [c'|] eqn:E; [|discriminate].
  intros [= ->]. apply find_some in E as [Hin Hid].
  apply Z.eqb_eq in Hid. split; [exact Hin | now rewrite Hid].
Qed.

Lemma customer_get_missing (db : DB) (s : string) (n : Z) :
  Py.int s = Some n ->
  (forall c, In c (customers db) -> Customer.id c <> n) ->
  Storage.customer_get db s = inl (DoesNotExist "Customer matching query does not exist.").
Proof.
  intros Hs Hnone. unfold Storage.customer_get, Storage.prep_id, bind. rewrite Hs.
  destruct (find _ (customers db)) as [c|] eqn:E; [|reflexivity].
  apply find_some in E as [Hin Hid]. apply Z.eqb_eq in Hid.
  exfalso. exact (Hnone c Hin Hid).
Qed.

Lemma stored_customer_passes_fk (db : DB) (c : Customer.t) :
  In c (customers db) ->
  existsb (fun c' => Customer.id c' =? Customer.id c) (customers db) = true.
Proof. intros H. apply existsb_exists. exists c. split; [exact H | apply Z.eqb_refl]. Qed.

(** *** The mutation, once the customer is found and the ids coerced *)

Lemma mutate_with_customer (db : DB) (now : Z) (input : OrderInput.t)
      (customer : Customer.t) (ns : list Z) :
  Storage.customer_get db (OrderInput.customer_id input) = inr customer ->
  Storage.prep_ids (OrderInput.product_ids input) = inr ns ->
  CreateOrder.mutate db now input
  = let errors := (empty_list_errors (OrderInput.product_ids input)
                   ++ unmatched_errors (OrderInput.product_ids input) (attached db ns))%list in
    if Py.truthy_list errors
    then inr (db, CreateOrder.mk None (Some "Validation failed") (Some errors))
    else
      match CreateOrder.create db now customer (OrderInput.order_date input)
              (attached db ns) with
      | inr (db', order) =>
          inr (db', CreateOrder.mk (Some order)
                      (Some ("Order created successfully with total amount $"
                             ++ Py.dec_str (Order.total_amount order)))
                      None)
      | inl e =>
          inr (db, CreateOrder.mk None (Some "Failed to create order")
                     (Some [ErrorType.mk "general" (exn_str e)]))
      end.
Proof.
  intros Hc Hp. unfold CreateOrder.mutate. rewrite Hc.
  unfold Storage.products_with_id_in, bind. rewrite Hp.
  fold (attached db ns).
  unfold empty_list_errors, unmatched_errors, Py.append.
  destruct (negb (Py.truthy_list (OrderInput.product_ids input)));
    destruct (negb (List.length (attached db ns)
                    =? List.length (OrderInput.product_ids input))%nat);
    reflexivity.
Qed.

(** *** The body of the transaction *)

Lemma links_select_attached (db : DB) (ns : list Z) (oid : Z) (old : list (Z * Z)) :
  filter (fun p =>
            existsb (fun l => (fst l =? oid) && (snd l =? Product.id p))
                    (filter (fun l => negb (fst l =? oid)) old
                     ++ map (fun q => (oid, Product.id q)) (attached db ns))%list)
         (products db)
  = attached db ns.
Proof.
  unfold attached at 2. apply filter_ext_in. intros p Hp.
  rewrite existsb_app. apply eq_iff_eq_true.
  rewrite orb_true_iff, !existsb_exists, mem_id_In. split.
  - intros [(l & Hl & E) | (l & Hl & E)].
    + apply filter_In in Hl as [_ Hl]. apply andb_true_iff in E as [E _].
      rewrite E in Hl. discriminate.
    + apply in_map_iff in Hl as (q & <- & Hq). cbn in E.
      apply andb_true_iff in E as [_ E]. apply Z.eqb_eq in E.
      apply In_attached in Hq as [_ Hq]. now rewrite <- E.
  - intros Hn. right. exists (oid, Product.id p). split.
    + apply in_map_iff. exists p. split; [reflexivity | apply In_attached; auto].
    + cbn. now rewrite !Z.eqb_refl.
Qed.

Lemma find_saved_order (rows : list Order.t) (o0 o : Order.t) :
  Order.id o = Order.id o0 ->
  (forall r, In r rows -> Order.id r < Order.id o0) ->
  find (fun r => Order.id r =? Order.id o)
       (map (fun r => if Order.id r =? Order.id o then o else r) (rows ++ [o0])%list)
  = Some o.
Proof.
  intros Hid Hlt. induction rows as [|r rows IH]; cbn.
  - rewrite Hid, Z.eqb_refl. cbn. now rewrite Hid, Z.eqb_refl.
  - assert (E : (Order.id r =? Order.id o) = false).
    { apply Z.eqb_neq. rewrite Hid. specialize (Hlt r (or_introl eq_refl)). lia. }
    rewrite E, E. apply IH. intros r' Hr'. apply Hlt. now right.
Qed.

(** The transaction stores the order with the exact total of the
    products attached to it. *)
Lemma create_stores_placed_order (db : DB) (now : Z) (customer : Customer.t)
      (order_date : option Z) (ns : list Z) :
  In customer (customers db) ->
  exists db',
    CreateOrder.create db now customer order_date (attached db ns)
    = inr (db', placed_order db now customer order_date (attached db ns)) /\
    customers db' = customers db /\
    products db' = products db /\
    Storage.order_products_all db'
      (placed_order db now customer order_date (attached db ns)) = attached db ns /\
    In (placed_order db now customer order_date (attached db ns)) (orders db') /\
    ((forall r, In r (orders db) -> Order.id r < next_order_id db) ->
     Storage.order_get db' (next_order_id db)
     = Some (placed_order db now customer order_date (attached db ns))).
Proof.
  intros Hin.
  unfold CreateOrder.create, Storage.order_create, bind.
  rewrite (stored_customer_passes_fk db customer Hin).
  cbv beta iota zeta.
  unfold calculate_total_amount, Storage.order_products_all, Storage.order_products_set,
    Storage.order_save, Storage.order_get, Py.append.
  cbn [customers products orders order_products next_customer_id next_product_id
       next_order_id Order.id Order.customer Order.total_amount Order.order_date
       Order.created_at].
  rewrite links_select_attached.
  eexists. split; [reflexivity|].
  cbn [customers products orders order_products next_customer_id next_product_id
       next_order_id Order.id placed_order].
  split; [reflexivity|]. split; [reflexivity|].
  split; [apply links_select_attached|].
  split.
  - apply in_map_iff.
    exists (Order.mk (next_order_id db) (Customer.id customer) (Py.mkDecimal 0 (-2))
                     (match order_date with Some d => d | None => now end) now).
    cbn [Order.id]. rewrite Z.eqb_refl. split; [reflexivity|].
    apply in_or_app. right. now left.
  - intros Hlt.
    apply (find_saved_order (orders db)
             (Order.mk (next_order_id db) (Customer.id customer) (Py.mkDecimal 0 (-2))
                       (match order_date with Some d => d | None => now end) now)
             (placed_order db now customer order_date (attached db ns))).
    + reflexivity.
    + exact Hlt.
Qed.

(** *** Which ids the error message lists *)

Lemma canonical_id_matched (db : DB) (ids : list string) (ns : list Z) (s : string) :
  coerced ids ns -> In s ids -> Py.canonical s = true ->
  (existsb (fun p => String.eqb s (Py.str (Product.id p))) (attached db ns) = true
   <-> product_exists db s).
Proof.
  intros Hco Hin Hcan. rewrite existsb_exists. split.
  - intros (p & Hp & E). apply String.eqb_eq in E.
    apply In_attached in Hp as [Hp _].
    exists (Product.id p), p. subst s. rewrite int_str. auto.
  - intros (n & p & Hs & Hp & Hid).
    destruct (coerced_In ids ns s Hco Hin) as (m & Hm & Hs').
    assert (m = n) by congruence. subst m.
    exists p. split; [apply In_attached; split; [exact Hp | now rewrite Hid]|].
    apply String.eqb_eq.
    destruct (canonical_inv s Hcan) as (k & Hk & ->).
    rewrite Hid. congruence.
Qed.

Lemma truthy_list_app_false {A : Type} (l1 l2 : list A) :
  Py.truthy_list (l1 ++ l2) = false -> l1 = [] /\ l2 = [].
Proof. destruct l1; cbn; [intros H; now apply truthy_list_nil in H | discriminate]. Qed.

Lemma unmatched_errors_nil (ids : list string) (ps : list Product.t) :
  unmatched_errors ids ps = [] <-> List.length ps = List.length ids.
Proof.
  unfold unmatched_errors.
  destruct (List.length ps =? List.length ids)%nat eqn:E; cbn.
  - apply Nat.eqb_eq in E. tauto.
  - apply Nat.eqb_neq in E. split; [discriminate | contradiction].
Qed.

Lemma unmatched_errors_cons (ids : list string) (ps : list Product.t) :
  List.length ps <> List.length ids ->
  unmatched_errors ids ps = [CreateOrder.invalid_ids_error (CreateOrder.invalid_ids ids ps)].
Proof.
  intros H. unfold unmatched_errors. apply Nat.eqb_neq in H. now rewrite H.
Qed.

Lemma empty_list_errors_nil (ids : list string) :
  ids <> [] -> empty_list_errors ids = [].
Proof. destruct ids; [congruence | reflexivity]. Qed.

Lemma filter_none {A : Type} (f : A -> bool) (l : list A) :
  (forall a, In a l -> f a = false) -> filter f l = [].
Proof.
  induction l as [|a l IH]; cbn; [reflexivity|]. intros H.
  rewrite (H a (or_introl eq_refl)). apply IH. intros b Hb. apply H. now right.
Qed.

Lemma seeded_wf : wf_db seeded.
Proof.
  constructor; cbn.
  - repeat constructor; cbn; intuition discriminate.
  - repeat constructor; cbn; intuition discriminate.
  - constructor.
  - repeat constructor; cbn; intuition discriminate.
  - intros c [<- | []]. reflexivity.
  - intros p [<- | [<- | [<- | []]]]; reflexivity.
  - intros o [].
Qed.

(** **** Claim C1.
    For every successful CreateOrder call, which attaches a set of
    existing products to a new order, the persisted total_amount is the
    exact decimal sum of the prices of the attached products at creation
    time (products priced 999.99 and 25.50 give 1025.49 exactly), and the
    state the call returns already holds the order with that total. *)
Theorem created_order_total_is_exact_sum :
  forall (db : DB) (now : Z) (input : OrderInput.t)
         (db' : DB) (out : CreateOrder.t) (o : Order.t),
    wf_db db ->
    CreateOrder.mutate db now input = inr (db', out) ->
    CreateOrder.order out = Some o ->
    exists ns,
      coerced (OrderInput.product_ids input) ns /\
      (forall n, In n ns -> exists p, In p (products db) /\ Product.id p = n) /\
      products db' = products db /\
      Storage.order_products_all db' o = attached db ns /\
      Order.total_amount o = Py.sum (map Product.price (attached db ns)) /\
      (Py.dec_to_Q (Order.total_amount o)
       == Qsum (map (fun p => Py.dec_to_Q (Product.price p)) (attached db ns)))%Q /\
      Storage.order_get db' (Order.id o) = Some o /\
      CreateOrder.message out
      = Some ("Order created successfully with total amount $"
              ++ Py.dec_str (Order.total_amount o)).
Proof.
  intros db now input db' out o Hwf Hrun Ho.
  destruct (Storage.customer_get db (OrderInput.customer_id input))
    as [e | customer] eqn:Ec.
  { unfold CreateOrder.mutate in Hrun. rewrite Ec in Hrun.
    destruct e; inversion Hrun; subst; discriminate Ho. }
  destruct (Storage.prep_ids (OrderInput.product_ids input)) as [e | ns] eqn:Ep.
  { unfold CreateOrder.mutate, Storage.products_with_id_in, bind in Hrun.
    rewrite Ec, Ep in Hrun. discriminate Hrun. }
  rewrite (mutate_with_customer db now input customer ns Ec Ep) in Hrun.
  cbv zeta in Hrun.
  destruct (Py.truthy_list _) eqn:Et in Hrun.
  { inversion Hrun; subst; discriminate Ho. }
  apply truthy_list_app_false in Et as [_ Hcount].
  apply unmatched_errors_nil in Hcount.
  destruct (customer_get_inr db _ customer Ec) as [Hin _].
  destruct (create_stores_placed_order db now customer (OrderInput.order_date input) ns Hin)
    as (db1 & Ecreate & _ & Hprod & Hall & _ & Hget).
  rewrite Ecreate in Hrun. inversion Hrun; subst db' out. cbn in Ho.
  injection Ho as <-.
  apply prep_ids_inr in Ep.
  rewrite <- (coerced_length _ _ Ep) in Hcount.
  apply (attached_length db ns (wf_product_ids db Hwf)) in Hcount as [_ Hexist].
  exists ns.
  split; [exact Ep|]. split; [exact Hexist|]. split; [exact Hprod|].
  split; [exact Hall|]. split; [reflexivity|].
  split; [cbn [placed_order Order.total_amount];
          rewrite dec_to_Q_sum, map_map; reflexivity|].
  split; [apply Hget; exact (wf_next_order db Hwf) | reflexivity].
Qed.

Lemma created_order_total_is_exact_sum_witness :
  exists db' out o,
    wf_db seeded /\
    CreateOrder.mutate seeded 5 (OrderInput.mk "1" ["1"; "2"] None) = inr (db', out) /\
    CreateOrder.order out = Some o /\
    attached seeded [1; 2] = [laptop; mouse] /\
    Order.total_amount o = Py.mkDecimal 102549 (-2) /\
    (Py.dec_to_Q (Order.total_amount o) == 102549 # 100)%Q /\
    Storage.order_get db' (Order.id o) = Some o /\
    CreateOrder.message out
    = Some "Order created successfully with total amount $1025.49".
Proof.
  destruct (CreateOrder.mutate seeded 5 (OrderInput.mk "1" ["1"; "2"] None))
    as [e | [db' out]] eqn:E; [discriminate E|].
  destruct (CreateOrder.order out) as [o|] eqn:Eo;
    [|injection E as _ <-; discriminate Eo].
  exists db', out, o.
  destruct (created_order_total_is_exact_sum seeded 5 _ db' out o seeded_wf E Eo)
    as (ns & Hco & _ & _ & _ & Htotal & _ & Hget & Hmsg).
  assert (Hns : ns = [1; 2]).
  { apply prep_ids_inr in Hco. cbn in Hco. now injection Hco as <-. }
  subst ns.
  split; [exact seeded_wf|]. split; [reflexivity|]. split; [exact Eo|].
  split; [reflexivity|]. split; [exact Htotal|].
  split; [rewrite Htotal; reflexivity|].
  split; [exact Hget|]. rewrite Hmsg, Htotal. reflexivity.
Defined.

Lemma invalid_ids_NoDup (ids : list string) (ps : list Product.t) :
  NoDup (CreateOrder.invalid_ids ids ps).
Proof. unfold CreateOrder.invalid_ids. apply NoDup_filter, NoDup_nodup. Qed.

(** On canonical ids, the listed ids are the ids that match no product. *)
Lemma invalid_ids_canonical (db : DB) (ids : list string) (ns : list Z) (s : string) :
  coerced ids ns ->
  Forall (fun s => Py.canonical s = true) ids ->
  (In s (CreateOrder.invalid_ids ids (attached db ns))
   <-> In s ids /\ ~ product_exists db s).
Proof.
  intros Hco Hcan. unfold CreateOrder.invalid_ids.
  rewrite filter_In, nodup_In, negb_true_iff.
  split; intros [Hin H]; (split; [exact Hin|]);
    pose proof (canonical_id_matched db ids ns s Hco Hin
                  (proj1 (Forall_forall _ _) Hcan s Hin)) as Hm.
  - intros Hex. apply Hm in Hex. congruence.
  - destruct (existsb _ (attached db ns)); [|reflexivity].
    exfalso. apply H, Hm. reflexivity.
Qed.

(** **** Claim C5, as amended.
    For every CreateOrder input referencing an existing customer and a
    product-id list written in canonical decimal form (each id as [str]
    prints an integer), with every id within the signed 64-bit range of
    the keys, that contains at least one id matching no existing product,
    the mutation returns a validation error on [product_ids] whose
    message itemizes exactly the non-existent ids, returns a null order
    and creates no order record; the empty-list check and the invalid-id
    check both contribute to one error list, while a customer id that is
    a number matching no customer short-circuits with only the
    [customer_id] error. *)
Theorem create_order_itemizes_missing_canonical_ids :
  forall (db : DB) (now : Z) (input : OrderInput.t),
    wf_db db ->
    (forall customer,
        Storage.customer_get db (OrderInput.customer_id input) = inr customer ->
        Forall (fun s => Py.canonical s = true) (OrderInput.product_ids input) ->
        ids_in_key_range (OrderInput.product_ids input) ->
        (exists s, In s (OrderInput.product_ids input) /\ ~ product_exists db s) ->
        itemizes_missing_ids db now input) /\
    (forall customer ns,
        Storage.customer_get db (OrderInput.customer_id input) = inr customer ->
        Storage.prep_ids (OrderInput.product_ids input) = inr ns ->
        ids_in_key_range (OrderInput.product_ids input) ->
        (empty_list_errors (OrderInput.product_ids input)
         ++ unmatched_errors (OrderInput.product_ids input) (attached db ns) <> [])%list ->
        CreateOrder.mutate db now input
        = inr (db, CreateOrder.mk None (Some "Validation failed")
                     (Some (empty_list_errors (OrderInput.product_ids input)
                            ++ unmatched_errors (OrderInput.product_ids input)
                                 (attached db ns))%list))) /\
    (forall n,
        Py.int (OrderInput.customer_id input) = Some n ->
        (forall c, In c (customers db) -> Customer.id c <> n) ->
        CreateOrder.mutate db now input
        = inr (db, CreateOrder.mk None (Some "Validation failed")
                     (Some [ErrorType.mk "customer_id" "Invalid customer ID"]))).
Proof.
  intros db now input Hwf. split; [|split].
  - intros customer Hc Hcan _ (s & Hin & Hmissing).
    destruct (prep_ids_canonical _ Hcan) as (ns & Hp).
    pose proof (proj1 (prep_ids_inr _ _) Hp) as Hco.
    assert (Hcount : List.length (attached db ns)
                     <> List.length (OrderInput.product_ids input)).
    { rewrite <- (coerced_length _ _ Hco). intros Hlen.
      apply (attached_length db ns (wf_product_ids db Hwf)) in Hlen as [_ Hall].
      destruct (coerced_In _ _ s Hco Hin) as (n & Hn & Hs).
      destruct (Hall n Hn) as (p & Hp' & Hid).
      apply Hmissing. exists n, p. auto. }
    exists (CreateOrder.invalid_ids (OrderInput.product_ids input) (attached db ns)).
    split.
    + rewrite (mutate_with_customer db now input customer ns Hc Hp).
      rewrite empty_list_errors_nil by (intros E; rewrite E in Hin; exact Hin).
      rewrite (unmatched_errors_cons _ _ Hcount). reflexivity.
    + intros t. now apply invalid_ids_canonical.
  - intros customer ns Hc Hp _ Hne.
    rewrite (mutate_with_customer db now input customer ns Hc Hp). cbv zeta.
    destruct (empty_list_errors (OrderInput.product_ids input)
              ++ unmatched_errors (OrderInput.product_ids input) (attached db ns))%list;
      [congruence | reflexivity].
  - intros n Hn Hnone. unfold CreateOrder.mutate.
    now rewrite (customer_get_missing db _ n Hn Hnone).
Qed.

Lemma create_order_itemizes_missing_canonical_ids_witness :
  wf_db seeded /\
  Storage.customer_get seeded "1" = inr alice /\
  Forall (fun s => Py.canonical s = true) ["1"; "2"; "999"] /\
  ids_in_key_range ["1"; "2"; "999"] /\
  (In "999" ["1"; "2"; "999"] /\ ~ product_exists seeded "999") /\
  itemizes_missing_ids seeded 5 (OrderInput.mk "1" ["1"; "2"; "999"] None) /\
  CreateOrder.mutate seeded 5 (OrderInput.mk "1" ["1"; "2"; "999"] None)
  = inr (seeded, CreateOrder.mk None (Some "Validation failed")
                   (Some [ErrorType.mk "product_ids" "Invalid product IDs: 999"])) /\
  CreateOrder.mutate seeded 5 (OrderInput.mk "7" ["1"] None)
  = inr (seeded, CreateOrder.mk None (Some "Validation failed")
                   (Some [ErrorType.mk "customer_id" "Invalid customer ID"])).
Proof.
  assert (Hmissing : ~ product_exists seeded "999").
  { intros (n & p & Hn & Hp & Hid). injection Hn as <-.
    destruct Hp as [<- | [<- | [<- | []]]]; discriminate Hid. }
  assert (Hcan : Forall (fun s => Py.canonical s = true) ["1"; "2"; "999"])
    by (repeat constructor).
  assert (Hrange : ids_in_key_range ["1"; "2"; "999"]).
  { intros s n Hin H. cbn [In] in Hin.
    decompose [or] Hin; try contradiction; subst; vm_compute in H;
      try discriminate H; injection H as <-;
      unfold key_range; change (2 ^ 63) with 9223372036854775808; lia. }
  pose proof (create_order_itemizes_missing_canonical_ids seeded 5
                (OrderInput.mk "1" ["1"; "2"; "999"] None) seeded_wf) as [HA _].
  pose proof (create_order_itemizes_missing_canonical_ids seeded 5
                (OrderInput.mk "7" ["1"] None) seeded_wf) as (_ & _ & HC).
  split; [exact seeded_wf|]. split; [reflexivity|]. split; [exact Hcan|].
  split; [exact Hrange|].
  split; [split; [cbn; auto | exact Hmissing]|].
  split; [apply (HA alice eq_refl Hcan Hrange); exists "999";
          split; [cbn; auto | exact Hmissing]|].
  split; [reflexivity|].
  apply (HC 7 eq_refl). intros c [<- | []]. discriminate.
Defined.

(** **** Claim C5, as stated, fails on an id that is not in canonical
    form: with customer 1 and products 1, 2 and 3 stored, the ids "01"
    and "999" are rejected with a message that lists "01" next to "999",
    although "01" matches product 1. *)
Lemma noncanonical_existing_id_is_itemized :
  Storage.customer_get seeded "1" = inr alice /\
  (In "999" ["01"; "999"] /\ ~ product_exists seeded "999") /\
  product_exists seeded "01" /\
  CreateOrder.mutate seeded 5 (OrderInput.mk "1" ["01"; "999"] None)
  = inr (seeded, CreateOrder.mk None (Some "Validation failed")
                   (Some [ErrorType.mk "product_ids" "Invalid product IDs: 01, 999"])) /\
  ~ itemizes_missing_ids seeded 5 (OrderInput.mk "1" ["01"; "999"] None).
Proof.
  assert (Hmissing : ~ product_exists seeded "999").
  { intros (n & p & Hn & Hp & Hid). injection Hn as <-.
    destruct Hp as [<- | [<- | [<- | []]]]; discriminate Hid. }
  assert (Hexists : product_exists seeded "01").
  { exists 1, laptop. split; [reflexivity|]. split; [now left | reflexivity]. }
  split; [reflexivity|]. split; [split; [cbn; auto | exact Hmissing]|].
  split; [exact Hexists|]. split; [reflexivity|].
  intros (l & E & Hl).
  change (CreateOrder.mutate seeded 5 (OrderInput.mk "1" ["01"; "999"] None))
    with (@inr exn _ (seeded, CreateOrder.mk None (Some "Validation failed")
            (Some [ErrorType.mk "product_ids" "Invalid product IDs: 01, 999"]))) in E.
  injection E as E. unfold Py.join in E.
  destruct l as [|s l]; [discriminate E|].
  assert (Hs : In s ["01"; "999"] /\ ~ product_exists seeded s)
    by (apply Hl; now left).
  destruct Hs as [[<- | [<- | []]] Hno]; [contradiction|].
  destruct l; discriminate E.
Qed.

(** **** Claim C9, as amended.
    For every CreateOrder input referencing an existing customer and a
    non-empty product-id list written in canonical decimal form in which
    every id refers to an existing product but at least one id occurs
    more than once, the mutation returns a validation error on
    [product_ids] whose itemized invalid-id list is empty, and creates no
    order: duplicate references to valid products are rejected rather
    than deduplicated or accepted. *)
Theorem create_order_rejects_duplicate_canonical_ids :
  forall (db : DB) (now : Z) (input : OrderInput.t) (customer : Customer.t),
    wf_db db ->
    Storage.customer_get db (OrderInput.customer_id input) = inr customer ->
    Forall (fun s => Py.canonical s = true) (OrderInput.product_ids input) ->
    (forall s, In s (OrderInput.product_ids input) -> product_exists db s) ->
    ~ NoDup (OrderInput.product_ids input) ->
    rejects_with_empty_itemization db now input /\
    ErrorType.message (CreateOrder.invalid_ids_error []) = "Invalid product IDs: ".
Proof.
  intros db now input customer Hwf Hc Hcan Hall Hdup. split; [|reflexivity].
  destruct (prep_ids_canonical _ Hcan) as (ns & Hp).
  pose proof (proj1 (prep_ids_inr _ _) Hp) as Hco.
  assert (Hcount : List.length (attached db ns)
                   <> List.length (OrderInput.product_ids input)).
  { rewrite <- (coerced_length _ _ Hco). intros Hlen.
    apply (attached_length db ns (wf_product_ids db Hwf)) in Hlen as [Hnd _].
    apply Hdup. exact (coerced_NoDup _ _ Hco Hnd). }
  assert (Hnone : CreateOrder.invalid_ids (OrderInput.product_ids input) (attached db ns) = []).
  { unfold CreateOrder.invalid_ids. apply filter_none. intros s Hs.
    apply nodup_In in Hs. apply negb_false_iff.
    apply (canonical_id_matched db _ ns s Hco Hs).
    - exact (proj1 (Forall_forall _ _) Hcan s Hs).
    - exact (Hall s Hs). }
  unfold rejects_with_empty_itemization.
  rewrite (mutate_with_customer db now input customer ns Hc Hp).
  rewrite empty_list_errors_nil.
  - rewrite (unmatched_errors_cons _ _ Hcount), Hnone. reflexivity.
  - intros E. apply Hdup. rewrite E. constructor.
Qed.

Lemma create_order_rejects_duplicate_canonical_ids_witness :
  wf_db seeded /\
  Storage.customer_get seeded "1" = inr alice /\
  ~ NoDup ["1"; "2"; "1"] /\
  rejects_with_empty_itemization seeded 5 (OrderInput.mk "1" ["1"; "2"; "1"] None).
Proof.
  assert (Hdup : ~ NoDup ["1"; "2"; "1"]).
  { intros H. inversion H as [|? ? Hnotin _]. apply Hnotin. cbn. auto. }
  split; [exact seeded_wf|]. split; [reflexivity|]. split; [exact Hdup|].
  apply (create_order_rejects_duplicate_canonical_ids seeded 5
           (OrderInput.mk "1" ["1"; "2"; "1"] None) alice seeded_wf eq_refl).
  - repeat constructor.
  - intros s [<- | [<- | [<- | []]]].
    + exists 1, laptop. split; [reflexivity|]. split; [cbn; auto | reflexivity].
    + exists 2, mouse. split; [reflexivity|]. split; [cbn; auto | reflexivity].
    + exists 1, laptop. split; [reflexivity|]. split; [cbn; auto | reflexivity].
  - exact Hdup.
Defined.

(** **** Claim C9, as stated, fails on an id that is not in canonical
    form: the list ["01"; "01"] refers twice to product 1, and the
    itemized list of the error holds "01". *)
Lemma duplicate_noncanonical_id_is_itemized :
  Storage.customer_get seeded "1" = inr alice /\
  (forall s, In s ["01"; "01"] -> product_exists seeded s) /\
  ~ NoDup ["01"; "01"] /\
  CreateOrder.mutate seeded 5 (OrderInput.mk "1" ["01"; "01"] None)
  = inr (seeded, CreateOrder.mk None (Some "Validation failed")
                   (Some [ErrorType.mk "product_ids" "Invalid product IDs: 01"])) /\
  ~ rejects_with_empty_itemization seeded 5 (OrderInput.mk "1" ["01"; "01"] None).
Proof.
  split; [reflexivity|]. split; [|split; [|split; [reflexivity|]]].
  - intros s [<- | [<- | []]];
      (exists 1, laptop; split; [reflexivity|]; split; [cbn; auto | reflexivity]).
  - intros H. inversion H as [|? ? Hnotin _]. apply Hnotin. cbn. auto.
  - unfold rejects_with_empty_itemization. intros E.
    change (CreateOrder.mutate seeded 5 (OrderInput.mk "1" ["01"; "01"] None))
      with (@inr exn _ (seeded, CreateOrder.mk None (Some "Validation failed")
              (Some [ErrorType.mk "product_ids" "Invalid product IDs: 01"]))) in E.
    discriminate E.
Qed.

(** An id that is not in canonical form is accepted when it stands
    alone: the lookup matches it, and the counts agree. *)
Example noncanonical_id_alone_is_accepted :
  exists db' o,
    CreateOrder.mutate seeded 5 (OrderInput.mk "1" ["01"] None)
    = inr (db', CreateOrder.mk (Some o)
                  (Some "Order created successfully with total amount $999.99") None) /\
    Storage.order_products_all db' o = [laptop].
Proof. eexists _, _. split; reflexivity. Qed.

(** An id that is not a number leaves the mutation as an exception. *)
Example non_numeric_id_raises :
  CreateOrder.mutate seeded 5 (OrderInput.mk "1" ["1"; "abc"] None)
  = inl (ValueError "Field 'id' expected a number but got 'abc'.").
Proof. reflexivity. Qed.

(* ===================================================================== *)
(** ** The total does not depend on the order of the rows *)
(* ===================================================================== *)

Lemma dec_add_comm (a b : Py.Decimal) : Py.dec_add a b = Py.dec_add b a.
Proof.
  unfold Py.dec_add. rewrite (Z.min_comm (Py.exp b) (Py.exp a)). f_equal. lia.
Qed.

Lemma dec_align_align (d : Py.Decimal) (e1 e2 : Z) :
  e2 <= e1 -> e1 <= Py.exp d ->
  Py.dec_align d e1 * 10 ^ (e1 - e2) = Py.dec_align d e2.
Proof.
  intros H1 H2. unfold Py.dec_align.
  rewrite <- Z.mul_assoc, <- Z.pow_add_r by lia.
  do 2 f_equal. lia.
Qed.

Lemma dec_add_assoc (a b c : Py.Decimal) :
  Py.dec_add (Py.dec_add a b) c = Py.dec_add a (Py.dec_add b c).
Proof.
  unfold Py.dec_add. cbn [Py.exp Py.coeff].
  rewrite Z.min_assoc. f_equal.
  set (m := Z.min (Z.min (Py.exp a) (Py.exp b)) (Py.exp c)).
  set (ab := Z.min (Py.exp a) (Py.exp b)).
  set (bc := Z.min (Py.exp b) (Py.exp c)).
  change (Py.dec_align (Py.mkDecimal (Py.dec_align a ab + Py.dec_align b ab) ab) m)
    with ((Py.dec_align a ab + Py.dec_align b ab) * 10 ^ (ab - m)).
  change (Py.dec_align (Py.mkDecimal (Py.dec_align b bc + Py.dec_align c bc) bc) m)
    with ((Py.dec_align b bc + Py.dec_align c bc) * 10 ^ (bc - m)).
  rewrite !Z.mul_add_distr_r.
  rewrite (dec_align_align a ab m), (dec_align_align b ab m),
    (dec_align_align b bc m), (dec_align_align c bc m) by (subst m ab bc; lia).
  lia.
Qed.

(** [sum] gives the same decimal, digit for digit, whatever the order in
    which the queryset yields the rows. *)
Lemma sum_permutation (xs ys : list Py.Decimal) :
  Permutation xs ys -> Py.sum xs = Py.sum ys.
Proof.
  intros H. unfold Py.sum. generalize Py.dec_zero.
  induction H as [|x xs ys _ IH|x y xs|xs ys zs _ IH1 _ IH2]; intros acc; cbn.
  - reflexivity.
  - apply IH.
  - f_equal. rewrite !dec_add_assoc. f_equal. apply dec_add_comm.
  - now rewrite IH1.
Qed.

(* ===================================================================== *)
(** ** The mutations keep the tables well formed *)
(* ===================================================================== *)

Lemma NoDup_snoc {A : Type} (l : list A) (x : A) :
  NoDup l -> ~ In x l -> NoDup (l ++ [x]).
Proof.
  intros Hl Hx. apply (Permutation_NoDup (Permutation_cons_append l x)).
  now constructor.
Qed.

Lemma empty_db_wf : wf_db empty_db.
Proof. constructor; cbn; try constructor; intros ? []. Qed.

Lemma with_customer_wf (db : DB) (c : Customer.t) :
  wf_db db ->
  Customer.id c = next_customer_id db ->
  ~ email_taken db (Customer.email c) ->
  wf_db (with_customer db c).
Proof.
  intros [H1 H2 H3 H4 H5 H6 H7] Hid Hfree.
  constructor; cbn [with_customer customers products orders next_customer_id
                    next_product_id next_order_id]; try assumption.
  - rewrite map_app. apply NoDup_snoc; [exact H1|]. cbn.
    intros Hin. apply in_map_iff in Hin as (c' & E & Hc').
    apply H5 in Hc'. lia.
  - rewrite map_app. apply NoDup_snoc; [exact H4|]. cbn.
    intros Hin. apply in_map_iff in Hin as (c' & E & Hc').
    apply Hfree. exists c'. auto.
  - intros c' Hc'. apply in_app_or in Hc' as [Hc' | [<- | []]].
    + apply H5 in Hc'. lia.
    + lia.
Qed.

Lemma customer_create_wf (db db' : DB) (now : Z) (name email phone : string)
      (c : Customer.t) :
  wf_db db ->
  Storage.customer_create db now name email phone = inr (db', c) ->
  wf_db db'.
Proof.
  intros Hwf. unfold Storage.customer_create.
  destruct (existsb _ (customers db)) eqn:E; [discriminate|].
  intros [= <- <-].
  apply (with_customer_wf db (Customer.mk (next_customer_id db) name email (Some phone) now));
    [exact Hwf | reflexivity|].
  intros H. apply email_taken_existsb in H. cbn in H. congruence.
Qed.

Lemma create_customer_preserves_wf (db : DB) (now : Z) (input : CustomerInput.t) :
  wf_db db -> wf_db (fst (CreateCustomer.mutate db now input)).
Proof.
  intros Hwf. unfold CreateCustomer.mutate.
  destruct (Py.truthy_list (customer_errors db input)); [exact Hwf|].
  destruct (Storage.customer_create _ _ _ _ _) as [e | [db' c]] eqn:E; [exact Hwf|].
  exact (customer_create_wf _ _ _ _ _ _ _ Hwf E).
Qed.

Lemma bulk_loop_preserves_wf (now : Z) (rows : list CustomerInput.t) :
  forall (index : nat) (db : DB) (cs : list Customer.t)
         (es : list CustomerValidationError.t),
    wf_db db -> wf_db (fst (BulkCreateCustomers.loop now index rows db cs es)).
Proof.
  induction rows as [|row rest IH]; intros index db cs es Hwf; [exact Hwf|].
  cbn [BulkCreateCustomers.loop].
  destruct (Py.truthy_list (customer_errors db row)); [now apply IH|].
  destruct (Storage.customer_create _ _ _ _ _) as [e | [db' c]] eqn:E.
  - destruct e; now apply IH.
  - apply IH. exact (customer_create_wf _ _ _ _ _ _ _ Hwf E).
Qed.

Lemma bulk_create_preserves_wf (db : DB) (now : Z) (input : list CustomerInput.t) :
  wf_db db -> wf_db (fst (BulkCreateCustomers.mutate db now input)).
Proof. apply bulk_loop_preserves_wf. Qed.

Lemma create_product_preserves_wf (db : DB) (now : Z) (input : ProductInput.t) :
  wf_db db -> wf_db (fst (CreateProduct.mutate db now input)).
Proof.
  intros Hwf. unfold CreateProduct.mutate.
  destruct (Py.truthy_list _); [exact Hwf|].
  unfold Storage.product_create.
  destruct (_ <? 0); [exact Hwf|].
  destruct Hwf as [H1 H2 H3 H4 H5 H6 H7].
  constructor; cbn [fst customers products orders next_customer_id
                    next_product_id next_order_id]; try assumption.
  - unfold Py.append. rewrite map_app. apply NoDup_snoc; [exact H2|]. cbn.
    intros Hin. apply in_map_iff in Hin as (p & E & Hp). apply H6 in Hp. lia.
  - intros p Hp. apply in_app_or in Hp as [Hp | [<- | []]].
    + apply H6 in Hp. lia.
    + cbn. lia.
Qed.

Lemma create_order_preserves_wf (db db' : DB) (now : Z) (input : OrderInput.t)
      (out : CreateOrder.t) :
  wf_db db -> CreateOrder.mutate db now input = inr (db', out) -> wf_db db'.
Proof.
  intros Hwf. unfold CreateOrder.mutate.
  destruct (Storage.customer_get db _) as [e | customer].
  { destruct e; intros [= <- _] || discriminate; exact Hwf. }
  unfold bind.
  destruct (Storage.products_with_id_in db _) as [e | ps]; [discriminate|].
  destruct (Py.truthy_list _); [intros [= <- _]; exact Hwf|].
  unfold CreateOrder.create, Storage.order_create, bind.
  destruct (existsb _ (customers db)); [|intros [= <- _]; exact Hwf].
  cbv beta iota zeta. intros [= <- _].
  destruct Hwf as [H1 H2 H3 H4 H5 H6 H7].
  unfold Storage.order_save, Storage.order_products_set, calculate_total_amount, Py.append.
  constructor; cbn [customers products orders order_products next_customer_id
                    next_product_id next_order_id Order.id]; try assumption.
  - rewrite map_map.
    erewrite map_ext; [rewrite map_app; apply NoDup_snoc; [exact H3|]|].
    + cbn. intros Hin. apply in_map_iff in Hin as (o & E & Ho). apply H7 in Ho. lia.
    + intros o. cbn. destruct (Order.id o =? next_order_id db) eqn:E; [|reflexivity].
      apply Z.eqb_eq in E. now rewrite E.
  - intros o Ho. apply in_map_iff in Ho as (o' & E & Ho').
    assert (Hid : Order.id o = Order.id o').
    { destruct (Order.id o' =? next_order_id db) eqn:E'; subst o; [|reflexivity].
      apply Z.eqb_eq in E'. now rewrite E'. }
    rewrite Hid. apply in_app_or in Ho' as [Ho' | [<- | []]].
    + apply H7 in Ho'. lia.
    + cbn. lia.
Qed.

(* ===================================================================== *)
(** ** Further properties of the validators *)
(* ===================================================================== *)

Lemma NoDup_map_inj {A B : Type} (f : A -> B) (l : list A) (a b : A) :
  NoDup (map f l) -> In a l -> In b l -> f a = f b -> a = b.
Proof.
  induction l as [|x l IH]; cbn; [intros _ []|].
  intros Hnd Ha Hb E. inversion Hnd as [|? ? Hnotin Hnd']; subst.
  destruct Ha as [<- | Ha], Hb as [<- | Hb]; auto.
  - exfalso. apply Hnotin. rewrite E. now apply in_map.
  - exfalso. apply Hnotin. rewrite <- E. now apply in_map.
Qed.

Lemma filter_nil_iff {A : Type} (f : A -> bool) (l : list A) :
  filter f l = [] <-> forall a, In a l -> f a = false.
Proof.
  split.
  - intros H a Ha. destruct (f a) eqn:E; [|reflexivity].
    assert (Hin : In a (filter f l)) by (apply filter_In; auto).
    rewrite H in Hin. destruct Hin.
  - apply filter_none.
Qed.

(** **** Extra X1.
    [validate_email_unique] with an id to exclude answers true exactly
    when every customer holding the email has that id; an excluded id of
    0 is falsy and excludes nothing; with unique emails, a stored
    customer's own email is unique once its (non-zero) id is excluded. *)
Theorem validate_email_unique_excluding :
  forall (db : DB) (email : string) (i : Z),
    (i <> 0 ->
     (validate_email_unique db email (Some i) = true <->
      forall c, In c (customers db) -> Customer.email c = email -> Customer.id c = i)) /\
    validate_email_unique db email (Some 0) = validate_email_unique db email None /\
    (forall c,
        wf_db db -> In c (customers db) -> Customer.id c <> 0 ->
        validate_email_unique db (Customer.email c) (Some (Customer.id c)) = true).
Proof.
  intros db email i.
  assert (Hmain : forall e j, j <> 0 ->
            (validate_email_unique db e (Some j) = true <->
             forall c, In c (customers db) -> Customer.email c = e -> Customer.id c = j)).
  { intros e j Hj. unfold validate_email_unique, Storage.customers_with_email, Py.truthy_int.
    apply Z.eqb_neq in Hj. rewrite Hj. cbn [negb].
    rewrite negb_true_iff, truthy_list_nil, filter_nil_iff. split.
    - intros H c Hc He.
      assert (Hin : In c (filter (fun c => String.eqb (Customer.email c) e) (customers db)))
        by (apply filter_In; split; [exact Hc | now apply String.eqb_eq]).
      apply H in Hin. apply negb_false_iff, Z.eqb_eq in Hin. exact Hin.
    - intros H c Hc. apply filter_In in Hc as [Hc He]. apply String.eqb_eq in He.
      apply negb_false_iff, Z.eqb_eq. now apply H. }
  split; [apply Hmain|]. split; [reflexivity|].
  intros c Hwf Hc Hid. apply Hmain; [exact Hid|].
  intros c' Hc' He. f_equal.
  exact (NoDup_map_inj Customer.email _ c' c (wf_emails db Hwf) Hc' Hc He).
Qed.

Lemma validate_email_unique_excluding_witness :
  validate_email_unique seeded "alice@example.com" None = false /\
  validate_email_unique seeded "alice@example.com" (Some 1) = true.
Proof.
  split; [reflexivity|].
  apply (proj2 (proj2 (validate_email_unique_excluding seeded "" 0)) alice).
  - exact seeded_wf.
  - now left.
  - discriminate.
Defined.

(* ===================================================================== *)
(** ** Further properties of customer creation *)
(* ===================================================================== *)

Lemma create_customer_ok_eq (db : DB) (now : Z) (input : CustomerInput.t) :
  row_ok db input ->
  CreateCustomer.mutate db now input
  = (with_customer db (created_customer db now input),
     CreateCustomer.mk (Some (created_customer db now input))
       (Some ("Customer '" ++ CustomerInput.name input ++ "' created successfully"))
       None).
Proof.
  intros Hok. pose proof Hok as [Hfree _].
  unfold CreateCustomer.mutate.
  rewrite (proj2 (customer_errors_nil db input) Hok). cbn [Py.truthy_list].
  rewrite customer_create_ok by exact Hfree. reflexivity.
Qed.

Lemma create_customer_bad_eq (db : DB) (now : Z) (input : CustomerInput.t) :
  ~ row_ok db input ->
  CreateCustomer.mutate db now input
  = (db, CreateCustomer.mk None (Some "Validation failed")
           (Some (customer_errors db input))).
Proof.
  intros Hbad. unfold CreateCustomer.mutate.
  destruct (customer_errors db input) eqn:E; [|reflexivity].
  exfalso. apply Hbad. now apply customer_errors_nil.
Qed.

Lemma email_taken_dec (db : DB) (e : string) : email_taken db e \/ ~ email_taken db e.
Proof.
  destruct (existsb (fun c => String.eqb (Customer.email c) e) (customers db)) eqn:E.
  - left. now apply email_taken_existsb.
  - right. intros H. apply email_taken_existsb in H. congruence.
Qed.

Lemma customer_errors_cases (db : DB) (row : CustomerInput.t) :
  (~ email_taken db (CustomerInput.email row) /\ phone_ok (CustomerInput.phone row) /\
   customer_errors db row = []) \/
  (~ email_taken db (CustomerInput.email row) /\ ~ phone_ok (CustomerInput.phone row) /\
   customer_errors db row = [phone_format_error]) \/
  (email_taken db (CustomerInput.email row) /\ phone_ok (CustomerInput.phone row) /\
   customer_errors db row = [email_exists_error]) \/
  (email_taken db (CustomerInput.email row) /\ ~ phone_ok (CustomerInput.phone row) /\
   customer_errors db row = [email_exists_error; phone_format_error]).
Proof.
  pose proof (validate_email_unique_spec db (CustomerInput.email row)) as He.
  pose proof (phone_check_spec (CustomerInput.phone row)) as Hp.
  unfold customer_errors.
  destruct (validate_email_unique db (CustomerInput.email row) None);
    destruct (Py.truthy_ostr (CustomerInput.phone row)
              && negb (validate_phone (CustomerInput.phone row)));
    cbn [negb Py.append app].
  - right; left. split; [now apply He|]. split; [|reflexivity].
    intros H. apply Hp in H. discriminate H.
  - left. split; [now apply He|]. split; [now apply Hp | reflexivity].
  - right; right; right.
    split; [destruct (email_taken_dec db (CustomerInput.email row)) as [H | H];
            [exact H | apply He in H; discriminate H]|].
    split; [|reflexivity]. intros H. apply Hp in H. discriminate H.
  - right; right; left.
    split; [destruct (email_taken_dec db (CustomerInput.email row)) as [H | H];
            [exact H | apply He in H; discriminate H]|].
    split; [now apply Hp | reflexivity].
Qed.

Lemma customer_errors_members (db : DB) (row : CustomerInput.t) :
  (In email_exists_error (customer_errors db row)
   <-> email_taken db (CustomerInput.email row)) /\
  (In phone_format_error (customer_errors db row)
   <-> ~ phone_ok (CustomerInput.phone row)) /\
  (forall e, In e (customer_errors db row) ->
             e = email_exists_error \/ e = phone_format_error) /\
  (email_taken db (CustomerInput.email row) ->
   ~ phone_ok (CustomerInput.phone row) ->
   customer_errors db row = [email_exists_error; phone_format_error]).
Proof.
  assert (Hnd : email_exists_error <> phone_format_error) by discriminate.
  destruct (customer_errors_cases db row)
    as [(H1 & H2 & ->) | [(H1 & H2 & ->) | [(H1 & H2 & ->) | (H1 & H2 & ->)]]];
    cbn [In]; (split; [|split; [|split]]).
  all: try (intros e He; tauto).
  all: try (intros e [<- | [<- | []]]; auto).
  all: try (intros e [<- | []]; auto).
  all: try tauto.
  all: try (split; [intros [H | H]; [congruence | tauto] | tauto]).
Qed.

(** **** Extra X2.
    CreateCustomer has two outcomes only.  On a valid row it appends one
    customer, with the next id, the given name and email and the phone or
    the empty string, and returns it with the success message.  On any
    other row it changes nothing and returns "Validation failed" with
    the email error exactly when the email is taken and the phone error
    exactly when the phone is malformed, both together when both hold;
    it never answers "Failed to create customer". *)
Theorem create_customer_outcomes :
  forall (db : DB) (now : Z) (input : CustomerInput.t),
    (row_ok db input ->
     CreateCustomer.mutate db now input
     = (with_customer db (created_customer db now input),
        CreateCustomer.mk (Some (created_customer db now input))
          (Some ("Customer '" ++ CustomerInput.name input ++ "' created successfully"))
          None)) /\
    (~ row_ok db input ->
     exists errs,
       CreateCustomer.mutate db now input
       = (db, CreateCustomer.mk None (Some "Validation failed") (Some errs)) /\
       errs <> [] /\
       (In email_exists_error errs <-> email_taken db (CustomerInput.email input)) /\
       (In phone_format_error errs <-> ~ phone_ok (CustomerInput.phone input)) /\
       (forall e, In e errs -> e = email_exists_error \/ e = phone_format_error) /\
       (email_taken db (CustomerInput.email input) ->
        ~ phone_ok (CustomerInput.phone input) ->
        errs = [email_exists_error; phone_format_error])) /\
    CreateCustomer.message (snd (CreateCustomer.mutate db now input))
    <> Some "Failed to create customer".
Proof.
  intros db now input. split; [apply create_customer_ok_eq|]. split.
  - intros Hbad. exists (customer_errors db input).
    split; [now apply create_customer_bad_eq|].
    split; [intros E; apply Hbad; now apply customer_errors_nil|].
    destruct (customer_errors_members db input) as (H1 & H2 & H3 & H4). auto.
  - destruct (row_ok_dec db input) as [Hok | Hbad].
    + rewrite (create_customer_ok_eq db now input Hok). discriminate.
    + rewrite (create_customer_bad_eq db now input Hbad). discriminate.
Qed.

Lemma create_customer_outcomes_witness :
  exists errs,
    CreateCustomer.mutate seeded 7
      (CustomerInput.mk "Alice Again" "alice@example.com" (Some "12a"))
    = (seeded, CreateCustomer.mk None (Some "Validation failed") (Some errs)) /\
    errs = [email_exists_error; phone_format_error].
Proof.
  destruct (proj1 (proj2 (create_customer_outcomes seeded 7
              (CustomerInput.mk "Alice Again" "alice@example.com" (Some "12a")))))
    as (errs & E & _ & _ & _ & _ & Hboth).
  - intros Hok. apply customer_errors_nil in Hok. discriminate Hok.
  - exists errs. split; [exact E|]. apply Hboth.
    + exists alice. split; [now left | reflexivity].
    + intros Hp. apply phone_check_spec in Hp. discriminate Hp.
Defined.

(* ===================================================================== *)
(** ** Further properties of bulk creation *)
(* ===================================================================== *)

Lemma one_by_one_valid (db : DB) (now : Z) (row : CustomerInput.t)
      (rest : list CustomerInput.t) :
  row_ok db row ->
  one_by_one db now (row :: rest)
  = (fst (fst (one_by_one (with_customer db (created_customer db now row)) now rest)),
     created_customer db now row
       :: snd (fst (one_by_one (with_customer db (created_customer db now row)) now rest)),
     snd (one_by_one (with_customer db (created_customer db now row)) now rest)).
Proof.
  intros Hok. cbn [one_by_one]. rewrite (create_customer_ok_eq db now row Hok).
  destruct (one_by_one _ now rest) as [[db2 cs] es]. reflexivity.
Qed.

Lemma one_by_one_invalid (db : DB) (now : Z) (row : CustomerInput.t)
      (rest : list CustomerInput.t) :
  ~ row_ok db row ->
  one_by_one db now (row :: rest)
  = (fst (fst (one_by_one db now rest)),
     snd (fst (one_by_one db now rest)),
     customer_errors db row :: snd (one_by_one db now rest)).
Proof.
  intros Hbad. cbn [one_by_one]. rewrite (create_customer_bad_eq db now row Hbad).
  destruct (one_by_one _ now rest) as [[db2 cs] es]. reflexivity.
Qed.

Lemma bulk_loop_one_by_one (now : Z) (rows : list CustomerInput.t) :
  forall (index : nat) (db : DB) (cs : list Customer.t)
         (es : list CustomerValidationError.t),
    fst (BulkCreateCustomers.loop now index rows db cs es)
    = fst (fst (one_by_one db now rows)) /\
    BulkCreateCustomers.customers (snd (BulkCreateCustomers.loop now index rows db cs es))
    = (cs ++ snd (fst (one_by_one db now rows)))%list /\
    map CustomerValidationError.errors
        (BulkCreateCustomers.errors (snd (BulkCreateCustomers.loop now index rows db cs es)))
    = (map CustomerValidationError.errors es ++ snd (one_by_one db now rows))%list.
Proof.
  induction rows as [|row rest IH]; intros index db cs es.
  - cbn. now rewrite !app_nil_r.
  - destruct (row_ok_dec db row) as [Hok | Hbad].
    + rewrite (bulk_step_valid now index row rest db cs es Hok),
        (one_by_one_valid db now row rest Hok).
      destruct (IH (S index) (with_customer db (created_customer db now row))
                   (cs ++ [created_customer db now row])%list es) as (H1 & H2 & H3).
      rewrite H1, H2, H3, <- app_assoc. auto.
    + destruct (bulk_step_invalid now index row rest db cs es Hbad) as (_ & ->).
      rewrite (one_by_one_invalid db now row rest Hbad).
      destruct (IH (S index) db cs
                   (es ++ [CustomerValidationError.mk index (customer_errors db row)])%list)
        as (H1 & H2 & H3).
      rewrite H1, H2, H3, map_app, <- app_assoc. auto.
Qed.

(** **** Extra X3.
    BulkCreateCustomers is CreateCustomer called once per row, in order:
    it leaves the same state, returns the customers those calls return,
    and reports the error lists those calls report. *)
Theorem bulk_create_is_one_create_per_row :
  forall (db : DB) (now : Z) (input : list CustomerInput.t),
    fst (BulkCreateCustomers.mutate db now input) = fst (fst (one_by_one db now input)) /\
    BulkCreateCustomers.customers (snd (BulkCreateCustomers.mutate db now input))
    = snd (fst (one_by_one db now input)) /\
    map CustomerValidationError.errors
        (BulkCreateCustomers.errors (snd (BulkCreateCustomers.mutate db now input)))
    = snd (one_by_one db now input).
Proof.
  intros db now input. unfold BulkCreateCustomers.mutate.
  destruct (bulk_loop_one_by_one now input 0%nat db [] []) as (H1 & H2 & H3).
  auto.
Qed.

Lemma bulk_run_at (db : DB) (now : Z) (input : list CustomerInput.t)
      (i : nat) (row : CustomerInput.t) :
  nth_error input i = Some row ->
  exists l2 cs1 es1,
    BulkCreateCustomers.mutate db now input
    = BulkCreateCustomers.loop now i (row :: l2)
        (fst (BulkCreateCustomers.mutate db now (firstn i input))) cs1 es1 /\
    BulkCreateCustomers.mutate db now (firstn (S i) input)
    = BulkCreateCustomers.loop now i [row]
        (fst (BulkCreateCustomers.mutate db now (firstn i input))) cs1 es1 /\
    (forall e, In e es1 -> (CustomerValidationError.index e < i)%nat).
Proof.
  intros Hnth.
  destruct (nth_error_prefixes input i row Hnth) as (l2 & Esplit & Esucc & Elen).
  unfold BulkCreateCustomers.mutate. rewrite Esucc.
  set (l1 := firstn i input) in *.
  destruct (bulk_loop_appends now l1 0%nat db [] [])
    as (cs1 & es1 & P1 & P2 & _ & _ & P5).
  cbn [app] in P1, P2.
  exists l2, cs1, es1. split; [|split].
  - rewrite Esplit at 1. rewrite bulk_loop_app, P1, P2, Elen. reflexivity.
  - rewrite bulk_loop_app, P1, P2, Elen. reflexivity.
  - intros e He. apply P5 in He. lia.
Qed.

Lemma bulk_error_entry (db : DB) (now : Z) (input : list CustomerInput.t)
      (i : nat) (row : CustomerInput.t) :
  nth_error input i = Some row ->
  ~ row_ok (fst (BulkCreateCustomers.mutate db now (firstn i input))) row ->
  In (CustomerValidationError.mk i
        (customer_errors (fst (BulkCreateCustomers.mutate db now (firstn i input))) row))
     (BulkCreateCustomers.errors (snd (BulkCreateCustomers.mutate db now input))).
Proof.
  intros Hnth Hbad.
  destruct (bulk_run_at db now input i row Hnth) as (l2 & cs1 & es1 & -> & _ & _).
  set (db1 := fst (BulkCreateCustomers.mutate db now (firstn i input))) in *.
  destruct (bulk_step_invalid now i row l2 db1 cs1 es1 Hbad) as (_ & ->).
  destruct (bulk_loop_appends now l2 (S i) db1 cs1
              (es1 ++ [CustomerValidationError.mk i (customer_errors db1 row)])%list)
    as (cs2 & es2 & _ & Q2 & _).
  rewrite Q2. apply in_or_app; left. apply in_or_app; right. now left.
Qed.

Lemma bulk_after_valid (db : DB) (now : Z) (input : list CustomerInput.t)
      (i : nat) (row : CustomerInput.t) :
  nth_error input i = Some row ->
  row_ok (fst (BulkCreateCustomers.mutate db now (firstn i input))) row ->
  fst (BulkCreateCustomers.mutate db now (firstn (S i) input))
  = with_customer (fst (BulkCreateCustomers.mutate db now (firstn i input)))
      (created_customer (fst (BulkCreateCustomers.mutate db now (firstn i input))) now row).
Proof.
  intros Hnth Hok.
  destruct (bulk_run_at db now input i row Hnth) as (l2 & cs1 & es1 & _ & -> & _).
  now rewrite (bulk_step_valid now i row [] _ cs1 es1 Hok).
Qed.

(** The table of customers only grows along a batch. *)
Lemma bulk_prefix_grows (db : DB) (now : Z) (input : list CustomerInput.t) (i j : nat) :
  (i <= j)%nat ->
  incl (customers (fst (BulkCreateCustomers.mutate db now (firstn i input))))
       (customers (fst (BulkCreateCustomers.mutate db now (firstn j input)))).
Proof.
  intros Hle.
  assert (E : firstn j input = (firstn i input ++ skipn i (firstn j input))%list).
  { rewrite <- (firstn_skipn i (firstn j input)) at 1.
    rewrite firstn_firstn. now rewrite Nat.min_l by exact Hle. }
  rewrite E. unfold BulkCreateCustomers.mutate. rewrite bulk_loop_app.
  match goal with
  | |- incl _ (customers (fst (BulkCreateCustomers.loop now ?k ?l ?d ?cs ?es))) =>
      destruct (bulk_loop_appends now l k d cs es) as (cs' & es' & _ & _ & H3 & _)
  end.
  rewrite H3. intros c Hc. apply in_or_app. now left.
Qed.

(** **** Extra X4.
    Inside one batch the first row with an email wins: when a row is valid
    at its turn, every later row of the batch with the same email is
    reported, at its own index, with the error "Email already exists". *)
Theorem bulk_later_row_with_same_email_is_reported :
  forall (db : DB) (now : Z) (input : list CustomerInput.t)
         (i j : nat) (first later : CustomerInput.t),
    (i < j)%nat ->
    nth_error input i = Some first ->
    nth_error input j = Some later ->
    CustomerInput.email later = CustomerInput.email first ->
    row_ok (fst (BulkCreateCustomers.mutate db now (firstn i input))) first ->
    exists errs,
      In email_exists_error errs /\
      In (CustomerValidationError.mk j errs)
         (BulkCreateCustomers.errors (snd (BulkCreateCustomers.mutate db now input))).
Proof.
  intros db now input i j first later Hij Hi Hj Hsame Hok.
  set (before_j := fst (BulkCreateCustomers.mutate db now (firstn j input))).
  assert (Htaken : email_taken before_j (CustomerInput.email later)).
  { exists (created_customer
              (fst (BulkCreateCustomers.mutate db now (firstn i input))) now first).
    split; [|now rewrite Hsame].
    apply (bulk_prefix_grows db now input (S i) j); [lia|].
    rewrite (bulk_after_valid db now input i first Hi Hok).
    cbn [with_customer customers]. apply in_or_app. right. now left. }
  exists (customer_errors before_j later).
  split; [now apply customer_errors_email|].
  apply bulk_error_entry; [exact Hj|].
  intros [Hfree _]. contradiction.
Qed.

Lemma bulk_later_row_with_same_email_is_reported_witness :
  exists errs,
    In email_exists_error errs /\
    In (CustomerValidationError.mk 2 errs)
       (BulkCreateCustomers.errors
          (snd (BulkCreateCustomers.mutate seeded 9
                  [ CustomerInput.mk "Bob Smith" "bob@example.com" None;
                    CustomerInput.mk "Carol Davis" "carol@example.com" None;
                    CustomerInput.mk "Robert" "bob@example.com" None ]))).
Proof.
  apply (bulk_later_row_with_same_email_is_reported seeded 9 _ 0%nat 2%nat
           (CustomerInput.mk "Bob Smith" "bob@example.com" None)
           (CustomerInput.mk "Robert" "bob@example.com" None)).
  - lia.
  - reflexivity.
  - reflexivity.
  - reflexivity.
  - apply customer_errors_nil. reflexivity.
Defined.

Lemma StronglySorted_snoc (l : list nat) (n : nat) :
  StronglySorted lt l -> (forall m, In m l -> (m < n)%nat) -> StronglySorted lt (l ++ [n]).
Proof.
  induction 1 as [|a l Hl IH Ha]; intros Hlt; cbn.
  - repeat constructor.
  - constructor.
    + apply IH. intros m Hm. apply Hlt. now right.
    + apply Forall_app. split; [exact Ha|]. constructor; [|constructor].
      apply Hlt. now left.
Qed.

Lemma customer_errors_fields (db : DB) (row : CustomerInput.t) (e : ErrorType.t) :
  In e (customer_errors db row) -> e = email_exists_error \/ e = phone_format_error.
Proof. apply customer_errors_members. Qed.

Lemma bulk_loop_sorted (now : Z) (rows : list CustomerInput.t) :
  forall (index : nat) (db : DB) (cs : list Customer.t)
         (es : list CustomerValidationError.t),
    StronglySorted lt (map CustomerValidationError.index es) ->
    (forall e, In e es -> (CustomerValidationError.index e < index)%nat) ->
    StronglySorted lt
      (map CustomerValidationError.index
           (BulkCreateCustomers.errors
              (snd (BulkCreateCustomers.loop now index rows db cs es)))).
Proof.
  induction rows as [|row rest IH]; intros index db cs es Hs Hlt; [exact Hs|].
  destruct (row_ok_dec db row) as [Hok | Hbad].
  - rewrite (bulk_step_valid now index row rest db cs es Hok).
    apply IH; [exact Hs|]. intros e He. apply Hlt in He. lia.
  - destruct (bulk_step_invalid now index row rest db cs es Hbad) as (_ & ->).
    apply IH.
    + rewrite map_app. apply StronglySorted_snoc; [exact Hs|].
      intros m Hm. apply in_map_iff in Hm as (e & <- & He). now apply Hlt.
    + intros e He. apply in_app_or in He as [He | [<- | []]].
      * apply Hlt in He. lia.
      * cbn. lia.
Qed.

Lemma bulk_loop_reports (now : Z) (rows : list CustomerInput.t) :
  forall (index : nat) (db : DB) (cs : list Customer.t)
         (es : list CustomerValidationError.t) (e : CustomerValidationError.t),
    In e (BulkCreateCustomers.errors
            (snd (BulkCreateCustomers.loop now index rows db cs es))) ->
    In e es \/
    ((index <= CustomerValidationError.index e < index + List.length rows)%nat /\
     CustomerValidationError.errors e <> [] /\
     forall fe, In fe (CustomerValidationError.errors e) ->
                fe = email_exists_error \/ fe = phone_format_error).
Proof.
  induction rows as [|row rest IH]; intros index db cs es e He; [now left|].
  destruct (row_ok_dec db row) as [Hok | Hbad].
  - rewrite (bulk_step_valid now index row rest db cs es Hok) in He.
    apply IH in He as [He | (Hi & Hne & Hf)]; [now left | right].
    split; [cbn [List.length]; lia | auto].
  - destruct (bulk_step_invalid now index row rest db cs es Hbad) as (Hne & E).
    rewrite E in He.
    apply IH in He as [He | (Hi & Hne' & Hf)].
    + apply in_app_or in He as [He | [<- | []]]; [now left | right].
      cbn [CustomerValidationError.index CustomerValidationError.errors List.length].
      split; [lia|]. split; [exact Hne|]. apply customer_errors_fields.
    + right. split; [cbn [List.length]; lia | auto].
Qed.

(** **** Extra X5.
    The errors BulkCreateCustomers reports are listed by strictly
    increasing row index, every index is the index of a row of the batch,
    and every reported entry is a non-empty list of the two validation
    errors (email taken, phone malformed): the catch-all "general" error
    is never reported. *)
Theorem bulk_errors_are_ordered_validation_errors :
  forall (db : DB) (now : Z) (input : list CustomerInput.t),
    StronglySorted lt
      (map CustomerValidationError.index
           (BulkCreateCustomers.errors (snd (BulkCreateCustomers.mutate db now input)))) /\
    forall e,
      In e (BulkCreateCustomers.errors (snd (BulkCreateCustomers.mutate db now input))) ->
      (CustomerValidationError.index e < List.length input)%nat /\
      CustomerValidationError.errors e <> [] /\
      forall fe, In fe (CustomerValidationError.errors e) ->
                 fe = email_exists_error \/ fe = phone_format_error.
Proof.
  intros db now input. unfold BulkCreateCustomers.mutate. split.
  - apply bulk_loop_sorted; [constructor | intros e []].
  - intros e He. apply bulk_loop_reports in He as [[] | (Hi & Hne & Hf)].
    split; [lia | auto].
Qed.

(* ===================================================================== *)
(** ** Further properties of product creation *)
(* ===================================================================== *)

Lemma stock_or_0_value (stock : option Z) :
  CreateProduct.stock_or_0 stock = match stock with Some n => n | None => 0 end.
Proof.
  unfold CreateProduct.stock_or_0, Py.truthy_int.
  destruct stock as [n|]; [|reflexivity].
  destruct (Z.eqb_spec n 0); cbn; congruence.
Qed.

Lemma stock_negative_spec (stock : option Z) :
  stock_negative stock <->
  match stock with Some n => (n <? 0) = true | None => False end.
Proof.
  unfold stock_negative. destruct stock as [n|].
  - rewrite Z.ltb_lt. split; [intros (m & [= <-] & H); exact H | eauto].
  - split; [intros (m & [=] & _) | intros []].
Qed.

Lemma create_product_cases (db : DB) (now : Z) (input : ProductInput.t) :
  ((0 < Py.dec_to_Q (ProductInput.price input))%Q /\
   ~ stock_negative (ProductInput.stock input) /\
   CreateProduct.mutate db now input
   = (with_product db (created_product db now input),
      CreateProduct.mk (Some (created_product db now input))
        (Some ("Product '" ++ ProductInput.name input ++ "' created successfully"))
        None)) \/
  (exists errs,
      CreateProduct.mutate db now input
      = (db, CreateProduct.mk None (Some "Validation failed") (Some errs)) /\
      (((Py.dec_to_Q (ProductInput.price input) <= 0)%Q /\
        ~ stock_negative (ProductInput.stock input) /\
        errs = [CreateProduct.price_error]) \/
       ((0 < Py.dec_to_Q (ProductInput.price input))%Q /\
        stock_negative (ProductInput.stock input) /\
        errs = [CreateProduct.stock_error]) \/
       ((Py.dec_to_Q (ProductInput.price input) <= 0)%Q /\
        stock_negative (ProductInput.stock input) /\
        errs = [CreateProduct.price_error; CreateProduct.stock_error]))).
Proof.
  pose proof (price_check_spec (ProductInput.price input)) as Hp.
  pose proof (stock_negative_spec (ProductInput.stock input)) as Hs.
  pose proof (stock_or_0_value (ProductInput.stock input)) as Hv.
  unfold CreateProduct.mutate, created_product, with_product, Storage.product_create.
  rewrite Hv.
  destruct (Py.dec_leb (ProductInput.price input) Py.dec_zero) eqn:Ep.
  - assert (Hle : (Py.dec_to_Q (ProductInput.price input) <= 0)%Q) by now apply Hp.
    right. destruct (ProductInput.stock input) as [n|]; [destruct (n <? 0) eqn:En|].
    + eexists. split; [reflexivity|]. right; right.
      split; [exact Hle|]. split; [apply Hs; reflexivity | reflexivity].
    + eexists. split; [reflexivity|]. left.
      split; [exact Hle|]. split; [rewrite Hs; discriminate | reflexivity].
    + eexists. split; [reflexivity|]. left.
      split; [exact Hle|]. split; [rewrite Hs; tauto | reflexivity].
  - assert (Hpos : (0 < Py.dec_to_Q (ProductInput.price input))%Q).
    { apply Qnot_le_lt. intros H. apply Hp in H. discriminate H. }
    destruct (ProductInput.stock input) as [n|]; [destruct (n <? 0) eqn:En|].
    + right. eexists. split; [reflexivity|]. right; left.
      split; [exact Hpos|]. split; [apply Hs; reflexivity | reflexivity].
    + left. split; [exact Hpos|]. split; [rewrite Hs; discriminate|].
      reflexivity.
    + left. split; [exact Hpos|]. split; [rewrite Hs; tauto | reflexivity].
Qed.

(** **** Extra X6.
    For a price the price column gives back as written (a finite decimal
    with two places and at most ten digits), CreateProduct has two
    outcomes only.  With a positive price and a stock that is absent or
    not negative it appends one product, with the next id, the given name
    and price and the stock given (0 when absent), and returns it.
    Otherwise it changes nothing and returns "Validation failed" with
    the price error exactly when the price is not positive and the stock
    error exactly when the stock is negative, both together, price first,
    when both hold; it never answers "Failed to create product". *)
Theorem create_product_outcomes :
  forall (db : DB) (now : Z) (input : ProductInput.t),
    stored_as_given (ProductInput.price input) ->
    ((0 < Py.dec_to_Q (ProductInput.price input))%Q ->
     ~ stock_negative (ProductInput.stock input) ->
     CreateProduct.mutate db now input
     = (with_product db (created_product db now input),
        CreateProduct.mk (Some (created_product db now input))
          (Some ("Product '" ++ ProductInput.name input ++ "' created successfully"))
          None)) /\
    ((Py.dec_to_Q (ProductInput.price input) <= 0)%Q \/
     stock_negative (ProductInput.stock input) ->
     exists errs,
       CreateProduct.mutate db now input
       = (db, CreateProduct.mk None (Some "Validation failed") (Some errs)) /\
       (In CreateProduct.price_error errs
        <-> (Py.dec_to_Q (ProductInput.price input) <= 0)%Q) /\
       (In CreateProduct.stock_error errs <-> stock_negative (ProductInput.stock input)) /\
       (forall e, In e errs ->
                  e = CreateProduct.price_error \/ e = CreateProduct.stock_error) /\
       ((Py.dec_to_Q (ProductInput.price input) <= 0)%Q ->
        stock_negative (ProductInput.stock input) ->
        errs = [CreateProduct.price_error; CreateProduct.stock_error])) /\
    CreateProduct.message (snd (CreateProduct.mutate db now input))
    <> Some "Failed to create product".
Proof.
  intros db now input _.
  assert (Hnd : CreateProduct.price_error <> CreateProduct.stock_error) by discriminate.
  destruct (create_product_cases db now input)
    as [(Hpos & Hs & E) | (errs & E & Hcases)].
  - split; [intros _ _; exact E|]. split.
    + intros [Hle | Hneg]; [exfalso; exact (Qlt_not_le _ _ Hpos Hle) | contradiction].
    + rewrite E. discriminate.
  - split; [|split].
    + intros Hpos Hs.
      destruct Hcases as [(Hle & _) | [(_ & Hneg & _) | (Hle & _)]];
        try contradiction; exfalso; exact (Qlt_not_le _ _ Hpos Hle).
    + intros _. exists errs. split; [exact E|].
      destruct Hcases as [(Hle & Hs & ->) | [(Hpos & Hneg & ->) | (Hle & Hneg & ->)]];
        cbn [In].
      * split; [tauto|]. split; [split; [intros [H | []]; congruence | tauto]|].
        split; [intros e [<- | []]; auto | tauto].
      * pose proof (Qlt_not_le _ _ Hpos) as Hnle.
        split; [split; [intros [H | []]; congruence | tauto]|].
        split; [tauto|]. split; [intros e [<- | []]; auto | tauto].
      * split; [tauto|]. split; [tauto|].
        split; [intros e [<- | [<- | []]]; auto | reflexivity].
    + rewrite E. discriminate.
Qed.

Lemma create_product_outcomes_witness :
  stored_as_given (Py.mkDecimal (-100) (-2)) /\
  exists errs,
    CreateProduct.mutate seeded 3
      (ProductInput.mk "Broken" (Py.mkDecimal (-100) (-2)) (Some (-5)))
    = (seeded, CreateProduct.mk None (Some "Validation failed") (Some errs)) /\
    errs = [CreateProduct.price_error; CreateProduct.stock_error].
Proof.
  assert (Hst : stored_as_given (Py.mkDecimal (-100) (-2)))
    by (split; reflexivity).
  split; [exact Hst|].
  assert (Hle : (Py.dec_to_Q (Py.mkDecimal (-100) (-2)) <= 0)%Q)
    by (vm_compute; discriminate).
  assert (Hneg : stock_negative (Some (-5))) by (exists (-5); split; [reflexivity | lia]).
  destruct (proj1 (proj2 (create_product_outcomes seeded 3
              (ProductInput.mk "Broken" (Py.mkDecimal (-100) (-2)) (Some (-5))) Hst))
              (or_introl Hle))
    as (errs & E & _ & _ & _ & Hboth).
  exists errs. split; [exact E | exact (Hboth Hle Hneg)].
Defined.

(* ===================================================================== *)
(** ** Further properties of order creation *)
(* ===================================================================== *)

Lemma links_select (db : DB) (ps : list Product.t) (oid : Z) (old : list (Z * Z)) :
  filter (fun p =>
            existsb (fun l => (fst l =? oid) && (snd l =? Product.id p))
                    (filter (fun l => negb (fst l =? oid)) old
                     ++ map (fun q => (oid, Product.id q)) ps)%list)
         (products db)
  = attached db (map Product.id ps).
Proof.
  unfold attached. apply filter_ext_in. intros p Hp.
  rewrite existsb_app. apply eq_iff_eq_true.
  rewrite orb_true_iff, !existsb_exists, mem_id_In. split.
  - intros [(l & Hl & E) | (l & Hl & E)].
    + apply filter_In in Hl as [_ Hl]. apply andb_true_iff in E as [E _].
      rewrite E in Hl. discriminate.
    + apply in_map_iff in Hl as (q & <- & Hq). cbn in E.
      apply andb_true_iff in E as [_ E]. apply Z.eqb_eq in E.
      rewrite <- E. now apply in_map.
  - intros Hn. right. exists (oid, Product.id p). split.
    + apply in_map_iff in Hn as (q & E & Hq). apply in_map_iff. exists q.
      split; [now rewrite E | exact Hq].
    + cbn. now rewrite !Z.eqb_refl.
Qed.

Lemma attached_idempotent (db : DB) (ns : list Z) :
  attached db (map Product.id (attached db ns)) = attached db ns.
Proof.
  unfold attached at 1 3. apply filter_ext_in. intros p Hp.
  apply eq_iff_eq_true. rewrite !mem_id_In. split.
  - intros H. apply in_map_iff in H as (q & E & Hq).
    apply In_attached in Hq as [_ Hq]. now rewrite <- E.
  - intros H. apply in_map. apply In_attached. auto.
Qed.

Lemma save_fresh_order (rows : list Order.t) (o0 o : Order.t) (n : Z) :
  Order.id o0 = n ->
  (forall r, In r rows -> Order.id r < n) ->
  map (fun r => if Order.id r =? n then o else r) (rows ++ [o0])%list
  = (rows ++ [o])%list.
Proof.
  intros Hid Hlt. rewrite map_app. cbn. rewrite Hid, Z.eqb_refl. f_equal.
  rewrite <- (map_id rows) at 2. apply map_ext_in. intros r Hr.
  apply Hlt in Hr. destruct (Z.eqb_spec (Order.id r) n); [lia | reflexivity].
Qed.

(** The transaction, on any list of products: it appends the order,
    links it to the products, and stores the total of the stored
    products with those ids. *)
Lemma create_explicit (db : DB) (now : Z) (customer : Customer.t)
      (order_date : option Z) (ps : list Product.t) :
  In customer (customers db) ->
  (forall r, In r (orders db) -> Order.id r < next_order_id db) ->
  CreateOrder.create db now customer order_date ps
  = inr (with_order db
           (placed_order db now customer order_date (attached db (map Product.id ps))) ps,
         placed_order db now customer order_date (attached db (map Product.id ps))).
Proof.
  intros Hin Hlt.
  unfold CreateOrder.create, Storage.order_create, bind.
  rewrite (stored_customer_passes_fk db customer Hin).
  cbv beta iota zeta.
  unfold calculate_total_amount, Storage.order_products_all, Storage.order_products_set,
    Storage.order_save, Py.append, with_order, placed_order.
  cbn [customers products orders order_products next_customer_id next_product_id
       next_order_id Order.id Order.customer Order.total_amount Order.order_date
       Order.created_at].
  rewrite links_select.
  rewrite (save_fresh_order (orders db) _ _ (next_order_id db)) by (cbn [Order.id]; auto).
  reflexivity.
Qed.

(** The outcome of the mutation when validation passes. *)
Lemma create_order_ok_eq (db : DB) (now : Z) (input : OrderInput.t)
      (customer : Customer.t) (ns : list Z) :
  wf_db db ->
  Storage.customer_get db (OrderInput.customer_id input) = inr customer ->
  coerced (OrderInput.product_ids input) ns ->
  OrderInput.product_ids input <> [] ->
  NoDup ns ->
  (forall n, In n ns -> exists p, In p (products db) /\ Product.id p = n) ->
  CreateOrder.mutate db now input
  = inr (with_order db
           (placed_order db now customer (OrderInput.order_date input) (attached db ns))
           (attached db ns),
         CreateOrder.mk
           (Some (placed_order db now customer (OrderInput.order_date input)
                    (attached db ns)))
           (Some ("Order created successfully with total amount $"
                  ++ Py.dec_str (Py.sum (map Product.price (attached db ns)))))
           None).
Proof.
  intros Hwf Hc Hco Hne Hnd Hall.
  pose proof (proj2 (prep_ids_inr _ _) Hco) as Hp.
  rewrite (mutate_with_customer db now input customer ns Hc Hp).
  rewrite (empty_list_errors_nil _ Hne).
  assert (Hlen : List.length (attached db ns)
                 = List.length (OrderInput.product_ids input)).
  { rewrite <- (coerced_length _ _ Hco).
    apply (attached_length db ns (wf_product_ids db Hwf)). auto. }
  rewrite (proj2 (unmatched_errors_nil _ _) Hlen). cbn [app Py.truthy_list].
  destruct (customer_get_inr db _ customer Hc) as [Hin _].
  rewrite (create_explicit db now customer _ _ Hin (wf_next_order db Hwf)).
  rewrite attached_idempotent. reflexivity.
Qed.

Lemma attached_nil (db : DB) : attached db [] = [].
Proof. unfold attached. apply filter_none. intros p _. reflexivity. Qed.

Lemma create_never_fails (db : DB) (now : Z) (customer : Customer.t)
      (order_date : option Z) (ps : list Product.t) :
  In customer (customers db) ->
  exists db' o, CreateOrder.create db now customer order_date ps = inr (db', o).
Proof.
  intros Hin. unfold CreateOrder.create, Storage.order_create, bind.
  rewrite (stored_customer_passes_fk db customer Hin).
  unfold calculate_total_amount. cbv beta iota zeta. eauto.
Qed.

(** The three ways validation fails once the request is well formed. *)
Lemma create_order_cases (db : DB) (now : Z) (input : OrderInput.t)
      (customer : Customer.t) (ns : list Z) :
  Storage.customer_get db (OrderInput.customer_id input) = inr customer ->
  Storage.prep_ids (OrderInput.product_ids input) = inr ns ->
  (OrderInput.product_ids input = [] /\
   CreateOrder.mutate db now input
   = inr (db, CreateOrder.mk None (Some "Validation failed")
                (Some [CreateOrder.no_product_error]))) \/
  (OrderInput.product_ids input <> [] /\
   List.length (attached db ns) <> List.length (OrderInput.product_ids input) /\
   CreateOrder.mutate db now input
   = inr (db, CreateOrder.mk None (Some "Validation failed")
                (Some [CreateOrder.invalid_ids_error
                         (CreateOrder.invalid_ids (OrderInput.product_ids input)
                            (attached db ns))]))) \/
  (OrderInput.product_ids input <> [] /\
   List.length (attached db ns) = List.length (OrderInput.product_ids input) /\
   exists db' o,
     CreateOrder.mutate db now input
     = inr (db', CreateOrder.mk (Some o)
                   (Some ("Order created successfully with total amount $"
                          ++ Py.dec_str (Order.total_amount o)))
                   None)).
Proof.
  intros Hc Hp.
  rewrite (mutate_with_customer db now input customer ns Hc Hp).
  destruct (OrderInput.product_ids input) as [|s ids] eqn:Eids.
  - left. split; [reflexivity|].
    cbn in Hp. injection Hp as <-. rewrite attached_nil. reflexivity.
  - right. rewrite empty_list_errors_nil by discriminate. cbn [app].
    destruct (Nat.eq_dec (List.length (attached db ns)) (List.length (s :: ids)))
      as [Hlen | Hlen].
    + right. split; [discriminate|]. split; [exact Hlen|].
      rewrite (proj2 (unmatched_errors_nil _ _) Hlen). cbn [Py.truthy_list].
      destruct (customer_get_inr db _ customer Hc) as [Hin _].
      destruct (create_never_fails db now customer (OrderInput.order_date input)
                  (attached db ns) Hin) as (db' & o & ->).
      eauto.
    + left. split; [discriminate|]. split; [exact Hlen|].
      now rewrite (unmatched_errors_cons _ _ Hlen).
Qed.

Lemma customer_get_cases (db : DB) (s : string) :
  (Py.int s = None /\
   Storage.customer_get db s
   = inl (ValueError ("Field 'id' expected a number but got '" ++ s ++ "'."))) \/
  (exists n, Py.int s = Some n /\
             (forall c, In c (customers db) -> Customer.id c <> n) /\
             Storage.customer_get db s
             = inl (DoesNotExist "Customer matching query does not exist.")) \/
  (exists c, In c (customers db) /\ Py.int s = Some (Customer.id c) /\
             Storage.customer_get db s = inr c).
Proof.
  unfold Storage.customer_get, Storage.prep_id, bind.
  destruct (Py.int s) as [n|]; [|left; auto]. right.
  destruct (find _ (customers db)) as [c|] eqn:E.
  - right. apply find_some in E as [Hin Hid]. apply Z.eqb_eq in Hid.
    exists c. rewrite Hid. auto.
  - left. exists n. split; [reflexivity|]. split; [|reflexivity].
    intros c Hc Hid. pose proof (find_none _ _ E c Hc) as H. cbn in H.
    apply Z.eqb_neq in H. contradiction.
Qed.

Lemma prep_ids_cases (ids : list string) :
  (exists ns, Storage.prep_ids ids = inr ns) \/
  (exists s, In s ids /\ Py.int s = None /\
             Storage.prep_ids ids
             = inl (ValueError ("Field 'id' expected a number but got '" ++ s ++ "'."))).
Proof.
  induction ids as [|s ids IH]; cbn; [left; eauto|].
  unfold Storage.prep_id, bind.
  destruct (Py.int s) as [n|] eqn:E.
  - destruct IH as [(ns & ->) | (t & Ht & Hn & ->)].
    + left. eauto.
    + right. exists t. auto.
  - right. exists s. auto.
Qed.


(** **** Extra X8.
    With unique primary keys, CreateOrder returns an order exactly when
    the customer id is the key of a stored customer, the product-id list
    is not empty, and its ids are numbers that are pairwise distinct keys
    of stored products.  It then appends one order, with the next id, the
    customer's key, the given date (the current time when absent) and the
    sum of the prices of those products, links it to them, and touches
    nothing else. *)
Theorem create_order_succeeds_iff :
  forall (db : DB) (now : Z) (input : OrderInput.t),
    wf_db db ->
    (forall db' out o,
        CreateOrder.mutate db now input = inr (db', out) ->
        CreateOrder.order out = Some o ->
        exists customer ns,
          Storage.customer_get db (OrderInput.customer_id input) = inr customer /\
          coerced (OrderInput.product_ids input) ns /\
          OrderInput.product_ids input <> [] /\
          NoDup ns /\
          (forall n, In n ns -> exists p, In p (products db) /\ Product.id p = n) /\
          o = placed_order db now customer (OrderInput.order_date input) (attached db ns) /\
          db' = with_order db o (attached db ns) /\
          CreateOrder.errors out = None) /\
    (forall customer ns,
        Storage.customer_get db (OrderInput.customer_id input) = inr customer ->
        coerced (OrderInput.product_ids input) ns ->
        OrderInput.product_ids input <> [] ->
        NoDup ns ->
        (forall n, In n ns -> exists p, In p (products db) /\ Product.id p = n) ->
        CreateOrder.mutate db now input
        = inr (with_order db
                 (placed_order db now customer (OrderInput.order_date input)
                    (attached db ns))
                 (attached db ns),
               CreateOrder.mk
                 (Some (placed_order db now customer (OrderInput.order_date input)
                          (attached db ns)))
                 (Some ("Order created successfully with total amount $"
                        ++ Py.dec_str (Py.sum (map Product.price (attached db ns)))))
                 None)).
Proof.
  intros db now input Hwf. split; [|intros; now apply create_order_ok_eq].
  intros db' out o Hrun Ho.
  destruct (customer_get_cases db (OrderInput.customer_id input))
    as [(_ & Ec) | [(n & _ & _ & Ec) | (customer & _ & _ & Ec)]].
  { unfold CreateOrder.mutate in Hrun. rewrite Ec in Hrun. discriminate Hrun. }
  { unfold CreateOrder.mutate in Hrun. rewrite Ec in Hrun.
    injection Hrun as <- <-. discriminate Ho. }
  destruct (prep_ids_cases (OrderInput.product_ids input))
    as [(ns & Ep) | (s & _ & _ & Ep)].
  2:{ unfold CreateOrder.mutate, Storage.products_with_id_in, bind in Hrun.
      rewrite Ec, Ep in Hrun. discriminate Hrun. }
  destruct (create_order_cases db now input customer ns Ec Ep)
    as [(_ & E) | [(_ & _ & E) | (Hne & Hlen & _)]].
  { rewrite E in Hrun. injection Hrun as <- <-. discriminate Ho. }
  { rewrite E in Hrun. injection Hrun as <- <-. discriminate Ho. }
  pose proof (proj1 (prep_ids_inr _ _) Ep) as Hco.
  rewrite <- (coerced_length _ _ Hco) in Hlen.
  apply (attached_length db ns (wf_product_ids db Hwf)) in Hlen as [Hnd Hall].
  rewrite (create_order_ok_eq db now input customer ns Hwf Ec Hco Hne Hnd Hall) in Hrun.
  injection Hrun as <- <-. cbn in Ho. injection Ho as <-.
  exists customer, ns. repeat (split; [assumption || reflexivity|]). reflexivity.
Qed.

Lemma create_order_succeeds_iff_witness :
  wf_db seeded /\
  CreateOrder.mutate seeded 5 (OrderInput.mk "1" ["3"; "1"] (Some 2))
  = inr (with_order seeded (Order.mk 1 1 (Py.mkDecimal 119998 (-2)) 2 5)
                    [laptop; desk_chair],
         CreateOrder.mk (Some (Order.mk 1 1 (Py.mkDecimal 119998 (-2)) 2 5))
           (Some "Order created successfully with total amount $1199.98") None).
Proof.
  split; [exact seeded_wf|].
  rewrite (proj2 (create_order_succeeds_iff seeded 5
                    (OrderInput.mk "1" ["3"; "1"] (Some 2)) seeded_wf) alice [3; 1]).
  - reflexivity.
  - reflexivity.
  - repeat constructor.
  - discriminate.
  - repeat constructor; cbn; intuition discriminate.
  - intros n [<- | [<- | []]]; [exists desk_chair | exists laptop]; cbn; auto.
Defined.




(** **** Extra X10.
    Whenever CreateOrder returns without an order, the state is unchanged,
    the message is "Validation failed" (never "Failed to create order")
    and the error list holds exactly one error: the customer-id error
    when the customer is not found, else the empty-list error when the
    product-id list is empty, else the invalid-ids error.  The two
    product-id errors never come together. *)
Theorem create_order_failure_has_one_error :
  forall (db : DB) (now : Z) (input : OrderInput.t) (db' : DB) (out : CreateOrder.t),
    CreateOrder.mutate db now input = inr (db', out) ->
    CreateOrder.order out = None ->
    db' = db /\
    CreateOrder.message out = Some "Validation failed" /\
    exists e,
      CreateOrder.errors out = Some [e] /\
      ((e = CreateOrder.customer_id_error /\
        forall c, Storage.customer_get db (OrderInput.customer_id input) <> inr c) \/
       (e = CreateOrder.no_product_error /\ OrderInput.product_ids input = [] /\
        exists c, Storage.customer_get db (OrderInput.customer_id input) = inr c) \/
       (OrderInput.product_ids input <> [] /\
        (exists c, Storage.customer_get db (OrderInput.customer_id input) = inr c) /\
        exists l, e = CreateOrder.invalid_ids_error l)).
Proof.
  intros db now input db' out Hrun Ho.
  destruct (customer_get_cases db (OrderInput.customer_id input))
    as [(_ & Ec) | [(n & _ & _ & Ec) | (customer & _ & _ & Ec)]].
  { unfold CreateOrder.mutate in Hrun. rewrite Ec in Hrun. discriminate Hrun. }
  { unfold CreateOrder.mutate in Hrun. rewrite Ec in Hrun.
    injection Hrun as <- <-. split; [reflexivity|]. split; [reflexivity|].
    exists CreateOrder.customer_id_error. split; [reflexivity|]. left.
    split; [reflexivity|]. intros c Hc. congruence. }
  destruct (prep_ids_cases (OrderInput.product_ids input))
    as [(ns & Ep) | (s & _ & _ & Ep)].
  2:{ unfold CreateOrder.mutate, Storage.products_with_id_in, bind in Hrun.
      rewrite Ec, Ep in Hrun. discriminate Hrun. }
  destruct (create_order_cases db now input customer ns Ec Ep)
    as [(Hnil & E) | [(Hne & _ & E) | (_ & _ & db1 & o & E)]];
    rewrite E in Hrun; injection Hrun as <- <-.
  - split; [reflexivity|]. split; [reflexivity|].
    exists CreateOrder.no_product_error. split; [reflexivity|]. right; left. eauto.
  - split; [reflexivity|]. split; [reflexivity|].
    eexists. split; [reflexivity|]. right; right. eauto.
  - discriminate Ho.
Qed.

Lemma create_order_failure_has_one_error_witness :
  exists e,
    CreateOrder.errors
      (CreateOrder.mk None (Some "Validation failed") (Some [CreateOrder.no_product_error]))
    = Some [e] /\
    CreateOrder.mutate seeded 5 (OrderInput.mk "1" [] None)
    = inr (seeded, CreateOrder.mk None (Some "Validation failed") (Some [e])).
Proof.
  destruct (create_order_failure_has_one_error seeded 5 (OrderInput.mk "1" [] None)
              seeded
              (CreateOrder.mk None (Some "Validation failed")
                 (Some [CreateOrder.no_product_error]))
              eq_refl eq_refl) as (_ & _ & e & He & _).
  exists e. split; [exact He|]. cbn in He. injection He as <-. reflexivity.
Defined.

(* ===================================================================== *)
(** ** What the mutations leave alone, and the invariants they keep *)
(* ===================================================================== *)

Lemma create_customer_result (db : DB) (now : Z) (input : CustomerInput.t) :
  fst (CreateCustomer.mutate db now input) = db \/
  (row_ok db input /\
   fst (CreateCustomer.mutate db now input)
   = with_customer db (created_customer db now input)).
Proof.
  destruct (row_ok_dec db input) as [Hok | Hbad].
  - right. split; [exact Hok|]. now rewrite (create_customer_ok_eq db now input Hok).
  - left. now rewrite (create_customer_bad_eq db now input Hbad).
Qed.

Lemma create_product_result (db : DB) (now : Z) (input : ProductInput.t) :
  fst (CreateProduct.mutate db now input) = db \/
  ((0 < Py.dec_to_Q (ProductInput.price input))%Q /\
   ~ stock_negative (ProductInput.stock input) /\
   fst (CreateProduct.mutate db now input)
   = with_product db (created_product db now input)).
Proof.
  destruct (create_product_cases db now input) as [(H1 & H2 & E) | (errs & E & _)];
    rewrite E; auto.
Qed.

Lemma create_order_result (db : DB) (now : Z) (input : OrderInput.t)
      (db' : DB) (out : CreateOrder.t) :
  wf_db db ->
  CreateOrder.mutate db now input = inr (db', out) ->
  db' = db \/
  exists customer ns,
    In customer (customers db) /\
    db' = with_order db
            (placed_order db now customer (OrderInput.order_date input) (attached db ns))
            (attached db ns).
Proof.
  intros Hwf Hrun.
  destruct (customer_get_cases db (OrderInput.customer_id input))
    as [(_ & Ec) | [(n & _ & _ & Ec) | (customer & Hin & _ & Ec)]].
  { unfold CreateOrder.mutate in Hrun. rewrite Ec in Hrun. discriminate Hrun. }
  { unfold CreateOrder.mutate in Hrun. rewrite Ec in Hrun.
    injection Hrun as <- <-. now left. }
  destruct (prep_ids_cases (OrderInput.product_ids input))
    as [(ns & Ep) | (s & _ & _ & Ep)].
  2:{ unfold CreateOrder.mutate, Storage.products_with_id_in, bind in Hrun.
      rewrite Ec, Ep in Hrun. discriminate Hrun. }
  destruct (create_order_cases db now input customer ns Ec Ep)
    as [(_ & E) | [(_ & _ & E) | (Hne & Hlen & _)]].
  { rewrite E in Hrun. injection Hrun as <- <-. now left. }
  { rewrite E in Hrun. injection Hrun as <- <-. now left. }
  pose proof (proj1 (prep_ids_inr _ _) Ep) as Hco.
  rewrite <- (coerced_length _ _ Hco) in Hlen.
  apply (attached_length db ns (wf_product_ids db Hwf)) in Hlen as [Hnd Hall].
  rewrite (create_order_ok_eq db now input customer ns Hwf Ec Hco Hne Hnd Hall) in Hrun.
  injection Hrun as <- <-. right. eauto.
Qed.

Lemma bulk_loop_frame (now : Z) (rows : list CustomerInput.t) :
  forall (index : nat) (db : DB) (cs : list Customer.t)
         (es : list CustomerValidationError.t),
    products (fst (BulkCreateCustomers.loop now index rows db cs es)) = products db /\
    orders (fst (BulkCreateCustomers.loop now index rows db cs es)) = orders db /\
    order_products (fst (BulkCreateCustomers.loop now index rows db cs es))
    = order_products db.
Proof.
  induction rows as [|row rest IH]; intros index db cs es; [auto|].
  destruct (row_ok_dec db row) as [Hok | Hbad].
  - rewrite (bulk_step_valid now index row rest db cs es Hok).
    destruct (IH (S index) (with_customer db (created_customer db now row))
                 (cs ++ [created_customer db now row])%list es) as (H1 & H2 & H3).
    rewrite H1, H2, H3. auto.
  - destruct (bulk_step_invalid now index row rest db cs es Hbad) as (_ & ->).
    apply IH.
Qed.

(** The links of an order that was already stored are not touched by the
    creation of a later order, nor by the creation of a product. *)
Lemma with_order_keeps_links (db : DB) (o new : Order.t) (ps : list Product.t) :
  Order.id o <> Order.id new ->
  Storage.order_products_all (with_order db new ps) o = Storage.order_products_all db o.
Proof.
  intros Hne. unfold Storage.order_products_all, with_order.
  cbn [products order_products].
  apply filter_ext. intros p. rewrite existsb_app.
  assert (E2 : existsb (fun l => (fst l =? Order.id o) && (snd l =? Product.id p))
                  (map (fun q => (Order.id new, Product.id q)) ps) = false).
  { apply not_true_is_false. intros H. apply existsb_exists in H as (l & Hl & E).
    apply in_map_iff in Hl as (q & <- & _). cbn in E.
    apply andb_true_iff in E as [E _]. apply Z.eqb_eq in E. congruence. }
  rewrite E2, orb_false_r.
  induction (order_products db) as [|l ls IH]; cbn; [reflexivity|].
  destruct (Z.eqb_spec (fst l) (Order.id new)) as [E | E]; cbn.
  - rewrite IH.
    destruct (Z.eqb_spec (fst l) (Order.id o)); [congruence | reflexivity].
  - now rewrite IH.
Qed.

Lemma with_product_keeps_links (db : DB) (o : Order.t) (p : Product.t) :
  (forall l, In l (order_products db) -> snd l <> Product.id p) ->
  Storage.order_products_all (with_product db p) o = Storage.order_products_all db o.
Proof.
  intros Hfresh. unfold Storage.order_products_all, with_product.
  cbn [products order_products]. rewrite filter_app. cbn.
  assert (E : existsb (fun l => (fst l =? Order.id o) && (snd l =? Product.id p))
                (order_products db) = false).
  { apply not_true_is_false. intros H. apply existsb_exists in H as (l & Hl & E).
    apply andb_true_iff in E as [_ E]. apply Z.eqb_eq in E.
    exact (Hfresh l Hl E). }
  rewrite E. apply app_nil_r.
Qed.

Lemma with_customer_keeps_links (db : DB) (o : Order.t) (c : Customer.t) :
  Storage.order_products_all (with_customer db c) o = Storage.order_products_all db o.
Proof. reflexivity. Qed.

Lemma links_fresh_product (db : DB) :
  wf_db db -> links_wf db ->
  forall l, In l (order_products db) -> snd l <> next_product_id db.
Proof.
  intros Hwf Hl l Hin E. destruct (Hl l Hin) as (_ & p & Hp & Hid).
  pose proof (wf_next_product db Hwf p Hp). lia.
Qed.

(** **** Extra X11.
    The four mutations keep the tables well formed: primary keys stay
    unique and below the next key handed out, and customer emails stay
    unique. *)
Theorem mutations_keep_keys_and_emails_unique :
  forall (db : DB) (now : Z),
    wf_db db ->
    (forall input, wf_db (fst (CreateCustomer.mutate db now input))) /\
    (forall input, wf_db (fst (BulkCreateCustomers.mutate db now input))) /\
    (forall input, wf_db (fst (CreateProduct.mutate db now input))) /\
    (forall input db' out,
        CreateOrder.mutate db now input = inr (db', out) -> wf_db db').
Proof.
  intros db now Hwf. split; [|split; [|split]].
  - intros input. now apply create_customer_preserves_wf.
  - intros input. now apply bulk_create_preserves_wf.
  - intros input. now apply create_product_preserves_wf.
  - intros input db' out Hrun. exact (create_order_preserves_wf db db' now input out Hwf Hrun).
Qed.

Lemma mutations_keep_keys_and_emails_unique_witness :
  wf_db (fst (BulkCreateCustomers.mutate seeded 9
                [ CustomerInput.mk "Bob Smith" "bob@example.com" None;
                  CustomerInput.mk "Robert" "bob@example.com" None ])).
Proof.
  apply (proj1 (proj2 (mutations_keep_keys_and_emails_unique seeded 9 seeded_wf))).
Defined.

(** **** Extra X12.
    The four mutations only append.  CreateCustomer and
    BulkCreateCustomers add rows at the end of the customers and leave
    products, orders and links as they are; CreateProduct adds at most one
    row at the end of the products and leaves the rest; CreateOrder, on
    well-formed tables, adds at most one row at the end of the orders,
    leaves customers and products as they are, and does not change which
    products the orders already stored are linked to. *)
Theorem mutations_only_append :
  forall (db : DB) (now : Z),
    (forall input,
        (exists l, customers (fst (CreateCustomer.mutate db now input))
                   = (customers db ++ l)%list /\ (List.length l <= 1)%nat) /\
        products (fst (CreateCustomer.mutate db now input)) = products db /\
        orders (fst (CreateCustomer.mutate db now input)) = orders db /\
        order_products (fst (CreateCustomer.mutate db now input)) = order_products db) /\
    (forall input,
        (exists l, customers (fst (BulkCreateCustomers.mutate db now input))
                   = (customers db ++ l)%list /\
                   (List.length l <= List.length input)%nat) /\
        products (fst (BulkCreateCustomers.mutate db now input)) = products db /\
        orders (fst (BulkCreateCustomers.mutate db now input)) = orders db /\
        order_products (fst (BulkCreateCustomers.mutate db now input))
        = order_products db) /\
    (forall input,
        (exists l, products (fst (CreateProduct.mutate db now input))
                   = (products db ++ l)%list /\ (List.length l <= 1)%nat) /\
        customers (fst (CreateProduct.mutate db now input)) = customers db /\
        orders (fst (CreateProduct.mutate db now input)) = orders db /\
        order_products (fst (CreateProduct.mutate db now input)) = order_products db) /\
    (forall input db' out,
        wf_db db ->
        CreateOrder.mutate db now input = inr (db', out) ->
        (exists l, orders db' = (orders db ++ l)%list /\ (List.length l <= 1)%nat) /\
        customers db' = customers db /\
        products db' = products db /\
        forall o, In o (orders db) ->
                  Storage.order_products_all db' o = Storage.order_products_all db o).
Proof.
  intros db now. split; [|split; [|split]].
  - intros input.
    destruct (create_customer_result db now input) as [-> | (_ & ->)].
    + split; [exists []; rewrite app_nil_r; auto | auto].
    + split; [eexists; split; [reflexivity | cbn; lia] | auto].
  - intros input. unfold BulkCreateCustomers.mutate.
    destruct (bulk_loop_appends now input 0%nat db [] [])
      as (cs & es & _ & _ & H3 & H4 & _).
    split; [exists cs; split; [exact H3 | lia] | apply bulk_loop_frame].
  - intros input.
    destruct (create_product_result db now input) as [-> | (_ & _ & ->)].
    + split; [exists []; rewrite app_nil_r; auto | auto].
    + split; [eexists; split; [reflexivity | cbn; lia] | auto].
  - intros input db' out Hwf Hrun.
    destruct (create_order_result db now input db' out Hwf Hrun)
      as [-> | (customer & ns & _ & ->)].
    + split; [exists []; rewrite app_nil_r; auto | auto].
    + split; [eexists; split; [reflexivity | cbn; lia]|].
      split; [reflexivity|]. split; [reflexivity|].
      intros o Ho. apply with_order_keeps_links. cbn [placed_order Order.id].
      pose proof (wf_next_order db Hwf o Ho). lia.
Qed.

Lemma mutations_only_append_witness :
  exists db' out,
    wf_db seeded /\
    CreateOrder.mutate seeded 5 (OrderInput.mk "1" ["2"] None) = inr (db', out) /\
    customers db' = customers seeded /\ products db' = products seeded.
Proof.
  destruct (CreateOrder.mutate seeded 5 (OrderInput.mk "1" ["2"] None))
    as [e | [db' out]] eqn:E; [discriminate E|].
  exists db', out.
  destruct (proj2 (proj2 (proj2 (mutations_only_append seeded 5))) _ db' out seeded_wf E)
    as (_ & Hc & Hp & _).
  split; [exact seeded_wf|]. split; [reflexivity|]. split; [exact Hc | exact Hp].
Defined.

Lemma links_wf_with_customer (db : DB) (c : Customer.t) :
  links_wf db -> links_wf (with_customer db c).
Proof. intros H l Hl. exact (H l Hl). Qed.

Lemma links_wf_with_product (db : DB) (p : Product.t) :
  links_wf db -> links_wf (with_product db p).
Proof.
  intros H l Hl. destruct (H l Hl) as (Ho & q & Hq & Hid).
  split; [exact Ho|]. exists q. split; [|exact Hid].
  cbn [with_product products]. apply in_or_app. now left.
Qed.

Lemma links_wf_with_order (db : DB) (o : Order.t) (ns : list Z) :
  links_wf db -> links_wf (with_order db o (attached db ns)).
Proof.
  intros H l Hl. cbn [with_order orders products order_products] in *.
  apply in_app_or in Hl as [Hl | Hl].
  - apply filter_In in Hl as [Hl _]. destruct (H l Hl) as ((r & Hr & Hid) & Hp).
    split; [|exact Hp]. exists r. split; [apply in_or_app; now left | exact Hid].
  - apply in_map_iff in Hl as (q & <- & Hq). apply In_attached in Hq as [Hq _].
    split; [exists o; split; [apply in_or_app; right; now left | reflexivity]|].
    exists q. auto.
Qed.

Lemma totals_with_customer (db : DB) (c : Customer.t) :
  totals_consistent db -> totals_consistent (with_customer db c).
Proof. intros H o Ho. exact (H o Ho). Qed.

Lemma totals_with_product (db : DB) (p : Product.t) :
  (forall l, In l (order_products db) -> snd l <> Product.id p) ->
  totals_consistent db -> totals_consistent (with_product db p).
Proof.
  intros Hfresh H o Ho. rewrite (with_product_keeps_links db o p Hfresh). exact (H o Ho).
Qed.

Lemma totals_with_order (db : DB) (now : Z) (customer : Customer.t)
      (order_date : option Z) (ns : list Z) :
  (forall r, In r (orders db) -> Order.id r < next_order_id db) ->
  totals_consistent db ->
  totals_consistent
    (with_order db (placed_order db now customer order_date (attached db ns))
                (attached db ns)).
Proof.
  intros Hlt H o Ho. cbn [with_order orders] in Ho.
  apply in_app_or in Ho as [Ho | [<- | []]].
  - rewrite with_order_keeps_links; [exact (H o Ho)|].
    cbn [placed_order Order.id]. apply Hlt in Ho. lia.
  - unfold Storage.order_products_all, with_order.
    cbn [products order_products placed_order Order.id Order.total_amount].
    now rewrite links_select, attached_idempotent.
Qed.

Lemma bulk_loop_keeps (P : DB -> Prop) (now : Z) (rows : list CustomerInput.t) :
  (forall db c, P db -> P (with_customer db c)) ->
  forall (index : nat) (db : DB) (cs : list Customer.t)
         (es : list CustomerValidationError.t),
    P db -> P (fst (BulkCreateCustomers.loop now index rows db cs es)).
Proof.
  intros Hstep. induction rows as [|row rest IH]; intros index db cs es HP; [exact HP|].
  destruct (row_ok_dec db row) as [Hok | Hbad].
  - rewrite (bulk_step_valid now index row rest db cs es Hok). apply IH, Hstep, HP.
  - destruct (bulk_step_invalid now index row rest db cs es Hbad) as (_ & ->).
    apply IH, HP.
Qed.

(** **** Extra X13.
    On well-formed tables the four mutations keep the link table sound
    (every link joins a stored order to a stored product) and keep every
    stored total equal to the sum of the prices of the products linked to
    its order. *)
Theorem mutations_keep_totals_consistent :
  forall (db : DB) (now : Z),
    wf_db db -> links_wf db -> totals_consistent db ->
    (forall input,
        links_wf (fst (CreateCustomer.mutate db now input)) /\
        totals_consistent (fst (CreateCustomer.mutate db now input))) /\
    (forall input,
        links_wf (fst (BulkCreateCustomers.mutate db now input)) /\
        totals_consistent (fst (BulkCreateCustomers.mutate db now input))) /\
    (forall input,
        links_wf (fst (CreateProduct.mutate db now input)) /\
        totals_consistent (fst (CreateProduct.mutate db now input))) /\
    (forall input db' out,
        CreateOrder.mutate db now input = inr (db', out) ->
        links_wf db' /\ totals_consistent db').
Proof.
  intros db now Hwf Hl Ht. split; [|split; [|split]].
  - intros input.
    destruct (create_customer_result db now input) as [-> | (_ & ->)]; [auto|].
    split; [now apply links_wf_with_customer | now apply totals_with_customer].
  - intros input. unfold BulkCreateCustomers.mutate. split.
    + apply (bulk_loop_keeps links_wf); [apply links_wf_with_customer | exact Hl].
    + apply (bulk_loop_keeps totals_consistent); [apply totals_with_customer | exact Ht].
  - intros input.
    destruct (create_product_result db now input) as [-> | (_ & _ & ->)]; [auto|].
    split; [now apply links_wf_with_product|].
    apply totals_with_product; [|exact Ht].
    cbn [created_product Product.id]. now apply links_fresh_product.
  - intros input db' out Hrun.
    destruct (create_order_result db now input db' out Hwf Hrun)
      as [-> | (customer & ns & _ & ->)]; [auto|].
    split; [now apply links_wf_with_order|].
    apply totals_with_order; [exact (wf_next_order db Hwf) | exact Ht].
Qed.

Lemma mutations_keep_totals_consistent_witness :
  exists db' out,
    CreateOrder.mutate seeded 5 (OrderInput.mk "1" ["1"; "2"] None) = inr (db', out) /\
    links_wf db' /\ totals_consistent db'.
Proof.
  destruct (CreateOrder.mutate seeded 5 (OrderInput.mk "1" ["1"; "2"] None))
    as [e | [db' out]] eqn:E; [discriminate E|].
  exists db', out. split; [reflexivity|].
  apply (proj2 (proj2 (proj2 (mutations_keep_totals_consistent seeded 5 seeded_wf
                                (fun l (H : In l []) => match H with end)
                                (fun o (H : In o []) => match H with end))))
           _ db' out E).
Defined.

(** *** Product validation *)

Lemma clean_spec (p : Product.t) :
  (Product.clean p = inr tt <-> (0 < Py.dec_to_Q (Product.price p))%Q) /\
  (Product.clean p = inl (mkValidationError [("price", "Price must be positive")])
   <-> (Py.dec_to_Q (Product.price p) <= 0)%Q).
Proof.
  pose proof (price_check_spec (Product.price p)) as H.
  unfold Product.clean.
  destruct (Py.dec_leb (Product.price p) Py.dec_zero) eqn:E.
  - assert (Hle : (Py.dec_to_Q (Product.price p) <= 0)%Q) by now apply H.
    split; split; intros H'; try discriminate; try reflexivity; try exact Hle.
    exfalso. exact (Qlt_not_le _ _ H' Hle).
  - assert (Hpos : (0 < Py.dec_to_Q (Product.price p))%Q).
    { apply Qnot_le_lt. intros H'. apply H in H'. discriminate H'. }
    split; split; intros H'; try discriminate; try reflexivity; try exact Hpos.
    exfalso. exact (Qlt_not_le _ _ Hpos H').
Qed.

Lemma created_product_valid (db : DB) (now : Z) (input : ProductInput.t) :
  (0 < Py.dec_to_Q (ProductInput.price input))%Q ->
  ~ stock_negative (ProductInput.stock input) ->
  Product.clean (created_product db now input) = inr tt /\
  0 <= Product.stock (created_product db now input).
Proof.
  intros Hpos Hs. split; [now apply clean_spec|].
  cbn [created_product Product.stock].
  destruct (ProductInput.stock input) as [n|] eqn:E; [|lia].
  destruct (Z.lt_ge_cases n 0); [|assumption].
  exfalso. apply Hs. exists n. auto.
Qed.

(** **** Extra X7.
    [Product.clean] raises the price error exactly when the price is not
    positive, the same test CreateProduct applies: every product
    CreateProduct returns passes [Product.clean] and has a stock that is
    not negative; and if all stored products are so, they remain so after
    CreateProduct on a price the price column gives back as written (two
    places, at most ten digits), and after any of the other three
    mutations. *)
Theorem stored_products_pass_clean :
  forall (db : DB) (now : Z),
    (forall p,
        (Product.clean p = inr tt <-> (0 < Py.dec_to_Q (Product.price p))%Q) /\
        (Product.clean p = inl (mkValidationError [("price", "Price must be positive")])
         <-> (Py.dec_to_Q (Product.price p) <= 0)%Q)) /\
    (forall input p,
        CreateProduct.product (snd (CreateProduct.mutate db now input)) = Some p ->
        Product.clean p = inr tt /\ 0 <= Product.stock p) /\
    (products_valid db ->
     (forall input,
         stored_as_given (ProductInput.price input) ->
         products_valid (fst (CreateProduct.mutate db now input))) /\
     (forall input, products_valid (fst (CreateCustomer.mutate db now input))) /\
     (forall input, products_valid (fst (BulkCreateCustomers.mutate db now input))) /\
     (forall input db' out,
         wf_db db -> CreateOrder.mutate db now input = inr (db', out) ->
         products_valid db')).
Proof.
  intros db now. split; [apply clean_spec|]. split.
  - intros input p Hp.
    destruct (create_product_cases db now input) as [(Hpos & Hs & E) | (errs & E & _)];
      rewrite E in Hp; cbn in Hp; [|discriminate Hp].
    injection Hp as <-. now apply created_product_valid.
  - intros Hv. split; [|split; [|split]].
    + intros input _.
      destruct (create_product_result db now input) as [-> | (Hpos & Hs & ->)]; [exact Hv|].
      intros p Hp. cbn [with_product products] in Hp.
      apply in_app_or in Hp as [Hp | [<- | []]]; [now apply Hv|].
      now apply created_product_valid.
    + intros input.
      destruct (create_customer_result db now input) as [-> | (_ & ->)]; exact Hv.
    + intros input. unfold BulkCreateCustomers.mutate.
      apply (bulk_loop_keeps products_valid); [|exact Hv].
      intros d c H. exact H.
    + intros input db' out Hwf Hrun.
      destruct (create_order_result db now input db' out Hwf Hrun)
        as [-> | (customer & ns & _ & ->)]; exact Hv.
Qed.

Lemma stored_products_pass_clean_witness :
  products_valid seeded /\
  products_valid (fst (CreateProduct.mutate seeded 3
                         (ProductInput.mk "Webcam" (Py.mkDecimal 8999 (-2)) None))).
Proof.
  assert (Hv : products_valid seeded).
  { intros p [<- | [<- | [<- | []]]]; split; try reflexivity; cbn; lia. }
  split; [exact Hv|].
  apply (proj1 (proj2 (proj2 (stored_products_pass_clean seeded 3)) Hv)).
  split; reflexivity.
Defined.

(* ===================================================================== *)
(** ** Lookups by id *)
(* ===================================================================== *)

Lemma find_unique {A : Type} (key : A -> Z) (rows : list A) (a : A) :
  NoDup (map key rows) -> In a rows ->
  find (fun r => key r =? key a) rows = Some a.
Proof.
  induction rows as [|x rows IH]; cbn; [intros _ []|].
  intros Hnd Hin. inversion Hnd as [|? ? Hnotin Hnd']; subst.
  destruct Hin as [-> | Hin]; [now rewrite Z.eqb_refl|].
  destruct (Z.eqb_spec (key x) (key a)) as [E | E]; [|now apply IH].
  exfalso. apply Hnotin. rewrite E. now apply in_map.
Qed.

Section Lookup.

Context {A : Type} (key : A -> Z) (rows : list A) (msg : string).

(** The shape shared by the three [objects.get(id=...)] calls and by the
    three resolvers built on them. *)
Let get (s : string) : result A :=
  n <- Storage.prep_id s ;;
  match find (fun r => key r =? n) rows with
  | Some r => inr r
  | None => inl (DoesNotExist msg)
  end.

Let resolve (s : string) : result (option A) :=
  match get s with
  | inr r => inr (Some r)
  | inl (DoesNotExist _) => inr None
  | inl e => inl e
  end.

Lemma lookup_spec (s : string) :
  NoDup (map key rows) ->
  (forall r, resolve s = inr (Some r) <-> In r rows /\ Py.int s = Some (key r)) /\
  (resolve s = inr None <->
   exists n, Py.int s = Some n /\ forall r, In r rows -> key r <> n) /\
  ((exists e, resolve s = inl e) <-> Py.int s = None) /\
  (forall e, resolve s = inl e -> exists m, e = ValueError m).
Proof.
  intros Hnd. unfold resolve, get, Storage.prep_id, bind.
  destruct (Py.int s) as [n|] eqn:Es.
  - destruct (find (fun r => key r =? n) rows) as [r0|] eqn:Ef.
    + pose proof (find_some _ _ Ef) as [Hin Hk]. apply Z.eqb_eq in Hk.
      split; [|split; [|split]].
      * intros r. split.
        -- intros [= <-]. split; [exact Hin | now rewrite Hk].
        -- intros [Hr [= ->]]. rewrite (find_unique key rows r Hnd Hr) in Ef.
           now injection Ef as ->.
      * split; [discriminate|]. intros (m & [= <-] & Hnone).
        exfalso. exact (Hnone r0 Hin Hk).
      * split; [intros (e & He); discriminate He | discriminate].
      * intros e He. discriminate He.
    + split; [|split; [|split]].
      * intros r. split; [discriminate|]. intros [Hr [= ->]].
        pose proof (find_none _ _ Ef r Hr) as H. cbn in H.
        rewrite Z.eqb_refl in H. discriminate H.
      * split; [|reflexivity]. intros _. exists n. split; [reflexivity|].
        intros r Hr Hk. pose proof (find_none _ _ Ef r Hr) as H. cbn in H.
        apply Z.eqb_neq in H. contradiction.
      * split; [intros (e & He); discriminate He | discriminate].
      * intros e He. discriminate He.
  - split; [|split; [|split]].
    + intros r. split; [discriminate | intros [_ H]; discriminate H].
    + split; [discriminate | intros (n & H & _); discriminate H].
    + split; [reflexivity | eauto].
    + intros e [= <-]. eauto.
Qed.

End Lookup.

(** **** Extra X14.
    With unique primary keys, the three lookups by id return a row
    exactly when the id is a number and the row is the stored one with
    that key, return [None] exactly when the id is a number that is no
    stored key, and let an exception out, a [ValueError], exactly when
    the id is not a number. *)
Theorem resolve_by_id_finds_the_row :
  forall (db : DB) (s : string),
    wf_db db ->
    ((forall c, Query.resolve_customer db s = inr (Some c)
                <-> In c (customers db) /\ Py.int s = Some (Customer.id c)) /\
     (Query.resolve_customer db s = inr None
      <-> exists n, Py.int s = Some n /\
                    forall c, In c (customers db) -> Customer.id c <> n) /\
     ((exists e, Query.resolve_customer db s = inl e) <-> Py.int s = None) /\
     (forall e, Query.resolve_customer db s = inl e -> exists m, e = ValueError m)) /\
    ((forall p, Query.resolve_product db s = inr (Some p)
                <-> In p (products db) /\ Py.int s = Some (Product.id p)) /\
     (Query.resolve_product db s = inr None
      <-> exists n, Py.int s = Some n /\
                    forall p, In p (products db) -> Product.id p <> n) /\
     ((exists e, Query.resolve_product db s = inl e) <-> Py.int s = None) /\
     (forall e, Query.resolve_product db s = inl e -> exists m, e = ValueError m)) /\
    ((forall o, Query.resolve_order db s = inr (Some o)
                <-> In o (orders db) /\ Py.int s = Some (Order.id o)) /\
     (Query.resolve_order db s = inr None
      <-> exists n, Py.int s = Some n /\
                    forall o, In o (orders db) -> Order.id o <> n) /\
     ((exists e, Query.resolve_order db s = inl e) <-> Py.int s = None) /\
     (forall e, Query.resolve_order db s = inl e -> exists m, e = ValueError m)).
Proof.
  intros db s Hwf. split; [|split].
  - exact (lookup_spec Customer.id (customers db) _ s (wf_customer_ids db Hwf)).
  - exact (lookup_spec Product.id (products db) _ s (wf_product_ids db Hwf)).
  - exact (lookup_spec Order.id (orders db) _ s (wf_order_ids db Hwf)).
Qed.

Lemma resolve_by_id_finds_the_row_witness :
  Query.resolve_product seeded "2" = inr (Some mouse) /\
  Query.resolve_product seeded "02" = inr (Some mouse) /\
  Query.resolve_product seeded "9" = inr None.
Proof.
  split; [|split].
  - apply (proj1 (proj1 (proj2 (resolve_by_id_finds_the_row seeded "2" seeded_wf)))).
    split; [cbn; auto | reflexivity].
  - apply (proj1 (proj1 (proj2 (resolve_by_id_finds_the_row seeded "02" seeded_wf)))).
    split; [cbn; auto | reflexivity].
  - apply (proj1 (proj2 (proj1 (proj2 (resolve_by_id_finds_the_row seeded "9" seeded_wf))))).
    exists 9. split; [reflexivity|].
    intros p [<- | [<- | [<- | []]]]; discriminate.
Defined.

(** ** Mutations followed by lookups *)




(** ** The phone filter *)

(** **** Extra X16.
    [CustomerFilter.filter_phone_pattern] and the [phone_pattern]
    criterion of the [customers] resolver select the same rows.  An empty
    value selects everything; a value that is not empty and holds no
    letter (so that the case of letters, which the prefix test of some
    storage engines ignores, plays no part) selects exactly the
    customers whose phone is set and begins with the value, so a customer
    without a phone is never selected; and filtering twice with the same
    value changes nothing more. *)
Theorem phone_pattern_selects_by_prefix :
  forall (db : DB) (queryset : list Customer.t) (name value : string),
    CustomerFilter.filter_phone_pattern queryset name "" = queryset /\
    CustomerFilter.filter_phone_pattern (customers db) name value
    = Query.resolve_customers db (Some (only_phone_pattern value)) /\
    CustomerFilter.filter_phone_pattern
      (CustomerFilter.filter_phone_pattern queryset name value) name value
    = CustomerFilter.filter_phone_pattern queryset name value /\
    (value <> "" -> no_letter value ->
     forall c,
       In c (CustomerFilter.filter_phone_pattern queryset name value) <->
       In c queryset /\
       exists phone, Customer.phone c = Some phone /\ String.prefix value phone = true).
Proof.
  intros db queryset name value. split; [reflexivity|]. split; [|split].
  - unfold CustomerFilter.filter_phone_pattern, Query.resolve_customers,
      only_phone_pattern, filter_if.
    cbn [CustomerFilterInput.name_icontains CustomerFilterInput.email_icontains
         CustomerFilterInput.created_at_gte CustomerFilterInput.created_at_lte
         CustomerFilterInput.phone_pattern].
    cbv zeta. destruct (Py.truthy_str value); reflexivity.
  - unfold CustomerFilter.filter_phone_pattern.
    destruct (Py.truthy_str value); [|reflexivity].
    induction queryset as [|c queryset IH]; [reflexivity|]. cbn.
    destruct (startswith value (Customer.phone c)) eqn:Hc; [|exact IH].
    cbn. rewrite Hc. now f_equal.
  - intros Hne _ c. unfold CustomerFilter.filter_phone_pattern.
    destruct value as [|a value]; [contradiction|]. cbn [Py.truthy_str].
    rewrite filter_In. unfold startswith.
    destruct (Customer.phone c) as [phone|]; split.
    + intros [Hc Hp]. split; [exact Hc|]. eauto.
    + intros [Hc (phone' & [= <-] & Hp)]. auto.
    + intros [_ H]. discriminate H.
    + intros [_ (phone' & H & _)]. discriminate H.
Qed.

Lemma phone_pattern_selects_by_prefix_witness :
  In alice (CustomerFilter.filter_phone_pattern [alice] "phone_pattern" "+1") <->
  In alice [alice] /\
  exists phone, Customer.phone alice = Some phone /\ String.prefix "+1" phone = true.
Proof.
  apply (proj2 (proj2 (proj2
           (phone_pattern_selects_by_prefix seeded [alice] "phone_pattern" "+1")))).
  - discriminate.
  - reflexivity.
Defined.

(** ** [calculate_total_amount] *)

Lemma linked_products_ext (db1 db2 : DB) (o : Order.t) :
  Permutation (products db1) (products db2) ->
  (forall l, In l (order_products db1) <-> In l (order_products db2)) ->
  Permutation (Storage.order_products_all db1 o) (Storage.order_products_all db2 o).
Proof.
  intros Hp Hl. unfold Storage.order_products_all.
  set (f := fun links (p : Product.t) =>
              existsb (fun l : Z * Z => (fst l =? Order.id o) && (snd l =? Product.id p))
                      links).
  change (Permutation (filter (f (order_products db1)) (products db1))
                      (filter (f (order_products db2)) (products db2))).
  assert (E : forall p, f (order_products db1) p = f (order_products db2) p).
  { intros p. apply eq_iff_eq_true. unfold f. rewrite !existsb_exists.
    split; intros (l & Hin & H); exists l; (split; [now apply Hl | exact H]). }
  rewrite (filter_ext _ _ E).
  clear E Hl. induction Hp as [|x xs ys _ IH|x y xs|xs ys zs _ IH1 _ IH2]; cbn.
  - constructor.
  - destruct (f (order_products db2) x); [now constructor | exact IH].
  - destruct (f (order_products db2) x), (f (order_products db2) y);
      try apply Permutation_refl. apply perm_swap.
  - exact (Permutation_trans IH1 IH2).
Qed.

(** **** Extra X17.
    The total [Order.calculate_total_amount] computes depends only on
    which products are linked to the order: two states whose product
    tables hold the same rows in any order, and whose link tables have
    the same members, give the same total, exactly.  An order without
    any link gets the total zero; and the method changes no field of the
    order but [total_amount], so computing again gives the same order. *)
Theorem total_depends_only_on_linked_products :
  forall (db1 db2 : DB) (o : Order.t),
    Permutation (products db1) (products db2) ->
    (forall l, In l (order_products db1) <-> In l (order_products db2)) ->
    snd (calculate_total_amount db1 o) = snd (calculate_total_amount db2 o) /\
    fst (calculate_total_amount db1 o) = fst (calculate_total_amount db2 o) /\
    ((forall l, In l (order_products db1) -> fst l <> Order.id o) ->
     snd (calculate_total_amount db1 o) = Py.dec_zero) /\
    calculate_total_amount db1 (fst (calculate_total_amount db1 o))
    = calculate_total_amount db1 o.
Proof.
  intros db1 db2 o Hp Hl.
  pose proof (linked_products_ext db1 db2 o Hp Hl) as Hperm.
  assert (E : Py.sum (map Product.price (Storage.order_products_all db1 o))
              = Py.sum (map Product.price (Storage.order_products_all db2 o)))
    by (apply sum_permutation, Permutation_map, Hperm).
  unfold calculate_total_amount. cbv zeta. cbn [fst snd]. split; [exact E|].
  split; [now rewrite E|]. split; [|reflexivity].
  intros Hnone.
  assert (En : Storage.order_products_all db1 o = []).
  { unfold Storage.order_products_all.
    apply filter_nil_iff. intros p _.
    destruct (existsb _ (order_products db1)) eqn:Ex; [|reflexivity].
    apply existsb_exists in Ex as (l & Hin & H).
    apply andb_true_iff in H as [H _]. apply Z.eqb_eq in H.
    now apply Hnone in Hin. }
  rewrite En. reflexivity.
Qed.

Lemma total_depends_only_on_linked_products_witness :
  snd (calculate_total_amount seeded (Order.mk 1 1 Py.dec_zero 0 0))
  = snd (calculate_total_amount
           (mkDB [alice] [desk_chair; mouse; laptop] [] [] 2 4 1)
           (Order.mk 1 1 Py.dec_zero 0 0)).
Proof.
  refine (proj1 (total_depends_only_on_linked_products seeded
                   (mkDB [alice] [desk_chair; mouse; laptop] [] [] 2 4 1)
                   (Order.mk 1 1 Py.dec_zero 0 0) _ _)).
  - cbn [products seeded].
    apply Permutation_trans with (l' := [mouse; laptop; desk_chair]).
    + apply perm_trans with (l' := [mouse; laptop; desk_chair]);
        [apply perm_swap | apply Permutation_refl].
    + apply Permutation_trans with (l' := [mouse; desk_chair; laptop]).
      * apply perm_skip, perm_swap.
      * apply perm_swap.
  - intros l. reflexivity.
Defined.

(** ** Orders over valid products *)

(** A run of CreateOrder that returns an order went through every
    check: the returned order is the one placed for the stored products
    with the given ids, which are all there and not repeated. *)
Lemma create_order_success_shape (db : DB) (now : Z) (input : OrderInput.t)
      (db' : DB) (out : CreateOrder.t) (o : Order.t) :
  wf_db db ->
  CreateOrder.mutate db now input = inr (db', out) ->
  CreateOrder.order out = Some o ->
  exists customer ns,
    In customer (customers db) /\
    Py.int (OrderInput.customer_id input) = Some (Customer.id customer) /\
    coerced (OrderInput.product_ids input) ns /\
    ns <> [] /\ NoDup ns /\
    (forall n, In n ns -> exists p, In p (products db) /\ Product.id p = n) /\
    o = placed_order db now customer (OrderInput.order_date input) (attached db ns) /\
    db' = with_order db o (attached db ns) /\
    CreateOrder.errors out = None.
Proof.
  intros Hwf Hrun Ho.
  destruct (customer_get_cases db (OrderInput.customer_id input))
    as [(_ & Ec) | [(n & _ & _ & Ec) | (customer & Hin & Hint & Ec)]].
  { unfold CreateOrder.mutate in Hrun. rewrite Ec in Hrun. discriminate Hrun. }
  { unfold CreateOrder.mutate in Hrun. rewrite Ec in Hrun.
    injection Hrun as <- <-. discriminate Ho. }
  destruct (prep_ids_cases (OrderInput.product_ids input))
    as [(ns & Ep) | (s & _ & _ & Ep)].
  2:{ unfold CreateOrder.mutate, Storage.products_with_id_in, bind in Hrun.
      rewrite Ec, Ep in Hrun. discriminate Hrun. }
  destruct (create_order_cases db now input customer ns Ec Ep)
    as [(_ & E) | [(_ & _ & E) | (Hne & Hlen & _)]].
  { rewrite E in Hrun. injection Hrun as <- <-. discriminate Ho. }
  { rewrite E in Hrun. injection Hrun as <- <-. discriminate Ho. }
  pose proof (proj1 (prep_ids_inr _ _) Ep) as Hco.
  rewrite <- (coerced_length _ _ Hco) in Hlen.
  apply (attached_length db ns (wf_product_ids db Hwf)) in Hlen as [Hnd Hall].
  rewrite (create_order_ok_eq db now input customer ns Hwf Ec Hco Hne Hnd Hall) in Hrun.
  injection Hrun as <- <-. cbn in Ho. injection Ho as <-.
  exists customer, ns. repeat (split; [first [assumption | reflexivity]|]).
  split; [|repeat (split; [first [assumption | reflexivity]|]); reflexivity].
  intros ->. inversion Hco as [E0|]. now symmetry in E0.
Qed.

Lemma Qsum_pos (qs : list Q) :
  qs <> [] -> Forall (fun q => (0 < q)%Q) qs -> (0 < Qsum qs)%Q.
Proof.
  intros Hne H. induction H as [|q qs Hq Hqs IH]; [contradiction|].
  cbn. destruct qs as [|q' qs].
  - cbn. now rewrite Qplus_0_r.
  - assert (Hrest : (0 < Qsum (q' :: qs))%Q) by (apply IH; discriminate).
    apply Qlt_trans with (y := (q + 0)%Q).
    + now rewrite Qplus_0_r.
    + apply Qplus_lt_r. exact Hrest.
Qed.

(** **** Extra X18.
    Where every stored product passes [Product.clean], an order that
    CreateOrder creates has a total above zero, which is the exact sum of
    the prices of at least one stored product, each counted once; its
    customer is the stored customer the id refers to, its key is the next
    order key, and the payload has no error list. *)
Theorem created_orders_have_positive_totals :
  forall (db db' : DB) (now : Z) (input : OrderInput.t) (out : CreateOrder.t)
         (o : Order.t),
    wf_db db -> products_valid db ->
    CreateOrder.mutate db now input = inr (db', out) ->
    CreateOrder.order out = Some o ->
    (0 < Py.dec_to_Q (Order.total_amount o))%Q /\
    (exists ps,
        ps <> [] /\ NoDup (map Product.id ps) /\ incl ps (products db) /\
        (Py.dec_to_Q (Order.total_amount o)
         == Qsum (map (fun p => Py.dec_to_Q (Product.price p)) ps))%Q) /\
    (exists c, In c (customers db) /\ Order.customer o = Customer.id c /\
               Py.int (OrderInput.customer_id input) = Some (Customer.id c)) /\
    Order.id o = next_order_id db /\
    CreateOrder.errors out = None.
Proof.
  intros db db' now input out o Hwf Hval Hrun Ho.
  destruct (create_order_success_shape db now input db' out o Hwf Hrun Ho)
    as (customer & ns & Hin & Hint & Hco & Hne & Hnd & Hall & -> & _ & Herr).
  assert (Hps : attached db ns <> []).
  { destruct ns as [|n ns]; [contradiction|].
    destruct (Hall n (or_introl eq_refl)) as (p & Hp & Hid).
    intros E. assert (Hp' : In p (attached db (n :: ns)))
      by (apply In_attached; split; [exact Hp | rewrite Hid; now left]).
    rewrite E in Hp'. destruct Hp'. }
  assert (Hsum : (Py.dec_to_Q (Py.sum (map Product.price (attached db ns)))
                  == Qsum (map (fun p => Py.dec_to_Q (Product.price p))
                               (attached db ns)))%Q)
    by (rewrite dec_to_Q_sum, map_map; reflexivity).
  cbn [placed_order Order.total_amount Order.customer Order.id].
  split; [|split; [|split; [|split]]].
  - rewrite Hsum. apply Qsum_pos.
    + intros E. apply map_eq_nil in E. contradiction.
    + apply Forall_forall. intros q Hq. apply in_map_iff in Hq as (p & <- & Hp).
      apply In_attached in Hp as [Hp _]. apply clean_spec, Hval, Hp.
  - exists (attached db ns). split; [exact Hps|]. split; [|split; [|exact Hsum]].
    + apply NoDup_map_filter, (wf_product_ids db Hwf).
    + intros p Hp. now apply In_attached in Hp as [Hp _].
  - exists customer. auto.
  - reflexivity.
  - exact Herr.
Qed.

Lemma seeded_products_valid : products_valid seeded.
Proof.
  intros p [<- | [<- | [<- | []]]]; (split; [reflexivity | cbn; lia]).
Qed.

Lemma created_orders_have_positive_totals_witness :
  exists db' out o,
    CreateOrder.mutate seeded 5 (OrderInput.mk "1" ["3"; "1"] None) = inr (db', out) /\
    CreateOrder.order out = Some o /\
    (0 < Py.dec_to_Q (Order.total_amount o))%Q.
Proof.
  destruct (CreateOrder.mutate seeded 5 (OrderInput.mk "1" ["3"; "1"] None))
    as [e | [db' out]] eqn:E; [discriminate E|].
  destruct (CreateOrder.order out) as [o|] eqn:Eo;
    [|injection E as _ <-; discriminate Eo].
  exists db', out, o. split; [reflexivity|]. split; [exact Eo|].
  exact (proj1 (created_orders_have_positive_totals seeded db' 5 _ out o
                  seeded_wf seeded_products_valid E Eo)).
Defined.

(** ** seed_db.py: the seeding script *)

Lemma customer_rows_emails_fresh (db : DB) (now : Z)
      (data : list (string * string * string)) :
  forall (cs : list Customer.t) (out : list string),
    NoDup (map (fun d => snd (fst d)) data) ->
    (forall d, In d data -> ~ email_taken db (snd (fst d))) ->
    seed_db.create_customers db now data cs out
    = inr (mkDB (customers db ++ customer_rows (next_customer_id db) now data)
                (products db) (orders db) (order_products db)
                (next_customer_id db + Z.of_nat (List.length data))
                (next_product_id db) (next_order_id db),
           (cs ++ customer_rows (next_customer_id db) now data)%list,
           (out ++ map (fun c => ("Created customer: " ++ Customer.name c)%string)
                       (customer_rows (next_customer_id db) now data))%list).
Proof.
  revert db. induction data as [|[[name email] phone] rest IH]; intros db cs out Hnd Hfree.
  - cbn. rewrite !app_nil_r, Z.add_0_r. destruct db; reflexivity.
  - cbn [seed_db.create_customers]. unfold Storage.customer_create.
    assert (E : existsb (fun c => String.eqb (Customer.email c) email) (customers db)
                = false).
    { apply not_true_is_false. intros H. apply email_taken_existsb in H.
      exact (Hfree _ (or_introl eq_refl) H). }
    rewrite E. cbv zeta. inversion Hnd as [|? ? Hnotin Hnd']; subst.
    rewrite IH; [|exact Hnd'|].
    + unfold Py.append.
      cbn [customers products orders order_products next_customer_id next_product_id
           next_order_id customer_rows map Customer.name List.length].
      rewrite <- !app_assoc. cbn [app].
      replace (next_customer_id db + 1 + Z.of_nat (List.length rest))
        with (next_customer_id db + Z.of_nat (S (List.length rest))) by lia.
      reflexivity.
    + intros d Hd (c & Hc & Hemail). cbn [customers] in Hc. unfold Py.append in Hc.
      apply in_app_or in Hc as [Hc | [<- | []]].
      * apply (Hfree d (or_intror Hd)). exists c. auto.
      * cbn in Hemail. apply Hnotin. rewrite Hemail.
        now apply (in_map (fun d => snd (fst d))).
Qed.

Lemma product_rows_created (db : DB) (now : Z) (data : list (string * Py.Decimal * Z)) :
  forall (ps : list Product.t) (out : list string),
    (forall d, In d data -> 0 <= snd d) ->
    seed_db.create_products db now data ps out
    = inr (mkDB (customers db)
                (products db ++ product_rows (next_product_id db) now data)
                (orders db) (order_products db)
                (next_customer_id db)
                (next_product_id db + Z.of_nat (List.length data)) (next_order_id db),
           (ps ++ product_rows (next_product_id db) now data)%list,
           (out ++ map (fun p => ("Created product: " ++ Product.name p)%string)
                       (product_rows (next_product_id db) now data))%list).
Proof.
  revert db. induction data as [|[[name price] stock] rest IH]; intros db ps out Hpos.
  - cbn. rewrite !app_nil_r, Z.add_0_r. destruct db; reflexivity.
  - cbn [seed_db.create_products]. unfold Storage.product_create.
    assert (E : (stock <? 0) = false)
      by (apply Z.ltb_ge; exact (Hpos _ (or_introl eq_refl))).
    rewrite E. cbv zeta.
    rewrite IH by (intros d Hd; exact (Hpos d (or_intror Hd))).
    unfold Py.append.
    cbn [customers products orders order_products next_customer_id next_product_id
         next_order_id product_rows map Product.name List.length].
    rewrite <- !app_assoc. cbn [app].
    replace (next_product_id db + 1 + Z.of_nat (List.length rest))
      with (next_product_id db + Z.of_nat (S (List.length rest))) by lia.
    reflexivity.
Qed.

Lemma seed_order_step (db : DB) (now : Z) (customer : Customer.t) (ps : list Product.t)
      (rest : list (Customer.t * list Product.t)) (out : list string) :
  seed_db.create_orders db now ((customer, ps) :: rest) out
  = match CreateOrder.create db now customer (Some now) ps with
    | inl e => inl e
    | inr (db', order) =>
        seed_db.create_orders db' now rest
          (Py.append out ("Created order for " ++ Customer.name customer
                          ++ " with total: $" ++ Py.dec_str (Order.total_amount order)))
    end.
Proof.
  cbn [seed_db.create_orders]. unfold CreateOrder.create, bind.
  destruct (Storage.order_create db now customer now) as [e | [db1 order]]; [reflexivity|].
  cbv zeta.
  destruct (calculate_total_amount (Storage.order_products_set db1 order ps) order)
    as [order' total]. reflexivity.
Qed.

Lemma with_orders_frame (now : Z) (data : list (Customer.t * list Product.t)) :
  forall db,
    customers (with_orders db now data) = customers db /\
    products (with_orders db now data) = products db /\
    next_customer_id (with_orders db now data) = next_customer_id db /\
    next_product_id (with_orders db now data) = next_product_id db /\
    next_order_id (with_orders db now data)
    = next_order_id db + Z.of_nat (List.length data).
Proof.
  induction data as [|[c ps] rest IH]; intros db.
  - cbn. rewrite Z.add_0_r. auto.
  - cbn [with_orders]. destruct (IH (with_order db
        (placed_order db now c (Some now) (attached db (map Product.id ps))) ps))
      as (H1 & H2 & H3 & H4 & H5).
    rewrite H1, H2, H3, H4, H5. cbn [with_order customers products next_customer_id
      next_product_id next_order_id List.length].
    repeat split. lia.
Qed.

Lemma attached_same_products (db1 db2 : DB) (ns : list Z) :
  products db1 = products db2 -> attached db1 ns = attached db2 ns.
Proof. unfold attached. now intros ->. Qed.

Lemma order_rows_same_products (db1 db2 : DB) (now : Z)
      (data : list (Customer.t * list Product.t)) :
  products db1 = products db2 ->
  forall n, order_rows db1 n now data = order_rows db2 n now data.
Proof.
  intros E. induction data as [|[c ps] rest IH]; intros n; cbn; [reflexivity|].
  rewrite IH. unfold total_of. now rewrite (attached_same_products db1 db2 _ E).
Qed.

Lemma order_lines_same_products (db1 db2 : DB)
      (data : list (Customer.t * list Product.t)) :
  products db1 = products db2 -> order_lines db1 data = order_lines db2 data.
Proof.
  intros E. unfold order_lines. apply map_ext. intros [c ps].
  unfold total_of. now rewrite (attached_same_products db1 db2 _ E).
Qed.

(** The orders the loop stores: one per entry, with the next keys and
    the total of the entry's products. *)
Lemma with_orders_rows (now : Z) (data : list (Customer.t * list Product.t)) :
  forall db,
    orders (with_orders db now data)
    = (orders db ++ order_rows db (next_order_id db) now data)%list.
Proof.
  induction data as [|[c ps] rest IH]; intros db.
  - cbn. now rewrite app_nil_r.
  - cbn [with_orders]. rewrite IH.
    cbn [with_order orders next_order_id order_rows].
    rewrite <- app_assoc. cbn [app]. f_equal. f_equal.
    apply order_rows_same_products. reflexivity.
Qed.

Lemma create_orders_run (now : Z) (data : list (Customer.t * list Product.t)) :
  forall (db : DB) (out : list string),
    (forall d, In d data -> In (fst d) (customers db)) ->
    (forall r, In r (orders db) -> Order.id r < next_order_id db) ->
    seed_db.create_orders db now data out
    = inr (with_orders db now data, (out ++ order_lines db data)%list).
Proof.
  induction data as [|[c ps] rest IH]; intros db out Hin Hlt.
  - cbn. now rewrite app_nil_r.
  - rewrite seed_order_step.
    rewrite (create_explicit db now c (Some now) ps (Hin _ (or_introl eq_refl)) Hlt).
    rewrite IH.
    + rewrite (order_lines_same_products
                 (with_order db (placed_order db now c (Some now)
                                   (attached db (map Product.id ps))) ps)
                 db rest eq_refl).
      cbn [with_orders]. unfold Py.append, order_lines.
      rewrite <- app_assoc. reflexivity.
    + intros d Hd. exact (Hin d (or_intror Hd)).
    + cbn [with_order orders next_order_id]. intros r Hr.
      apply in_app_or in Hr as [Hr | [<- | []]].
      * apply Hlt in Hr. lia.
      * cbn. lia.
Qed.

Lemma with_order_wf (db : DB) (o : Order.t) (ps : list Product.t) :
  wf_db db -> Order.id o = next_order_id db -> wf_db (with_order db o ps).
Proof.
  intros [H1 H2 H3 H4 H5 H6 H7] Hid.
  constructor; cbn [with_order customers products orders next_customer_id
                    next_product_id next_order_id]; try assumption.
  - rewrite map_app. apply NoDup_snoc; [exact H3|]. cbn.
    intros Hin. apply in_map_iff in Hin as (r & E & Hr). apply H7 in Hr. lia.
  - intros r Hr. apply in_app_or in Hr as [Hr | [<- | []]]; [apply H7 in Hr|]; lia.
Qed.

Lemma totals_with_any_order (db : DB) (now : Z) (customer : Customer.t)
      (order_date : option Z) (ps : list Product.t) :
  (forall r, In r (orders db) -> Order.id r < next_order_id db) ->
  totals_consistent db ->
  totals_consistent
    (with_order db
       (placed_order db now customer order_date (attached db (map Product.id ps))) ps).
Proof.
  intros Hlt H o Ho. cbn [with_order orders] in Ho.
  apply in_app_or in Ho as [Ho | [<- | []]].
  - rewrite with_order_keeps_links; [exact (H o Ho)|].
    cbn [placed_order Order.id]. apply Hlt in Ho. lia.
  - unfold Storage.order_products_all, with_order.
    cbn [products order_products placed_order Order.id Order.total_amount].
    now rewrite links_select.
Qed.

Lemma with_orders_keep (now : Z) (data : list (Customer.t * list Product.t)) :
  forall db,
    wf_db db -> totals_consistent db ->
    wf_db (with_orders db now data) /\ totals_consistent (with_orders db now data).
Proof.
  induction data as [|[c ps] rest IH]; intros db Hwf Ht; [now split|].
  cbn [with_orders]. apply IH.
  - now apply with_order_wf.
  - apply totals_with_any_order; [exact (wf_next_order db Hwf) | exact Ht].
Qed.

Lemma filter_cons_true {A : Type} (f : A -> bool) (x : A) (l : list A) :
  f x = true -> filter f (x :: l) = x :: filter f l.
Proof. intros H. cbn. now rewrite H. Qed.

Lemma filter_cons_false {A : Type} (f : A -> bool) (x : A) (l : list A) :
  f x = false -> filter f (x :: l) = filter f l.
Proof. intros H. cbn. now rewrite H. Qed.

Lemma mem_id_false (n : Z) (ns : list Z) : ~ In n ns -> Storage.mem_id n ns = false.
Proof. intros H. apply not_true_is_false. now rewrite mem_id_In. Qed.

Ltac select_rows :=
  unfold total_of, attached;
  cbn [products map Product.id product_rows seed_db.products_data nth snd];
  repeat first
    [ rewrite filter_cons_true by (apply mem_id_In; cbn [In Product.id]; lia)
    | rewrite filter_cons_false
        by (apply mem_id_false; cbn [In Product.id]; intros H; decompose [or] H; lia) ];
  reflexivity.


(** **** Extra X19.
    [seed_database] can be run on any state and never raises: whatever
    was stored is deleted first, so the five emails cannot collide.  It
    leaves exactly the five customers and the eight products of its data
    under fresh keys, and five orders, one per customer, with the totals
    1025.49, 224.99, 299.99, 1325.48 and 109.98; it prints the lines
    below; and the tables it leaves are well formed, every stored total
    being the sum of the prices of the products linked to its order. *)
Theorem seed_database_rebuilds_the_sample_data :
  forall (db : DB) (now : Z),
  exists db' out,
    seed_db.seed_database db now = inr (db', out) /\
    customers db' = customer_rows (next_customer_id db) now seed_db.customers_data /\
    products db' = product_rows (next_product_id db) now seed_db.products_data /\
    map (fun o => (Order.id o, Order.customer o, Py.dec_str (Order.total_amount o)))
        (orders db')
    = [ (next_order_id db, next_customer_id db, "1025.49");
        (next_order_id db + 1, next_customer_id db + 1, "224.99");
        (next_order_id db + 2, next_customer_id db + 2, "299.99");
        (next_order_id db + 3, next_customer_id db + 3, "1325.48");
        (next_order_id db + 4, next_customer_id db + 4, "109.98") ] /\
    out = [ "Starting database seeding...";
            "Cleared existing data.";
            "Created customer: Alice Johnson";
            "Created customer: Bob Smith";
            "Created customer: Carol Davis";
            "Created customer: David Wilson";
            "Created customer: Eva Brown";
            "Created product: Laptop";
            "Created product: Mouse";
            "Created product: Keyboard";
            "Created product: Monitor";
            "Created product: Headphones";
            "Created product: Webcam";
            "Created product: Desk Chair";
            "Created product: USB Drive";
            "Created order for Alice Johnson with total: $1025.49";
            "Created order for Bob Smith with total: $224.99";
            "Created order for Carol Davis with total: $299.99";
            "Created order for David Wilson with total: $1325.48";
            "Created order for Eva Brown with total: $109.98";
            String "010" "Database seeding completed!";
            "Created 5 customers";
            "Created 8 products";
            "Created 5 orders" ] /\
    wf_db db' /\ totals_consistent db'.
Proof.
  intros db now.
  destruct db as [cs ps os links nc np no].
  unfold seed_db.seed_database, Storage.orders_delete_all, Storage.products_delete_all,
    Storage.customers_delete_all.
  cbn [customers products orders order_products next_customer_id next_product_id
       next_order_id existsb filter].
  cbv zeta.
  cbn [customers products orders order_products next_customer_id next_product_id
       next_order_id existsb filter].
  match goal with |- context [mkDB [] [] [] ?l _ _ _] => generalize l; intros L end.
  rewrite customer_rows_emails_fresh.
  2:{ cbn. repeat constructor; cbn; intuition discriminate. }
  2:{ intros d _ (c & [] & _). }
  cbn [seed_db.lift customers products orders order_products next_customer_id
       next_product_id next_order_id app].
  rewrite product_rows_created.
  2:{ intros d Hd. cbn in Hd. decompose [or] Hd; subst; cbn; try lia; try contradiction. }
  cbn [seed_db.lift customers products orders order_products next_customer_id
       next_product_id next_order_id app].
  change (Z.of_nat (List.length seed_db.customers_data)) with 5.
  change (Z.of_nat (List.length seed_db.products_data)) with 8.
  set (db2 := mkDB (customer_rows nc now seed_db.customers_data)
                   (product_rows np now seed_db.products_data) [] L (nc + 5) (np + 8) no).
  cbn [customer_rows product_rows seed_db.customers_data seed_db.products_data
       seed_db.orders_data].
  rewrite create_orders_run.
  2:{ intros d Hd. cbn [customers db2 customer_rows seed_db.customers_data].
      cbn [In] in Hd.
      decompose [or] Hd; subst; cbn [fst In]; auto 10; try contradiction. }
  2:{ intros r []. }
  cbn [seed_db.lift].
  match goal with |- context [with_orders db2 now ?d] => set (data := d) end.
  assert (Hwf2 : wf_db db2).
  { constructor; cbn [db2 customers products orders next_customer_id next_product_id
                      next_order_id customer_rows product_rows seed_db.customers_data
                      seed_db.products_data map Customer.id Product.id Order.id
                      Customer.email].
    - repeat constructor; cbn [In]; intros H; decompose [or] H; lia.
    - repeat constructor; cbn [In]; intros H; decompose [or] H; lia.
    - constructor.
    - repeat constructor; cbn; intuition discriminate.
    - intros c Hc. cbn [In] in Hc. decompose [or] Hc; subst; cbn; try lia; contradiction.
    - intros p Hp. cbn [In] in Hp. decompose [or] Hp; subst; cbn; try lia; contradiction.
    - intros o []. }
  assert (Ht2 : totals_consistent db2) by (intros o []).
  destruct (with_orders_frame now data db2) as (F1 & F2 & _).
  pose proof (with_orders_rows now data db2) as F3.
  destruct (with_orders_keep now data db2 Hwf2 Ht2) as [Hwf' Ht'].
  assert (T1 : total_of db2 (snd (nth 0 data (alice, []))) = Py.mkDecimal 102549 (-2))
    by (unfold data, db2; select_rows).
  assert (T2 : total_of db2 (snd (nth 1 data (alice, []))) = Py.mkDecimal 22499 (-2))
    by (unfold data, db2; select_rows).
  assert (T3 : total_of db2 (snd (nth 2 data (alice, []))) = Py.mkDecimal 29999 (-2))
    by (unfold data, db2; select_rows).
  assert (T4 : total_of db2 (snd (nth 3 data (alice, []))) = Py.mkDecimal 132548 (-2))
    by (unfold data, db2; select_rows).
  assert (T5 : total_of db2 (snd (nth 4 data (alice, []))) = Py.mkDecimal 10998 (-2))
    by (unfold data, db2; select_rows).
  cbn [nth data snd] in T1, T2, T3, T4, T5.
  eexists. eexists. split; [reflexivity|].
  split; [exact F1|]. split; [exact F2|].
  split; [|split; [|split; [exact Hwf' | exact Ht']]].
  - rewrite F3. cbn [db2 orders next_order_id app data order_rows map Order.id
                     Order.customer Order.total_amount Customer.id].
    rewrite T1, T2, T3, T4, T5.
    repeat (f_equal; try lia).
  - unfold seed_db.customer_count, seed_db.product_count, seed_db.order_count.
    rewrite F1, F2, F3.
    cbn [db2 orders next_order_id app data order_rows order_lines map].
    rewrite T1, T2, T3, T4, T5.
    reflexivity.
Qed.

Lemma bulk_errors_are_ordered_validation_errors_witness :
  (CustomerValidationError.index (CustomerValidationError.mk 0 [email_exists_error]) < 1)%nat /\
  CustomerValidationError.errors (CustomerValidationError.mk 0 [email_exists_error]) <> [] /\
  forall fe,
    In fe (CustomerValidationError.errors
             (CustomerValidationError.mk 0 [email_exists_error])) ->
    fe = email_exists_error \/ fe = phone_format_error.
Proof.
  apply (proj2 (bulk_errors_are_ordered_validation_errors seeded 9
                  [CustomerInput.mk "Alice" "alice@example.com" None])
               (CustomerValidationError.mk 0 [email_exists_error])).
  vm_compute. left. reflexivity.
Defined.
